(** * Apex Engineer: the live-session glue of LiveCoach and SetupAssistant

    A shallow embedding of the event handlers of the two React components
    that drive a realtime session ([components/LiveCoach.tsx] and
    [components/SetupAssistant.tsx]), together with the small part of the
    browser they act on (timers, media tracks, audio sources, audio
    contexts).  Handlers are state transformers; an [async] handler is cut at
    each [await] into a part that runs up to the [await] and a part that
    resumes with the awaited outcome.  The text request of SetupAssistant,
    the view switch of [App.tsx] with [components/Navigation.tsx], and the
    simulated lap of [components/TelemetryDashboard.tsx] follow. *)

From Stdlib Require Import QArith Qminmax Qround Lqa.
From Stdlib Require Import DecimalString DecimalFacts DecimalN String Ascii.
From stdpp Require Import base option gmap sets list.

Set Warnings "-clear-no-such-hyp".

(** ** JavaScript strings and the few string operations the handlers use *)

Module JS.

(** A JavaScript string is a sequence of UTF-16 code units. *)
Definition JSString := list N.

(** An ASCII literal of the source as a JavaScript string. *)
Definition js (s : string) : JSString := map N_of_ascii (list_ascii_of_string s).

(** Truthiness of a string: every string but the empty one. *)
Definition truthy (s : JSString) : bool :=
  match s with [] => false | _ :: _ => true end.

(** [a || b] where [a] is a string that may be [undefined]. *)
Definition orElse (a : option JSString) (b : JSString) : JSString :=
  match a with
  | Some x => if truthy x then x else b
  | None => b
  end.

(** The code units [String.prototype.trim] strips: ECMAScript WhiteSpace
    and LineTerminator. *)
Definition isWhiteSpace (c : N) : bool :=
  ((9 <=? c) && (c <=? 13) || (c =? 32) || (c =? 160) || (c =? 5760)
   || (8192 <=? c) && (c <=? 8202) || (c =? 8232) || (c =? 8233)
   || (c =? 8239) || (c =? 8287) || (c =? 12288) || (c =? 65279))%N.

Fixpoint trimStart (s : JSString) : JSString :=
  match s with
  | [] => []
  | c :: r => if isWhiteSpace c then trimStart r else s
  end.

Definition trimEnd (s : JSString) : JSString := rev (trimStart (rev s)).

Definition trim (s : JSString) : JSString := trimEnd (trimStart s).

(** [n.toString()] for a non-negative integer: its decimal digits. *)
Definition toString (n : N) : JSString :=
  js (NilZero.string_of_uint (N.to_uint n)).

(** A caught exception value; [message] is [undefined] when the thrown
    value is not an [Error]. *)
Record JSError := { message : option JSString }.

End JS.

(** ** The browser objects the handlers act on *)

Module Web.

(** An [AudioBuffer]: [duration] is its length in sample frames over its
    sample rate, hence never negative. *)
Record AudioBuffer := { bufLength : N; bufSampleRate : positive }.

Definition duration (b : AudioBuffer) : Q := Z.of_N (bufLength b) # bufSampleRate b.

(** A [MediaStream], seen through [getTracks()]. *)
Record MediaStream := { getTracks : list nat }.

(** One call [source.start(when)] of a buffer source.  Times are exact
    rationals, in seconds; the rounding of JavaScript numbers is left
    out. *)
Record Scheduled := { source : nat; when : Q; buffer : AudioBuffer }.

Definition endTime (c : Scheduled) : Q := (when c + duration (buffer c))%Q.

(** Requests to the outside world that open something. *)
Inductive Request := GetUserMedia | GetDisplayMedia | Connect | GenerateContent.

(** The state of the browser objects.  Tracks, sources and contexts are
    named by numbers, interval handles by positive numbers ([setInterval]
    never returns 0).  [closedContexts] are the contexts whose [state]
    attribute reads ['closed']; [closeRequested] those on which [close()]
    was called (the attribute changes when the browser completes the
    close).  [scheduled] lists the [start] calls, oldest first. *)
Record Browser := {
  clearedIntervals : gset positive;
  stoppedTracks : gset nat;
  stoppedSources : gset nat;
  closedContexts : gset nat;
  closeRequested : gset nat;
  nextSource : nat;
  scheduled : list Scheduled;
  requests : list Request
}.

Definition clearInterval (h : positive) (b : Browser) : Browser :=
  {| clearedIntervals := {[h]} ∪ clearedIntervals b;
     stoppedTracks := stoppedTracks b; stoppedSources := stoppedSources b;
     closedContexts := closedContexts b; closeRequested := closeRequested b;
     nextSource := nextSource b; scheduled := scheduled b; requests := requests b |}.

(** [track.stop()] *)
Definition stopTrack (t : nat) (b : Browser) : Browser :=
  {| clearedIntervals := clearedIntervals b;
     stoppedTracks := {[t]} ∪ stoppedTracks b; stoppedSources := stoppedSources b;
     closedContexts := closedContexts b; closeRequested := closeRequested b;
     nextSource := nextSource b; scheduled := scheduled b; requests := requests b |}.

(** [stream.getTracks().forEach(t => t.stop())] *)
Definition stopTracks (st : MediaStream) (b : Browser) : Browser :=
  foldl (λ acc t, stopTrack t acc) b (getTracks st).

(** [sources.forEach(s => s.stop())] over a [Set] of sources. *)
Definition stopSources (srcs : gset nat) (b : Browser) : Browser :=
  {| clearedIntervals := clearedIntervals b;
     stoppedTracks := stoppedTracks b; stoppedSources := srcs ∪ stoppedSources b;
     closedContexts := closedContexts b; closeRequested := closeRequested b;
     nextSource := nextSource b; scheduled := scheduled b; requests := requests b |}.

(** [ctx.state !== 'closed'] *)
Definition notClosed (c : nat) (b : Browser) : bool :=
  bool_decide (c ∉ closedContexts b).

(** [ctx.close()] *)
Definition close (c : nat) (b : Browser) : Browser :=
  {| clearedIntervals := clearedIntervals b;
     stoppedTracks := stoppedTracks b; stoppedSources := stoppedSources b;
     closedContexts := closedContexts b; closeRequested := {[c]} ∪ closeRequested b;
     nextSource := nextSource b; scheduled := scheduled b; requests := requests b |}.

(** [if (ctx.state !== 'closed') ctx.close()] *)
Definition closeIfOpen (c : nat) (b : Browser) : Browser :=
  if notClosed c b then close c b else b.

(** The browser completes the close of a context: its [state] attribute
    now reads ['closed']. *)
Definition closeCompleted (c : nat) (b : Browser) : Browser :=
  {| clearedIntervals := clearedIntervals b;
     stoppedTracks := stoppedTracks b; stoppedSources := stoppedSources b;
     closedContexts := {[c]} ∪ closedContexts b; closeRequested := closeRequested b;
     nextSource := nextSource b; scheduled := scheduled b; requests := requests b |}.

(** [ctx.createBufferSource()]: a source no one holds yet. *)
Definition createBufferSource (b : Browser) : nat * Browser :=
  (nextSource b,
   {| clearedIntervals := clearedIntervals b;
      stoppedTracks := stoppedTracks b; stoppedSources := stoppedSources b;
      closedContexts := closedContexts b; closeRequested := closeRequested b;
      nextSource := S (nextSource b); scheduled := scheduled b; requests := requests b |}).

(** [source.buffer = buf; source.start(t)] *)
Definition start (src : nat) (t : Q) (buf : AudioBuffer) (b : Browser) : Browser :=
  {| clearedIntervals := clearedIntervals b;
     stoppedTracks := stoppedTracks b; stoppedSources := stoppedSources b;
     closedContexts := closedContexts b; closeRequested := closeRequested b;
     nextSource := nextSource b;
     scheduled := scheduled b ++ [ {| source := src; when := t; buffer := buf |} ];
     requests := requests b |}.

Definition request (r : Request) (b : Browser) : Browser :=
  {| clearedIntervals := clearedIntervals b;
     stoppedTracks := stoppedTracks b; stoppedSources := stoppedSources b;
     closedContexts := closedContexts b; closeRequested := closeRequested b;
     nextSource := nextSource b; scheduled := scheduled b;
     requests := requests b ++ [r] |}.

Definition emptyBrowser : Browser :=
  {| clearedIntervals := ∅; stoppedTracks := ∅; stoppedSources := ∅;
     closedContexts := ∅; closeRequested := ∅; nextSource := 0;
     scheduled := []; requests := [] |}.

End Web.

(** ** Messages of the live session, as far as the handlers read them *)

Module Live.
Import JS.

Record InlineData := { data : option JSString }.
Record Part := { inlineData : option InlineData }.
Record ModelTurn := { parts : option (list Part) }.
Record Transcription := { transcriptionText : option JSString }.

Record ServerContent := {
  modelTurn : option ModelTurn;
  outputTranscription : option Transcription;
  turnComplete : bool;
  interrupted : bool
}.

Record FunctionArgs := { argFilename : JSString; argContent : JSString }.
Record FunctionCall := { fcName : JSString; fcId : JSString; fcArgs : FunctionArgs }.
Record ToolCall := { functionCalls : list FunctionCall }.

Record LiveServerMessage := {
  serverContent : option ServerContent;
  toolCall : option ToolCall
}.

(** [message.serverContent?.modelTurn?.parts?.[0]?.inlineData?.data] *)
Definition base64Audio (m : LiveServerMessage) : option JSString :=
  sc ← serverContent m; mt ← modelTurn sc; ps ← parts mt;
  p ← head ps; d ← inlineData p; data d.

(** The audio the handler acts on: [base64Audio && outputCtx], where
    [outputCtx] is the context object the handler closes over. *)
Definition audioOf (m : LiveServerMessage) : option JSString :=
  match base64Audio m with
  | Some a => if truthy a then Some a else None
  | None => None
  end.

(** [message.serverContent?.interrupted] *)
Definition isInterrupted (m : LiveServerMessage) : bool :=
  match serverContent m with Some sc => interrupted sc | None => false end.

(** [message.serverContent?.turnComplete] *)
Definition isTurnComplete (m : LiveServerMessage) : bool :=
  match serverContent m with Some sc => turnComplete sc | None => false end.

(** [message.serverContent?.outputTranscription?.text], when truthy *)
Definition transcriptPart (m : LiveServerMessage) : option JSString :=
  match (sc ← serverContent m; tr ← outputTranscription sc; transcriptionText tr) with
  | Some t => if truthy t then Some t else None
  | None => None
  end.

End Live.

(** ** components/LiveCoach.tsx

    Both versions of the component in the repository (the one with the
    driving/garage modes and the one with the engineer/samir modes) have
    the same refs and the same [stopSession], [onmessage], [onerror],
    [onclose] and [startScreenShare]; they differ in the prompt and voice
    they connect with, which no handler below reads. *)

Module LiveCoach.
Import JS Web Live.

(** The React state and the refs of the component, and the browser. *)
Record State := {
  isActive : bool;
  error : option JSString;
  status : JSString;
  isScreenSharing : bool;
  streamRef : option MediaStream;
  screenStreamRef : option MediaStream;
  audioContextRef : option nat;
  inputContextRef : option nat;
  nextStartTimeRef : Q;
  sessionRef : option nat;
  frameIntervalRef : option positive;
  sourcesRef : gset nat;
  browser : Browser
}.

Definition setIsActive (v : bool) (s : State) : State :=
  Build_State v (error s) (status s) (isScreenSharing s) (streamRef s) (screenStreamRef s)
    (audioContextRef s) (inputContextRef s) (nextStartTimeRef s) (sessionRef s)
    (frameIntervalRef s) (sourcesRef s) (browser s).
Definition setError (v : option JSString) (s : State) : State :=
  Build_State (isActive s) v (status s) (isScreenSharing s) (streamRef s) (screenStreamRef s)
    (audioContextRef s) (inputContextRef s) (nextStartTimeRef s) (sessionRef s)
    (frameIntervalRef s) (sourcesRef s) (browser s).
Definition setStatus (v : JSString) (s : State) : State :=
  Build_State (isActive s) (error s) v (isScreenSharing s) (streamRef s) (screenStreamRef s)
    (audioContextRef s) (inputContextRef s) (nextStartTimeRef s) (sessionRef s)
    (frameIntervalRef s) (sourcesRef s) (browser s).
Definition setIsScreenSharing (v : bool) (s : State) : State :=
  Build_State (isActive s) (error s) (status s) v (streamRef s) (screenStreamRef s)
    (audioContextRef s) (inputContextRef s) (nextStartTimeRef s) (sessionRef s)
    (frameIntervalRef s) (sourcesRef s) (browser s).
Definition set_streamRef (v : option MediaStream) (s : State) : State :=
  Build_State (isActive s) (error s) (status s) (isScreenSharing s) v (screenStreamRef s)
    (audioContextRef s) (inputContextRef s) (nextStartTimeRef s) (sessionRef s)
    (frameIntervalRef s) (sourcesRef s) (browser s).
Definition set_screenStreamRef (v : option MediaStream) (s : State) : State :=
  Build_State (isActive s) (error s) (status s) (isScreenSharing s) (streamRef s) v
    (audioContextRef s) (inputContextRef s) (nextStartTimeRef s) (sessionRef s)
    (frameIntervalRef s) (sourcesRef s) (browser s).
Definition set_audioContextRef (v : option nat) (s : State) : State :=
  Build_State (isActive s) (error s) (status s) (isScreenSharing s) (streamRef s) (screenStreamRef s)
    v (inputContextRef s) (nextStartTimeRef s) (sessionRef s)
    (frameIntervalRef s) (sourcesRef s) (browser s).
Definition set_inputContextRef (v : option nat) (s : State) : State :=
  Build_State (isActive s) (error s) (status s) (isScreenSharing s) (streamRef s) (screenStreamRef s)
    (audioContextRef s) v (nextStartTimeRef s) (sessionRef s)
    (frameIntervalRef s) (sourcesRef s) (browser s).
Definition set_nextStartTimeRef (v : Q) (s : State) : State :=
  Build_State (isActive s) (error s) (status s) (isScreenSharing s) (streamRef s) (screenStreamRef s)
    (audioContextRef s) (inputContextRef s) v (sessionRef s)
    (frameIntervalRef s) (sourcesRef s) (browser s).
Definition set_sessionRef (v : option nat) (s : State) : State :=
  Build_State (isActive s) (error s) (status s) (isScreenSharing s) (streamRef s) (screenStreamRef s)
    (audioContextRef s) (inputContextRef s) (nextStartTimeRef s) v
    (frameIntervalRef s) (sourcesRef s) (browser s).
Definition set_frameIntervalRef (v : option positive) (s : State) : State :=
  Build_State (isActive s) (error s) (status s) (isScreenSharing s) (streamRef s) (screenStreamRef s)
    (audioContextRef s) (inputContextRef s) (nextStartTimeRef s) (sessionRef s)
    v (sourcesRef s) (browser s).
Definition set_sourcesRef (v : gset nat) (s : State) : State :=
  Build_State (isActive s) (error s) (status s) (isScreenSharing s) (streamRef s) (screenStreamRef s)
    (audioContextRef s) (inputContextRef s) (nextStartTimeRef s) (sessionRef s)
    (frameIntervalRef s) v (browser s).
Definition set_browser (v : Browser) (s : State) : State :=
  Build_State (isActive s) (error s) (status s) (isScreenSharing s) (streamRef s) (screenStreamRef s)
    (audioContextRef s) (inputContextRef s) (nextStartTimeRef s) (sessionRef s)
    (frameIntervalRef s) (sourcesRef s) v.

(** The component as first rendered. *)
Definition initial (b : Browser) : State :=
  {| isActive := false; error := None; status := js "Ready to Connect";
     isScreenSharing := false; streamRef := None; screenStreamRef := None;
     audioContextRef := None; inputContextRef := None; nextStartTimeRef := 0;
     sessionRef := None; frameIntervalRef := None; sourcesRef := ∅; browser := b |}.

(** [stopSession] *)
Definition stopSession (s : State) : State :=
  let s := match frameIntervalRef s with
           | Some h => set_frameIntervalRef None (set_browser (clearInterval h (browser s)) s)
           | None => s
           end in
  let s := match streamRef s with
           | Some st => set_streamRef None (set_browser (stopTracks st (browser s)) s)
           | None => s
           end in
  let s := match screenStreamRef s with
           | Some st => set_screenStreamRef None (set_browser (stopTracks st (browser s)) s)
           | None => s
           end in
  let s := set_browser (stopSources (sourcesRef s) (browser s)) s in
  let s := set_sourcesRef ∅ s in
  let s := match audioContextRef s with
           | Some c => set_audioContextRef None (set_browser (closeIfOpen c (browser s)) s)
           | None => s
           end in
  let s := match inputContextRef s with
           | Some c => set_inputContextRef None (set_browser (closeIfOpen c (browser s)) s)
           | None => s
           end in
  let s := setIsActive false s in
  let s := setIsScreenSharing false s in
  setStatus (js "Disconnected") s.

(** [startSession], up to [await getUserMedia]; [inputCtx] and [outputCtx]
    name the two contexts the constructor calls return. *)
Definition startSession_begin (inputCtx outputCtx : nat) (s : State) : State :=
  let s := setError None s in
  let s := setStatus (js "Initializing Audio...") s in
  let s := set_inputContextRef (Some inputCtx) s in
  let s := set_audioContextRef (Some outputCtx) s in
  let s := set_nextStartTimeRef 0 s in
  set_browser (request GetUserMedia (browser s)) s.

(** The [catch] block of [startSession]. *)
Definition startSession_catch (e : JSError) (s : State) : State :=
  let s := setError (Some (orElse (message e) (js "Failed to start session"))) s in
  stopSession s.

(** [startSession] from the [await] on: [mic] is what [getUserMedia]
    settled with, [conn] the promise [ai.live.connect] returned or the
    exception it threw. *)
Definition startSession_resume (mic : MediaStream + JSError) (conn : nat + JSError)
    (s : State) : State :=
  match mic with
  | inr e => startSession_catch e s
  | inl micStream =>
      let s := set_streamRef (Some micStream) s in
      let s := setStatus (js "Connecting to Gemini Live...") s in
      let s := set_browser (request Connect (browser s)) s in
      match conn with
      | inr e => startSession_catch e s
      | inl sessionPromise => set_sessionRef (Some sessionPromise) s
      end
  end.

(** The [onopen] callback (the microphone pipeline it installs is
    [MicPipeline] below). *)
Definition onopen (s : State) : State :=
  setIsActive true (setStatus (js "Connected! Listening...") s).

Section Handlers.

(** [decodeAudioData(base64ToUint8Array(a), outputCtx, 24000, 1)] of
    [services/audioUtils], taken as given. *)
Variable decodeAudioData : JSString → AudioBuffer.

(** [onmessage], up to [await decodeAudioData]; [currentTime] is what
    [outputCtx.currentTime] reads.  A message without audio does not
    await. *)
Definition onmessage_begin (currentTime : Q) (m : LiveServerMessage) (s : State) : State :=
  match audioOf m with
  | Some _ => set_nextStartTimeRef (Qmax (nextStartTimeRef s) currentTime) s
  | None => s
  end.

(** [onmessage] from the [await] on. *)
Definition onmessage_resume (m : LiveServerMessage) (s : State) : State :=
  let s := match audioOf m with
           | Some a =>
               let audioBuffer := decodeAudioData a in
               let '(source, b) := createBufferSource (browser s) in
               let b := start source (nextStartTimeRef s) audioBuffer b in
               let s := set_browser b s in
               let s := set_nextStartTimeRef (nextStartTimeRef s + duration audioBuffer) s in
               set_sourcesRef ({[source]} ∪ sourcesRef s) s
           | None => s
           end in
  if isInterrupted m then
    let s := set_browser (stopSources (sourcesRef s) (browser s)) s in
    let s := set_sourcesRef ∅ s in
    set_nextStartTimeRef 0 s
  else s.

(** [onmessage] run to its end with no other handler in between. *)
Definition onmessage (currentTime : Q) (m : LiveServerMessage) (s : State) : State :=
  onmessage_resume m (onmessage_begin currentTime m s).

(** The messages of a session handled one after the other, each with the
    [currentTime] read when it arrives. *)
Definition onmessages (ms : list (Q * LiveServerMessage)) (s : State) : State :=
  foldl (λ acc tm, onmessage (fst tm) (snd tm) acc) s ms.

(** The ['ended'] listener of a source. *)
Definition sourceEnded (src : nat) (s : State) : State :=
  set_sourcesRef (sourcesRef s ∖ {[src]}) s.

(** [onclose] *)
Definition onclose (s : State) : State :=
  stopSession (setStatus (js "Session Closed") s).

(** [onerror] *)
Definition onerror (s : State) : State :=
  stopSession (setError (Some (js "Connection Error")) s).

(** [startScreenShare], up to [await getDisplayMedia]. *)
Definition startScreenShare_begin (s : State) : State :=
  set_browser (request GetDisplayMedia (browser s)) s.

(** The [catch] block of [startScreenShare]. *)
Definition startScreenShare_catch (e : JSError) (s : State) : State :=
  setError (Some (js "Screen share error: "
                  ++ orElse (message e) (js "Permission denied or cancelled"))) s.

(** [startScreenShare] from the [await] on.  [video] and [canvas] tell
    whether [videoRef.current] and [canvasRef.current] are mounted, [h] is
    the handle [setInterval] returns. *)
Definition startScreenShare_resume (screen : MediaStream + JSError)
    (video canvas : bool) (h : positive) (s : State) : State :=
  match screen with
  | inr e => startScreenShare_catch e s
  | inl screenStream =>
      let s := set_screenStreamRef (Some screenStream) s in
      let s := setIsScreenSharing true s in
      if bool_decide (is_Some (sessionRef s)) && canvas && video
      then set_frameIntervalRef (Some h) s
      else s
  end.

(** The [onended] handler of the shared video track. *)
Definition screenEnded (s : State) : State :=
  let s := setIsScreenSharing false s in
  match frameIntervalRef s with
  | Some h => set_browser (clearInterval h (browser s)) s
  | None => s
  end.

(** Everything that can happen to the component.  The two halves of
    [onmessage] are separate events, so that a run may interleave the
    handlers of several messages at their [await]. *)
Inductive Event :=
| StartBegin (inputCtx outputCtx : nat)
| StartResume (mic : MediaStream + JSError) (conn : nat + JSError)
| OnOpen
| OnMessageBegin (currentTime : Q) (m : LiveServerMessage)
| OnMessageResume (m : LiveServerMessage)
| OnClose
| OnError
| Stop
| ShareBegin
| ShareResume (screen : MediaStream + JSError) (video canvas : bool) (h : positive)
| ScreenEnded
| SourceEnded (src : nat)
| CloseCompleted (c : nat).

Definition handle (e : Event) (s : State) : State :=
  match e with
  | StartBegin i o => startSession_begin i o s
  | StartResume mic conn => startSession_resume mic conn s
  | OnOpen => onopen s
  | OnMessageBegin t m => onmessage_begin t m s
  | OnMessageResume m => onmessage_resume m s
  | OnClose => onclose s
  | OnError => onerror s
  | Stop => stopSession s
  | ShareBegin => startScreenShare_begin s
  | ShareResume screen video canvas h => startScreenShare_resume screen video canvas h s
  | ScreenEnded => screenEnded s
  | SourceEnded src => sourceEnded src s
  | CloseCompleted c => set_browser (closeCompleted c (browser s)) s
  end.

Definition run (es : list Event) (s : State) : State :=
  foldl (λ acc e, handle e acc) s es.

End Handlers.

End LiveCoach.

(** ** types.ts *)

Module Types.
Import JS.

Record SetupFile := { filename : JSString; content : JSString }.

Inductive Role := user | model.

(** [timestamp] is the clock reading [new Date()] took, in milliseconds. *)
Record ChatMessage := {
  id : JSString;
  role : Role;
  text : JSString;
  image : option JSString;
  setupFile : option SetupFile;
  timestamp : N
}.

End Types.

(** ** components/SetupAssistant.tsx *)

Module SetupAssistant.
Import JS Web Live Types.

(** What [session.sendToolResponse] is given. *)
Record ToolResponse := { respName : JSString; respId : JSString; respResult : JSString }.

(** [new Blob(parts, { type })] and the file a click on the anchor saves.
    A blob holds its parts as the strings they are; how the browser encodes
    them to bytes is left out. *)
Record Blob := { blobParts : list JSString; blobType : JSString }.
Record Download := { download : JSString; href : Blob }.

(** The text a blob holds: its parts one after the other. *)
Definition blobText (b : Blob) : JSString := concat (blobParts b).

(** The React state and the refs of the component, and the browser.
    [clockReads] counts the readings of the clock taken so far,
    [toolResponses] and [downloads] list the tool responses handed to the
    session and the files saved, oldest first.  [messagesHistory] is a ghost
    field: the value of [messages] after each [setMessages] call, oldest
    first. *)
Record State := {
  messages : list ChatMessage;
  inputText : JSString;
  selectedImage : option JSString;
  isLoading : bool;
  isLive : bool;
  liveStatus : JSString;
  isScreenSharing : bool;
  currentTranscript : JSString;
  streamRef : option MediaStream;
  screenStreamRef : option MediaStream;
  audioContextRef : option nat;
  inputContextRef : option nat;
  nextStartTimeRef : Q;
  sessionRef : option nat;
  frameIntervalRef : option positive;
  sourcesRef : gset nat;
  transcriptBufferRef : JSString;
  browser : Browser;
  clockReads : nat;
  toolResponses : list ToolResponse;
  downloads : list Download;
  messagesHistory : list (list ChatMessage)
}.

Definition set_messages (v : list ChatMessage) (s : State) : State :=
  Build_State v (inputText s) (selectedImage s) (isLoading s) (isLive s) (liveStatus s)
    (isScreenSharing s) (currentTranscript s) (streamRef s) (screenStreamRef s)
    (audioContextRef s) (inputContextRef s) (nextStartTimeRef s) (sessionRef s)
    (frameIntervalRef s) (sourcesRef s) (transcriptBufferRef s) (browser s) (clockReads s)
    (toolResponses s) (downloads s) (messagesHistory s).
Definition setInputText (v : JSString) (s : State) : State :=
  Build_State (messages s) v (selectedImage s) (isLoading s) (isLive s) (liveStatus s)
    (isScreenSharing s) (currentTranscript s) (streamRef s) (screenStreamRef s)
    (audioContextRef s) (inputContextRef s) (nextStartTimeRef s) (sessionRef s)
    (frameIntervalRef s) (sourcesRef s) (transcriptBufferRef s) (browser s) (clockReads s)
    (toolResponses s) (downloads s) (messagesHistory s).
Definition setSelectedImage (v : option JSString) (s : State) : State :=
  Build_State (messages s) (inputText s) v (isLoading s) (isLive s) (liveStatus s)
    (isScreenSharing s) (currentTranscript s) (streamRef s) (screenStreamRef s)
    (audioContextRef s) (inputContextRef s) (nextStartTimeRef s) (sessionRef s)
    (frameIntervalRef s) (sourcesRef s) (transcriptBufferRef s) (browser s) (clockReads s)
    (toolResponses s) (downloads s) (messagesHistory s).
Definition setIsLoading (v : bool) (s : State) : State :=
  Build_State (messages s) (inputText s) (selectedImage s) v (isLive s) (liveStatus s)
    (isScreenSharing s) (currentTranscript s) (streamRef s) (screenStreamRef s)
    (audioContextRef s) (inputContextRef s) (nextStartTimeRef s) (sessionRef s)
    (frameIntervalRef s) (sourcesRef s) (transcriptBufferRef s) (browser s) (clockReads s)
    (toolResponses s) (downloads s) (messagesHistory s).
Definition setIsLive (v : bool) (s : State) : State :=
  Build_State (messages s) (inputText s) (selectedImage s) (isLoading s) v (liveStatus s)
    (isScreenSharing s) (currentTranscript s) (streamRef s) (screenStreamRef s)
    (audioContextRef s) (inputContextRef s) (nextStartTimeRef s) (sessionRef s)
    (frameIntervalRef s) (sourcesRef s) (transcriptBufferRef s) (browser s) (clockReads s)
    (toolResponses s) (downloads s) (messagesHistory s).
Definition setLiveStatus (v : JSString) (s : State) : State :=
  Build_State (messages s) (inputText s) (selectedImage s) (isLoading s) (isLive s) v
    (isScreenSharing s) (currentTranscript s) (streamRef s) (screenStreamRef s)
    (audioContextRef s) (inputContextRef s) (nextStartTimeRef s) (sessionRef s)
    (frameIntervalRef s) (sourcesRef s) (transcriptBufferRef s) (browser s) (clockReads s)
    (toolResponses s) (downloads s) (messagesHistory s).
Definition setIsScreenSharing (v : bool) (s : State) : State :=
  Build_State (messages s) (inputText s) (selectedImage s) (isLoading s) (isLive s)
    (liveStatus s) v (currentTranscript s) (streamRef s) (screenStreamRef s)
    (audioContextRef s) (inputContextRef s) (nextStartTimeRef s) (sessionRef s)
    (frameIntervalRef s) (sourcesRef s) (transcriptBufferRef s) (browser s) (clockReads s)
    (toolResponses s) (downloads s) (messagesHistory s).
Definition setCurrentTranscript (v : JSString) (s : State) : State :=
  Build_State (messages s) (inputText s) (selectedImage s) (isLoading s) (isLive s)
    (liveStatus s) (isScreenSharing s) v (streamRef s) (screenStreamRef s)
    (audioContextRef s) (inputContextRef s) (nextStartTimeRef s) (sessionRef s)
    (frameIntervalRef s) (sourcesRef s) (transcriptBufferRef s) (browser s) (clockReads s)
    (toolResponses s) (downloads s) (messagesHistory s).
Definition set_streamRef (v : option MediaStream) (s : State) : State :=
  Build_State (messages s) (inputText s) (selectedImage s) (isLoading s) (isLive s)
    (liveStatus s) (isScreenSharing s) (currentTranscript s) v (screenStreamRef s)
    (audioContextRef s) (inputContextRef s) (nextStartTimeRef s) (sessionRef s)
    (frameIntervalRef s) (sourcesRef s) (transcriptBufferRef s) (browser s) (clockReads s)
    (toolResponses s) (downloads s) (messagesHistory s).
Definition set_screenStreamRef (v : option MediaStream) (s : State) : State :=
  Build_State (messages s) (inputText s) (selectedImage s) (isLoading s) (isLive s)
    (liveStatus s) (isScreenSharing s) (currentTranscript s) (streamRef s) v
    (audioContextRef s) (inputContextRef s) (nextStartTimeRef s) (sessionRef s)
    (frameIntervalRef s) (sourcesRef s) (transcriptBufferRef s) (browser s) (clockReads s)
    (toolResponses s) (downloads s) (messagesHistory s).
Definition set_audioContextRef (v : option nat) (s : State) : State :=
  Build_State (messages s) (inputText s) (selectedImage s) (isLoading s) (isLive s)
    (liveStatus s) (isScreenSharing s) (currentTranscript s) (streamRef s)
    (screenStreamRef s) v (inputContextRef s) (nextStartTimeRef s) (sessionRef s)
    (frameIntervalRef s) (sourcesRef s) (transcriptBufferRef s) (browser s) (clockReads s)
    (toolResponses s) (downloads s) (messagesHistory s).
Definition set_inputContextRef (v : option nat) (s : State) : State :=
  Build_State (messages s) (inputText s) (selectedImage s) (isLoading s) (isLive s)
    (liveStatus s) (isScreenSharing s) (currentTranscript s) (streamRef s)
    (screenStreamRef s) (audioContextRef s) v (nextStartTimeRef s) (sessionRef s)
    (frameIntervalRef s) (sourcesRef s) (transcriptBufferRef s) (browser s) (clockReads s)
    (toolResponses s) (downloads s) (messagesHistory s).
Definition set_nextStartTimeRef (v : Q) (s : State) : State :=
  Build_State (messages s) (inputText s) (selectedImage s) (isLoading s) (isLive s)
    (liveStatus s) (isScreenSharing s) (currentTranscript s) (streamRef s)
    (screenStreamRef s) (audioContextRef s) (inputContextRef s) v (sessionRef s)
    (frameIntervalRef s) (sourcesRef s) (transcriptBufferRef s) (browser s) (clockReads s)
    (toolResponses s) (downloads s) (messagesHistory s).
Definition set_sessionRef (v : option nat) (s : State) : State :=
  Build_State (messages s) (inputText s) (selectedImage s) (isLoading s) (isLive s)
    (liveStatus s) (isScreenSharing s) (currentTranscript s) (streamRef s)
    (screenStreamRef s) (audioContextRef s) (inputContextRef s) (nextStartTimeRef s) v
    (frameIntervalRef s) (sourcesRef s) (transcriptBufferRef s) (browser s) (clockReads s)
    (toolResponses s) (downloads s) (messagesHistory s).
Definition set_frameIntervalRef (v : option positive) (s : State) : State :=
  Build_State (messages s) (inputText s) (selectedImage s) (isLoading s) (isLive s)
    (liveStatus s) (isScreenSharing s) (currentTranscript s) (streamRef s)
    (screenStreamRef s) (audioContextRef s) (inputContextRef s) (nextStartTimeRef s)
    (sessionRef s) v (sourcesRef s) (transcriptBufferRef s) (browser s) (clockReads s)
    (toolResponses s) (downloads s) (messagesHistory s).
Definition set_sourcesRef (v : gset nat) (s : State) : State :=
  Build_State (messages s) (inputText s) (selectedImage s) (isLoading s) (isLive s)
    (liveStatus s) (isScreenSharing s) (currentTranscript s) (streamRef s)
    (screenStreamRef s) (audioContextRef s) (inputContextRef s) (nextStartTimeRef s)
    (sessionRef s) (frameIntervalRef s) v (transcriptBufferRef s) (browser s) (clockReads s)
    (toolResponses s) (downloads s) (messagesHistory s).
Definition set_transcriptBufferRef (v : JSString) (s : State) : State :=
  Build_State (messages s) (inputText s) (selectedImage s) (isLoading s) (isLive s)
    (liveStatus s) (isScreenSharing s) (currentTranscript s) (streamRef s)
    (screenStreamRef s) (audioContextRef s) (inputContextRef s) (nextStartTimeRef s)
    (sessionRef s) (frameIntervalRef s) (sourcesRef s) v (browser s) (clockReads s)
    (toolResponses s) (downloads s) (messagesHistory s).
Definition set_browser (v : Browser) (s : State) : State :=
  Build_State (messages s) (inputText s) (selectedImage s) (isLoading s) (isLive s)
    (liveStatus s) (isScreenSharing s) (currentTranscript s) (streamRef s)
    (screenStreamRef s) (audioContextRef s) (inputContextRef s) (nextStartTimeRef s)
    (sessionRef s) (frameIntervalRef s) (sourcesRef s) (transcriptBufferRef s) v
    (clockReads s) (toolResponses s) (downloads s) (messagesHistory s).
Definition set_clockReads (v : nat) (s : State) : State :=
  Build_State (messages s) (inputText s) (selectedImage s) (isLoading s) (isLive s)
    (liveStatus s) (isScreenSharing s) (currentTranscript s) (streamRef s)
    (screenStreamRef s) (audioContextRef s) (inputContextRef s) (nextStartTimeRef s)
    (sessionRef s) (frameIntervalRef s) (sourcesRef s) (transcriptBufferRef s) (browser s) v
    (toolResponses s) (downloads s) (messagesHistory s).
Definition set_toolResponses (v : list ToolResponse) (s : State) : State :=
  Build_State (messages s) (inputText s) (selectedImage s) (isLoading s) (isLive s)
    (liveStatus s) (isScreenSharing s) (currentTranscript s) (streamRef s)
    (screenStreamRef s) (audioContextRef s) (inputContextRef s) (nextStartTimeRef s)
    (sessionRef s) (frameIntervalRef s) (sourcesRef s) (transcriptBufferRef s) (browser s)
    (clockReads s) v (downloads s) (messagesHistory s).
Definition set_downloads (v : list Download) (s : State) : State :=
  Build_State (messages s) (inputText s) (selectedImage s) (isLoading s) (isLive s)
    (liveStatus s) (isScreenSharing s) (currentTranscript s) (streamRef s)
    (screenStreamRef s) (audioContextRef s) (inputContextRef s) (nextStartTimeRef s)
    (sessionRef s) (frameIntervalRef s) (sourcesRef s) (transcriptBufferRef s) (browser s)
    (clockReads s) (toolResponses s) v (messagesHistory s).
Definition set_messagesHistory (v : list (list ChatMessage)) (s : State) : State :=
  Build_State (messages s) (inputText s) (selectedImage s) (isLoading s) (isLive s)
    (liveStatus s) (isScreenSharing s) (currentTranscript s) (streamRef s)
    (screenStreamRef s) (audioContextRef s) (inputContextRef s) (nextStartTimeRef s)
    (sessionRef s) (frameIntervalRef s) (sourcesRef s) (transcriptBufferRef s) (browser s)
    (clockReads s) (toolResponses s) (downloads s) v.

(** [setMessages(u)] with an updater [u]; a plain value [v] is the
    updater [λ _, v]. *)
Definition setMessages (u : list ChatMessage → list ChatMessage) (s : State) : State :=
  let next := u (messages s) in
  set_messagesHistory (messagesHistory s ++ [next]) (set_messages next s).

(** The literal that opens a transcript message, as the source file
    stores it: the characters U+00F0 U+0178 U+201D U+0160 (the UTF-8 bytes
    of the speaker emoji U+1F50A read as Windows-1252) and a space. *)
Definition speakerPrefix : JSString := [240; 376; 8221; 352; 32]%N.

Definition greeting : ChatMessage :=
  {| id := js "init"; role := model;
     text := js "Hello! I'm your ACC Setup Engineer. We can discuss your car's handling via voice or text. When we find a good configuration, just ask me to generate the setup file for you.";
     image := None; setupFile := None; timestamp := 0 |}.

(** The component as first rendered, at clock reading [t0]. *)
Definition initial (t0 : N) (b : Browser) : State :=
  {| messages := [ {| id := id greeting; role := role greeting; text := text greeting;
                     image := None; setupFile := None; timestamp := t0 |} ];
     inputText := []; selectedImage := None; isLoading := false;
     isLive := false; liveStatus := js "Ready"; isScreenSharing := false;
     currentTranscript := [];
     streamRef := None; screenStreamRef := None; audioContextRef := None;
     inputContextRef := None; nextStartTimeRef := 0; sessionRef := None;
     frameIntervalRef := None; sourcesRef := ∅; transcriptBufferRef := [];
     browser := b; clockReads := 0; toolResponses := []; downloads := [];
     messagesHistory := [] |}.

Section Handlers.

(** The clock: [dateNow k] is what the [k]-th reading ([Date.now()] or
    [new Date()]) returns. *)
Variable dateNow : nat → N.

(** [decodeAudioData(base64ToUint8Array(a), outputCtx, 24000, 1)] of
    [services/audioUtils], taken as given. *)
Variable decodeAudioData : JSString → AudioBuffer.

(** An object literal
    [{ id: (Date.now() + k).toString(), role, text, image, setupFile,
       timestamp: new Date() }]: two readings of the clock, the one for
    [id] first. *)
Definition mkMessage (k : N) (r : Role) (t : JSString) (img : option JSString)
    (sf : option SetupFile) (s : State) : ChatMessage * State :=
  let n := clockReads s in
  ({| id := toString (dateNow n + k); role := r; text := t; image := img;
      setupFile := sf; timestamp := dateNow (S n) |},
   set_clockReads (S (S n)) s).

(** [setMessages(prev => [...prev, { ... }])] with such a literal. *)
Definition appendMessage (k : N) (r : Role) (t : JSString) (img : option JSString)
    (sf : option SetupFile) (s : State) : State :=
  let '(m, s) := mkMessage k r t img sf s in
  setMessages (λ prev, prev ++ [m]) s.

(** [selectedImage] as a condition, and [selectedImage || undefined]. *)
Definition imageTruthy (i : option JSString) : bool :=
  match i with Some x => truthy x | None => false end.

Definition imageOrUndefined (i : option JSString) : option JSString :=
  if imageTruthy i then i else None.

(** The guard of [handleSendMessage]: [true] when the handler goes on. *)
Definition canSend (s : State) : bool :=
  negb ((negb (truthy (trim (inputText s))) && negb (imageTruthy (selectedImage s)))
        || isLoading s).

(** [handleSendMessage], up to [await model.generateContent]. *)
Definition handleSendMessage_begin (s : State) : State :=
  if canSend s then
    let s := appendMessage 0 user (inputText s) (imageOrUndefined (selectedImage s)) None s in
    let s := setInputText [] s in
    let s := setSelectedImage None s in
    let s := setIsLoading true s in
    set_browser (request GenerateContent (browser s)) s
  else s.

(** [handleSendMessage] from the [await] on: [r] is [response.text] of the
    response, or the exception caught. *)
Definition handleSendMessage_resume (r : option JSString + JSError) (s : State) : State :=
  let s := match r with
           | inl responseText =>
               appendMessage 1 model
                 (orElse responseText (js "I couldn't generate a response.")) None None s
           | inr _ =>
               appendMessage 1 model (js "Error connecting to the API.") None None s
           end in
  setIsLoading false s.

(** The last block of [stopLiveSession], "Save any pending transcript".
    The message object is built inside the updater passed to [setMessages].
    React runs an updater when it renders next once an update is queued on
    the component, and [setIsLive(false)], [setIsScreenSharing(false)] and
    [setLiveStatus('Ready')] just before queue one whenever the session is
    live, shares the screen or shows another status.  The template literal
    therefore reads [transcriptBufferRef.current] as the two statements
    after [setMessages] leave it, not as the [if] found it.  Where the three
    setters change nothing React may run the updater at the call; what is
    proved below of the text of this message is proved of live sessions.
    (The turn-complete block of [onmessage] copies the ref into [fullText]
    before it calls [setMessages], so its text is the one of the call.) *)
Definition savePendingTranscript (s : State) : State :=
  if truthy (transcriptBufferRef s) then
    let atRender := setCurrentTranscript [] (set_transcriptBufferRef [] s) in
    let s := appendMessage 0 model (speakerPrefix ++ transcriptBufferRef atRender)
               None None s in
    let s := set_transcriptBufferRef [] s in
    setCurrentTranscript [] s
  else s.

(** [stopLiveSession] *)
Definition stopLiveSession (s : State) : State :=
  let s := match frameIntervalRef s with
           | Some h => set_frameIntervalRef None (set_browser (clearInterval h (browser s)) s)
           | None => s
           end in
  let s := match streamRef s with
           | Some st => set_streamRef None (set_browser (stopTracks st (browser s)) s)
           | None => s
           end in
  let s := match screenStreamRef s with
           | Some st => set_screenStreamRef None (set_browser (stopTracks st (browser s)) s)
           | None => s
           end in
  let s := set_browser (stopSources (sourcesRef s) (browser s)) s in
  let s := set_sourcesRef ∅ s in
  let s := match audioContextRef s with
           | Some c => set_browser (closeIfOpen c (browser s)) s
           | None => s
           end in
  let s := match inputContextRef s with
           | Some c => set_browser (closeIfOpen c (browser s)) s
           | None => s
           end in
  let s := setIsLive false s in
  let s := setIsScreenSharing false s in
  let s := setLiveStatus (js "Ready") s in
  savePendingTranscript s.

(** [startScreenShare], up to [await getDisplayMedia]. *)
Definition startScreenShare_begin (s : State) : State :=
  set_browser (request GetDisplayMedia (browser s)) s.

(** The [catch] block of [startScreenShare]. *)
Definition startScreenShare_catch (e : JSError) (s : State) : State :=
  appendMessage 0 model (js "System: Screen share failed or was cancelled.") None None s.

(** [startScreenShare] from the [await] on; arguments as in [LiveCoach]. *)
Definition startScreenShare_resume (screen : MediaStream + JSError)
    (video canvas : bool) (h : positive) (s : State) : State :=
  match screen with
  | inr e => startScreenShare_catch e s
  | inl screenStream =>
      let s := set_screenStreamRef (Some screenStream) s in
      let s := setIsScreenSharing true s in
      if bool_decide (is_Some (sessionRef s)) && canvas && video
      then set_frameIntervalRef (Some h) s
      else s
  end.

(** The [onended] handler of the shared video track. *)
Definition screenEnded (s : State) : State :=
  let s := setIsScreenSharing false s in
  match frameIntervalRef s with
  | Some h => set_browser (clearInterval h (browser s)) s
  | None => s
  end.

(** [startLiveSession], up to [await getUserMedia]. *)
Definition startLiveSession_begin (inputCtx outputCtx : nat) (s : State) : State :=
  let s := setLiveStatus (js "Initializing...") s in
  let s := set_inputContextRef (Some inputCtx) s in
  let s := set_audioContextRef (Some outputCtx) s in
  let s := set_nextStartTimeRef 0 s in
  let s := set_transcriptBufferRef [] s in
  set_browser (request GetUserMedia (browser s)) s.

(** The [catch] block of [startLiveSession]. *)
Definition startLiveSession_catch (e : JSError) (s : State) : State :=
  let s := setLiveStatus (js "Connection Failed") s in
  stopLiveSession s.

(** [startLiveSession] from the [await] on; arguments as in [LiveCoach]. *)
Definition startLiveSession_resume (mic : MediaStream + JSError) (conn : nat + JSError)
    (s : State) : State :=
  match mic with
  | inr e => startLiveSession_catch e s
  | inl micStream =>
      let s := set_streamRef (Some micStream) s in
      let s := setLiveStatus (js "Connecting...") s in
      let s := set_browser (request Connect (browser s)) s in
      match conn with
      | inr e => startLiveSession_catch e s
      | inl sessionPromise => set_sessionRef (Some sessionPromise) s
      end
  end.

(** [onopen] (the microphone pipeline it installs is [MicPipeline]). *)
Definition onopen (s : State) : State :=
  setIsLive true (setLiveStatus (js "Connected") s).

(** [onmessage], up to [await decodeAudioData]. *)
Definition onmessage_begin (currentTime : Q) (m : LiveServerMessage) (s : State) : State :=
  match audioOf m with
  | Some _ => set_nextStartTimeRef (Qmax (nextStartTimeRef s) currentTime) s
  | None => s
  end.

(** 1. Handle Audio Output, from the [await] on. *)
Definition handleAudio (m : LiveServerMessage) (s : State) : State :=
  match audioOf m with
  | Some a =>
      let audioBuffer := decodeAudioData a in
      let '(source, b) := createBufferSource (browser s) in
      let b := start source (nextStartTimeRef s) audioBuffer b in
      let s := set_browser b s in
      let s := set_nextStartTimeRef (nextStartTimeRef s + duration audioBuffer) s in
      set_sourcesRef ({[source]} ∪ sourcesRef s) s
  | None => s
  end.

(** 2. Handle Transcript *)
Definition handleTranscript (m : LiveServerMessage) (s : State) : State :=
  match transcriptPart m with
  | Some part =>
      let s := set_transcriptBufferRef (transcriptBufferRef s ++ part) s in
      setCurrentTranscript (transcriptBufferRef s) s
  | None => s
  end.

(** 3. Handle Turn Complete *)
Definition handleTurnComplete (m : LiveServerMessage) (s : State) : State :=
  if isTurnComplete m then
    let fullText := transcriptBufferRef s in
    if truthy (trim fullText) then
      let s := appendMessage 0 model (speakerPrefix ++ fullText) None None s in
      let s := set_transcriptBufferRef [] s in
      setCurrentTranscript [] s
    else s
  else s.

(** The body of the [forEach] over the function calls. *)
Definition handleFunctionCall (s : State) (fc : FunctionCall) : State :=
  if bool_decide (fcName fc = js "save_setup_json") then
    let args := fcArgs fc in
    let setupFile := {| filename := argFilename args; content := argContent args |} in
    let s := appendMessage 0 model
               (js "I've generated the setup file for you based on our session.")
               None (Some setupFile) s in
    set_toolResponses
      (toolResponses s ++
         [ {| respName := fcName fc; respId := fcId fc;
              respResult := js "File generated successfully and presented to user." |} ]) s
  else s.

(** 4. Handle Tool Calls *)
Definition handleToolCall (m : LiveServerMessage) (s : State) : State :=
  match toolCall m with
  | Some tc => foldl handleFunctionCall s (functionCalls tc)
  | None => s
  end.

(** [onmessage] from the [await] on. *)
Definition onmessage_resume (m : LiveServerMessage) (s : State) : State :=
  handleToolCall m (handleTurnComplete m (handleTranscript m (handleAudio m s))).

(** [onmessage] run to its end with no other handler in between. *)
Definition onmessage (currentTime : Q) (m : LiveServerMessage) (s : State) : State :=
  onmessage_resume m (onmessage_begin currentTime m s).

Definition onmessages (ms : list (Q * LiveServerMessage)) (s : State) : State :=
  foldl (λ acc tm, onmessage (fst tm) (snd tm) acc) s ms.

(** The ['ended'] listener of a source. *)
Definition sourceEnded (src : nat) (s : State) : State :=
  set_sourcesRef (sourcesRef s ∖ {[src]}) s.

(** [onclose] *)
Definition onclose (s : State) : State := stopLiveSession s.

(** [onerror] *)
Definition onerror (s : State) : State :=
  stopLiveSession (setLiveStatus (js "Error") s).

(** [downloadSetup] *)
Definition downloadSetup (filename content : JSString) (s : State) : State :=
  let blob := {| blobParts := [content]; blobType := js "application/json" |} in
  set_downloads (downloads s ++ [ {| download := filename; href := blob |} ]) s.

(** A click on the download card of a message; the card is rendered for
    messages with a [setupFile] only. *)
Definition clickDownload (msg : ChatMessage) (s : State) : State :=
  match setupFile msg with
  | Some f => downloadSetup (filename f) (content f) s
  | None => s
  end.

(** The clear-chat button: [setMessages([])]. *)
Definition clearChat (s : State) : State := setMessages (λ _, []) s.

(** Everything that can happen to the component. *)
Inductive Event :=
| InputChanged (t : JSString)
| ImageSelected (img : JSString)
| ImageRemoved
| SendBegin
| SendResume (r : option JSString + JSError)
| ClearChat
| StartLiveBegin (inputCtx outputCtx : nat)
| StartLiveResume (mic : MediaStream + JSError) (conn : nat + JSError)
| OnOpen
| OnMessageBegin (currentTime : Q) (m : LiveServerMessage)
| OnMessageResume (m : LiveServerMessage)
| OnClose
| OnError
| StopLive
| ShareBegin
| ShareResume (screen : MediaStream + JSError) (video canvas : bool) (h : positive)
| ScreenEnded
| SourceEnded (src : nat)
| CloseCompleted (c : nat)
| ClickDownload (msg : ChatMessage).

Definition handle (e : Event) (s : State) : State :=
  match e with
  | InputChanged t => setInputText t s
  | ImageSelected img => setSelectedImage (Some img) s
  | ImageRemoved => setSelectedImage None s
  | SendBegin => handleSendMessage_begin s
  | SendResume r => handleSendMessage_resume r s
  | ClearChat => clearChat s
  | StartLiveBegin i o => startLiveSession_begin i o s
  | StartLiveResume mic conn => startLiveSession_resume mic conn s
  | OnOpen => onopen s
  | OnMessageBegin t m => onmessage_begin t m s
  | OnMessageResume m => onmessage_resume m s
  | OnClose => onclose s
  | OnError => onerror s
  | StopLive => stopLiveSession s
  | ShareBegin => startScreenShare_begin s
  | ShareResume screen video canvas h => startScreenShare_resume screen video canvas h s
  | ScreenEnded => screenEnded s
  | SourceEnded src => sourceEnded src s
  | CloseCompleted c => set_browser (closeCompleted c (browser s)) s
  | ClickDownload msg => clickDownload msg s
  end.

Definition run (es : list Event) (s : State) : State :=
  foldl (λ acc e, handle e acc) s es.

End Handlers.

End SetupAssistant.

(** ** The microphone pipeline both [onopen] callbacks install

    [scriptProcessor.onaudioprocess] and the [sessionPromise] it sends
    through.  [createPcmBlob] belongs to [services/audioUtils] and is taken
    as given, as are the types of samples and of media blobs. *)

Module MicPipeline.

Section Pipeline.

Variable Sample Blob : Type.
Variable createPcmBlob : list Sample → Blob.

(** [e.inputBuffer], a list of channels. *)
Record AudioProcessingEvent := { inputBuffer : list (list Sample) }.

(** [buffer.getChannelData(i)]; throws when there is no such channel. *)
Definition getChannelData (i : nat) (e : AudioProcessingEvent) : option (list Sample) :=
  inputBuffer e !! i.

(** What [createScriptProcessor(4096, 1, 1)] hands to [onaudioprocess]:
    one input channel of 4096 samples. *)
Definition wellFormed (e : AudioProcessingEvent) : Prop :=
  ∃ ch, inputBuffer e = [ch] ∧ length ch = 4096.

Inductive PromiseState := Pending | Fulfilled | Rejected.

(** [sessionPromise] with the [then] callbacks waiting on it (each sends
    the blob it closes over), and the media handed to
    [session.sendRealtimeInput] so far, oldest first. *)
Record State := {
  sessionPromise : PromiseState;
  waiting : list Blob;
  sent : list Blob
}.

Definition connecting : State :=
  {| sessionPromise := Pending; waiting := []; sent := [] |}.

(** [sessionPromise.then(session => session.sendRealtimeInput({ media }))] *)
Definition thenSend (media : Blob) (s : State) : State :=
  match sessionPromise s with
  | Pending => {| sessionPromise := Pending; waiting := waiting s ++ [media]; sent := sent s |}
  | Fulfilled => {| sessionPromise := Fulfilled; waiting := waiting s; sent := sent s ++ [media] |}
  | Rejected => s
  end.

(** [scriptProcessor.onaudioprocess] *)
Definition onaudioprocess (e : AudioProcessingEvent) (s : State) : State :=
  match getChannelData 0 e with
  | Some inputData =>
      let pcmBlob := createPcmBlob inputData in
      thenSend pcmBlob s
  | None => s
  end.

(** The promise settles: the callbacks waiting on a fulfilled promise run
    in the order they were registered; a rejected one runs none. *)
Definition fulfil (s : State) : State :=
  match sessionPromise s with
  | Pending => {| sessionPromise := Fulfilled; waiting := []; sent := sent s ++ waiting s |}
  | _ => s
  end.

Definition reject (s : State) : State :=
  match sessionPromise s with
  | Pending => {| sessionPromise := Rejected; waiting := []; sent := sent s |}
  | _ => s
  end.

Inductive Event :=
| Tick (e : AudioProcessingEvent)
| Fulfil
| Reject.

Definition handle (ev : Event) (s : State) : State :=
  match ev with
  | Tick e => onaudioprocess e s
  | Fulfil => fulfil s
  | Reject => reject s
  end.

Definition run (evs : list Event) (s : State) : State :=
  foldl (λ acc ev, handle ev acc) s evs.

(** The ticks of a run, in order. *)
Definition ticks (evs : list Event) : list AudioProcessingEvent :=
  omap (λ ev, match ev with Tick e => Some e | _ => None end) evs.

(** The samples of channel 0 of a tick, and the chunk made of them. *)
Definition channel0 (e : AudioProcessingEvent) : list Sample :=
  default [] (getChannelData 0 e).

Definition chunkOf (e : AudioProcessingEvent) : Blob := createPcmBlob (channel0 e).

(** What has been sent and what waits after the events [evs], by the
    state of the promise. *)
Definition pipelineInvariant (evs : list Event) (s : State) : Prop :=
  match sessionPromise s with
  | Pending => sent s = [] ∧ waiting s = map chunkOf (ticks evs)
  | Fulfilled => sent s = map chunkOf (ticks evs) ∧ waiting s = []
  | Rejected => sent s = [] ∧ waiting s = []
  end.

End Pipeline.

End MicPipeline.

(** ** Properties of a schedule of output chunks *)

Module Schedule.
Import Web.

(** Each chunk starts no earlier than the end of the chunk scheduled just
    before it. *)
Definition backToBack (l : list Scheduled) : Prop :=
  ∀ i a b, l !! i = Some a → l !! S i = Some b → (endTime a <= when b)%Q.

(** No chunk starts before the end of any chunk scheduled earlier. *)
Definition NoOverlap (l : list Scheduled) : Prop :=
  ∀ i j a b, i < j → l !! i = Some a → l !! j = Some b → (endTime a <= when b)%Q.

(** The cursor is at or beyond the end of every chunk. *)
Definition covered (cursor : Q) (l : list Scheduled) : Prop :=
  ∀ a, a ∈ l → (endTime a <= cursor)%Q.

(** What the running cursor maintains. *)
Definition cursorInvariant (cursor : Q) (l : list Scheduled) : Prop :=
  NoOverlap l ∧ covered cursor l.

End Schedule.

(** ** What a teardown leaves behind *)

Module Teardown.
Import JS Web.

Definition clearIntervalOpt (h : option positive) (b : Browser) : Browser :=
  match h with Some h => clearInterval h b | None => b end.

Definition stopTracksOpt (st : option MediaStream) (b : Browser) : Browser :=
  match st with Some st => stopTracks st b | None => b end.

Definition closeOpt (c : option nat) (b : Browser) : Browser :=
  match c with Some c => closeIfOpen c b | None => b end.

(** The browser after a teardown that found the given interval handle,
    streams, tracked sources and contexts in the refs. *)
Definition tornDown (interval : option positive) (mic screen : option MediaStream)
    (sources : gset nat) (output input : option nat) (b : Browser) : Browser :=
  closeOpt input (closeOpt output (stopSources sources
    (stopTracksOpt screen (stopTracksOpt mic (clearIntervalOpt interval b))))).

(** The tracks of a stream ref. *)
Definition tracksOf (st : option MediaStream) : list nat :=
  match st with Some st => getTracks st | None => [] end.

(** The state [LiveCoach.stopSession] leaves. *)
Definition coachStopped (s : LiveCoach.State) : LiveCoach.State :=
  {| LiveCoach.isActive := false;
     LiveCoach.error := LiveCoach.error s;
     LiveCoach.status := js "Disconnected";
     LiveCoach.isScreenSharing := false;
     LiveCoach.streamRef := None;
     LiveCoach.screenStreamRef := None;
     LiveCoach.audioContextRef := None;
     LiveCoach.inputContextRef := None;
     LiveCoach.nextStartTimeRef := LiveCoach.nextStartTimeRef s;
     LiveCoach.sessionRef := LiveCoach.sessionRef s;
     LiveCoach.frameIntervalRef := None;
     LiveCoach.sourcesRef := ∅;
     LiveCoach.browser :=
       tornDown (LiveCoach.frameIntervalRef s) (LiveCoach.streamRef s)
         (LiveCoach.screenStreamRef s) (LiveCoach.sourcesRef s)
         (LiveCoach.audioContextRef s) (LiveCoach.inputContextRef s)
         (LiveCoach.browser s) |}.

(** The state [SetupAssistant.stopLiveSession] has reached when it comes to
    its last block. *)
Definition assistantReleased (s : SetupAssistant.State) : SetupAssistant.State :=
  {| SetupAssistant.messages := SetupAssistant.messages s;
     SetupAssistant.inputText := SetupAssistant.inputText s;
     SetupAssistant.selectedImage := SetupAssistant.selectedImage s;
     SetupAssistant.isLoading := SetupAssistant.isLoading s;
     SetupAssistant.isLive := false;
     SetupAssistant.liveStatus := js "Ready";
     SetupAssistant.isScreenSharing := false;
     SetupAssistant.currentTranscript := SetupAssistant.currentTranscript s;
     SetupAssistant.streamRef := None;
     SetupAssistant.screenStreamRef := None;
     SetupAssistant.audioContextRef := SetupAssistant.audioContextRef s;
     SetupAssistant.inputContextRef := SetupAssistant.inputContextRef s;
     SetupAssistant.nextStartTimeRef := SetupAssistant.nextStartTimeRef s;
     SetupAssistant.sessionRef := SetupAssistant.sessionRef s;
     SetupAssistant.frameIntervalRef := None;
     SetupAssistant.sourcesRef := ∅;
     SetupAssistant.transcriptBufferRef := SetupAssistant.transcriptBufferRef s;
     SetupAssistant.browser :=
       tornDown (SetupAssistant.frameIntervalRef s) (SetupAssistant.streamRef s)
         (SetupAssistant.screenStreamRef s) (SetupAssistant.sourcesRef s)
         (SetupAssistant.audioContextRef s) (SetupAssistant.inputContextRef s)
         (SetupAssistant.browser s);
     SetupAssistant.clockReads := SetupAssistant.clockReads s;
     SetupAssistant.toolResponses := SetupAssistant.toolResponses s;
     SetupAssistant.downloads := SetupAssistant.downloads s;
     SetupAssistant.messagesHistory := SetupAssistant.messagesHistory s |}.

(** What "torn down" means for [LiveCoach]: [s] is the state a teardown
    found, [s'] the state it left. *)
Definition coachTornDown (s s' : LiveCoach.State) : Prop :=
  (* the frame-capture interval is cleared *)
  (∀ h, LiveCoach.frameIntervalRef s = Some h →
        h ∈ clearedIntervals (LiveCoach.browser s')) ∧
  LiveCoach.frameIntervalRef s' = None ∧
  (* every track of both streams has been stopped, the refs are null *)
  (∀ t, t ∈ tracksOf (LiveCoach.streamRef s) → t ∈ stoppedTracks (LiveCoach.browser s')) ∧
  (∀ t, t ∈ tracksOf (LiveCoach.screenStreamRef s) →
        t ∈ stoppedTracks (LiveCoach.browser s')) ∧
  LiveCoach.streamRef s' = None ∧
  LiveCoach.screenStreamRef s' = None ∧
  (* every tracked source has been stopped, the set is empty *)
  (∀ x, x ∈ LiveCoach.sourcesRef s → x ∈ stoppedSources (LiveCoach.browser s')) ∧
  LiveCoach.sourcesRef s' = ∅ ∧
  (* each context was closed already or has had close requested *)
  (∀ c, LiveCoach.audioContextRef s = Some c ∨ LiveCoach.inputContextRef s = Some c →
        c ∈ closedContexts (LiveCoach.browser s) ∨
        c ∈ closeRequested (LiveCoach.browser s')) ∧
  (* the flags are down *)
  LiveCoach.isActive s' = false ∧
  LiveCoach.isScreenSharing s' = false.

(** The same for [SetupAssistant]. *)
Definition assistantTornDown (s s' : SetupAssistant.State) : Prop :=
  (∀ h, SetupAssistant.frameIntervalRef s = Some h →
        h ∈ clearedIntervals (SetupAssistant.browser s')) ∧
  SetupAssistant.frameIntervalRef s' = None ∧
  (∀ t, t ∈ tracksOf (SetupAssistant.streamRef s) →
        t ∈ stoppedTracks (SetupAssistant.browser s')) ∧
  (∀ t, t ∈ tracksOf (SetupAssistant.screenStreamRef s) →
        t ∈ stoppedTracks (SetupAssistant.browser s')) ∧
  SetupAssistant.streamRef s' = None ∧
  SetupAssistant.screenStreamRef s' = None ∧
  (∀ x, x ∈ SetupAssistant.sourcesRef s → x ∈ stoppedSources (SetupAssistant.browser s')) ∧
  SetupAssistant.sourcesRef s' = ∅ ∧
  (∀ c, SetupAssistant.audioContextRef s = Some c ∨ SetupAssistant.inputContextRef s = Some c →
        c ∈ closedContexts (SetupAssistant.browser s) ∨
        c ∈ closeRequested (SetupAssistant.browser s')) ∧
  SetupAssistant.isLive s' = false ∧
  SetupAssistant.isScreenSharing s' = false.

(** The session is as it was: same flags, refs and browser. *)
Definition coachSameSession (s s' : LiveCoach.State) : Prop :=
  LiveCoach.isActive s' = LiveCoach.isActive s ∧
  LiveCoach.isScreenSharing s' = LiveCoach.isScreenSharing s ∧
  LiveCoach.status s' = LiveCoach.status s ∧
  LiveCoach.streamRef s' = LiveCoach.streamRef s ∧
  LiveCoach.screenStreamRef s' = LiveCoach.screenStreamRef s ∧
  LiveCoach.audioContextRef s' = LiveCoach.audioContextRef s ∧
  LiveCoach.inputContextRef s' = LiveCoach.inputContextRef s ∧
  LiveCoach.nextStartTimeRef s' = LiveCoach.nextStartTimeRef s ∧
  LiveCoach.sessionRef s' = LiveCoach.sessionRef s ∧
  LiveCoach.frameIntervalRef s' = LiveCoach.frameIntervalRef s ∧
  LiveCoach.sourcesRef s' = LiveCoach.sourcesRef s ∧
  LiveCoach.browser s' = LiveCoach.browser s.

Definition assistantSameSession (s s' : SetupAssistant.State) : Prop :=
  SetupAssistant.isLive s' = SetupAssistant.isLive s ∧
  SetupAssistant.isScreenSharing s' = SetupAssistant.isScreenSharing s ∧
  SetupAssistant.liveStatus s' = SetupAssistant.liveStatus s ∧
  SetupAssistant.streamRef s' = SetupAssistant.streamRef s ∧
  SetupAssistant.screenStreamRef s' = SetupAssistant.screenStreamRef s ∧
  SetupAssistant.audioContextRef s' = SetupAssistant.audioContextRef s ∧
  SetupAssistant.inputContextRef s' = SetupAssistant.inputContextRef s ∧
  SetupAssistant.nextStartTimeRef s' = SetupAssistant.nextStartTimeRef s ∧
  SetupAssistant.sessionRef s' = SetupAssistant.sessionRef s ∧
  SetupAssistant.frameIntervalRef s' = SetupAssistant.frameIntervalRef s ∧
  SetupAssistant.sourcesRef s' = SetupAssistant.sourcesRef s ∧
  SetupAssistant.transcriptBufferRef s' = SetupAssistant.transcriptBufferRef s ∧
  SetupAssistant.browser s' = SetupAssistant.browser s.

End Teardown.

(** ** Events that leave the scheduling cursor of a session alone *)

Module Cursor.
Import Live.

(** In [LiveCoach] the cursor goes back to 0 when a session starts and
    when an interrupted message is handled. *)
Definition coachKeeps (e : LiveCoach.Event) : bool :=
  match e with
  | LiveCoach.StartBegin _ _ => false
  | LiveCoach.OnMessageResume m => negb (isInterrupted m)
  | _ => true
  end.

(** In [SetupAssistant] the cursor goes back to 0 only when a session
    starts. *)
Definition assistantKeeps (e : SetupAssistant.Event) : bool :=
  match e with
  | SetupAssistant.StartLiveBegin _ _ => false
  | _ => true
  end.

(** The chunks scheduled since the schedule was [base] (those of the
    session, when [base] is the schedule the session found) satisfy the
    cursor invariant. *)
Definition coachInvariant (base : list Web.Scheduled) (s : LiveCoach.State) : Prop :=
  ∃ new, Web.scheduled (LiveCoach.browser s) = base ++ new ∧
         Schedule.cursorInvariant (LiveCoach.nextStartTimeRef s) new.

Definition assistantInvariant (base : list Web.Scheduled) (s : SetupAssistant.State) : Prop :=
  ∃ new, Web.scheduled (SetupAssistant.browser s) = base ++ new ∧
         Schedule.cursorInvariant (SetupAssistant.nextStartTimeRef s) new.

(** A handler run that touched neither the cursor nor the schedule. *)
Definition lcSameSchedule (s s' : LiveCoach.State) : Prop :=
  LiveCoach.nextStartTimeRef s' = LiveCoach.nextStartTimeRef s ∧
  Web.scheduled (LiveCoach.browser s') = Web.scheduled (LiveCoach.browser s).

Definition saSameSchedule (s s' : SetupAssistant.State) : Prop :=
  SetupAssistant.nextStartTimeRef s' = SetupAssistant.nextStartTimeRef s ∧
  Web.scheduled (SetupAssistant.browser s') = Web.scheduled (SetupAssistant.browser s).

End Cursor.

(** ** The chat log *)

Module Chat.
Import JS Live Types.




(** Some code unit of the string is not white space. *)
Definition nonWhitespace (s : JSString) : bool :=
  existsb (λ c, negb (isWhiteSpace c)) s.

(** The message the turn-complete flush appends in state [s]. *)
Definition flushed (dateNow : nat → N) (s : SetupAssistant.State) : ChatMessage :=
  {| id := toString (dateNow (SetupAssistant.clockReads s) + 0);
     role := model;
     text := SetupAssistant.speakerPrefix ++ SetupAssistant.transcriptBufferRef s;
     image := None;
     setupFile := None;
     timestamp := dateNow (S (SetupAssistant.clockReads s)) |}.

(** The message the last block of [stopLiveSession] appends in state
    [s]: its text is the prefix followed by what the ref holds when the
    updater runs, the empty string. *)
Definition savedAtStop (dateNow : nat → N) (s : SetupAssistant.State) : ChatMessage :=
  {| id := toString (dateNow (SetupAssistant.clockReads s) + 0);
     role := model;
     text := SetupAssistant.speakerPrefix ++ [];
     image := None;
     setupFile := None;
     timestamp := dateNow (S (SetupAssistant.clockReads s)) |}.

(** The transcript buffer after one more server message. *)
Definition bufferStep (buf : JSString) (m : LiveServerMessage) : JSString :=
  let buf := buf ++ default [] (transcriptPart m) in
  if isTurnComplete m && nonWhitespace buf then [] else buf.

(** The setup file a [save_setup_json] call asks for. *)
Definition requestedFile (fc : FunctionCall) : SetupFile :=
  {| filename := argFilename (fcArgs fc); content := argContent (fcArgs fc) |}.

Definition isSaveSetup (fc : FunctionCall) : bool :=
  bool_decide (fcName fc = js "save_setup_json").

End Chat.

(** ** Concrete sessions *)

Module Samples.
Import JS Web Live.

(** A server message that carries audio and nothing else. *)
Definition audioMessage (a : JSString) : LiveServerMessage :=
  {| serverContent :=
       Some {| modelTurn :=
                 Some {| parts := Some [ {| inlineData := Some {| data := Some a |} |} ] |};
               outputTranscription := None;
               turnComplete := false;
               interrupted := false |};
     toolCall := None |}.

(** The server reports that the user interrupted the model. *)
Definition interruptedMessage : LiveServerMessage :=
  {| serverContent :=
       Some {| modelTurn := None; outputTranscription := None;
               turnComplete := false; interrupted := true |};
     toolCall := None |}.

(** A piece of transcript, and the end of a turn. *)
Definition transcriptMessage (t : JSString) : LiveServerMessage :=
  {| serverContent :=
       Some {| modelTurn := None;
               outputTranscription := Some {| transcriptionText := Some t |};
               turnComplete := false; interrupted := false |};
     toolCall := None |}.

Definition turnCompleteMessage : LiveServerMessage :=
  {| serverContent :=
       Some {| modelTurn := None; outputTranscription := None;
               turnComplete := true; interrupted := false |};
     toolCall := None |}.

(** A tool call message with the given function calls. *)
Definition toolCallMessage (fcs : list FunctionCall) : LiveServerMessage :=
  {| serverContent := None; toolCall := Some {| functionCalls := fcs |} |}.

Definition saveSetup (callId filename content : JSString) : FunctionCall :=
  {| fcName := js "save_setup_json"; fcId := callId;
     fcArgs := {| argFilename := filename; argContent := content |} |}.

(** A decoder under which every chunk is ten seconds of 24 kHz audio. *)
Definition tenSeconds (a : JSString) : AudioBuffer :=
  {| bufLength := 240000; bufSampleRate := 24000 |}.

(** A clock that stands still at one millisecond. *)
Definition frozenClock (k : nat) : N := 1700000000000%N.

(** A clock that moves on by one millisecond at every reading. *)
Definition tickingClock (k : nat) : N := (1700000000000 + N.of_nat k)%N.

Definition micStream : MediaStream := {| getTracks := [0] |}.
Definition screenStream : MediaStream := {| getTracks := [1] |}.

Definition denied : JSError := {| message := Some (js "Permission denied") |}.

(** A coach session is opened, a first chunk arrives at time 0, the
    user interrupts at time 1, a second chunk arrives at time 2. *)
Definition coachInterrupted : list LiveCoach.Event :=
  [ LiveCoach.StartBegin 1 2;
    LiveCoach.StartResume (inl micStream) (inl 1);
    LiveCoach.OnOpen;
    LiveCoach.OnMessageBegin 0 (audioMessage (js "AAAA"));
    LiveCoach.OnMessageResume (audioMessage (js "AAAA"));
    LiveCoach.OnMessageBegin 1 interruptedMessage;
    LiveCoach.OnMessageResume interruptedMessage;
    LiveCoach.OnMessageBegin 2 (audioMessage (js "BBBB"));
    LiveCoach.OnMessageResume (audioMessage (js "BBBB")) ].

(** Two chunks arrive in a coach session, the second while the first is
    still being decoded. *)
Definition coachChunks : list LiveCoach.Event :=
  [ LiveCoach.OnOpen;
    LiveCoach.OnMessageBegin 0 (audioMessage (js "AAAA"));
    LiveCoach.OnMessageBegin (1 # 2) (audioMessage (js "BBBB"));
    LiveCoach.OnMessageResume (audioMessage (js "AAAA"));
    LiveCoach.OnMessageResume (audioMessage (js "BBBB")) ].

(** The same in an assistant session, followed by the end of the
    session. *)
Definition assistantChunks : list SetupAssistant.Event :=
  [ SetupAssistant.OnOpen;
    SetupAssistant.OnMessageBegin 0 (audioMessage (js "AAAA"));
    SetupAssistant.OnMessageBegin (1 # 2) (audioMessage (js "BBBB"));
    SetupAssistant.OnMessageResume (audioMessage (js "AAAA"));
    SetupAssistant.OnMessageResume (audioMessage (js "BBBB"));
    SetupAssistant.StopLive ].

(** An assistant session in which one server message carries two
    [save_setup_json] calls. *)
Definition assistantTwoSaves : list SetupAssistant.Event :=
  [ SetupAssistant.StartLiveBegin 1 2;
    SetupAssistant.StartLiveResume (inl micStream) (inl 1);
    SetupAssistant.OnOpen;
    SetupAssistant.OnMessageBegin 0
      (toolCallMessage [ saveSetup (js "call-1") (js "spa_dry.json") (js "{}");
                         saveSetup (js "call-2") (js "spa_wet.json") (js "not json") ]);
    SetupAssistant.OnMessageResume
      (toolCallMessage [ saveSetup (js "call-1") (js "spa_dry.json") (js "{}");
                         saveSetup (js "call-2") (js "spa_wet.json") (js "not json") ]) ].

(** A coach session is opened and running; the user then tries to share
    the screen and declines the browser's prompt. *)
Definition coachShareDenied : list LiveCoach.Event :=
  [ LiveCoach.StartBegin 1 2;
    LiveCoach.StartResume (inl micStream) (inl 1);
    LiveCoach.OnOpen;
    LiveCoach.ShareBegin;
    LiveCoach.ShareResume (inr denied) true true 1%positive ].

(** A coach session with a shared screen and one chunk playing. *)
Definition coachRunning : list LiveCoach.Event :=
  [ LiveCoach.StartBegin 1 2;
    LiveCoach.StartResume (inl micStream) (inl 1);
    LiveCoach.OnOpen;
    LiveCoach.ShareBegin;
    LiveCoach.ShareResume (inl screenStream) true true 1%positive;
    LiveCoach.OnMessageBegin 0 (audioMessage (js "AAAA"));
    LiveCoach.OnMessageResume (audioMessage (js "AAAA")) ].

(** Three ticks of the microphone, the session promise settling after
    the first; samples are numbers and a blob is the list of its samples. *)
Definition tickOf (x : nat) : MicPipeline.AudioProcessingEvent nat :=
  {| MicPipeline.inputBuffer := [ replicate 4096 x ] |}.

Definition micTicks : list (MicPipeline.Event nat) :=
  [ MicPipeline.Tick nat (tickOf 1); MicPipeline.Fulfil nat;
    MicPipeline.Tick nat (tickOf 2); MicPipeline.Tick nat (tickOf 3) ].

(** An assistant session in which the model says "Brake later." in two
    transcript parts, ends its turn, and then sends a blank part and ends
    another turn. *)
Definition assistantTranscript : list SetupAssistant.Event :=
  [ SetupAssistant.StartLiveBegin 1 2;
    SetupAssistant.StartLiveResume (inl micStream) (inl 1);
    SetupAssistant.OnOpen;
    SetupAssistant.OnMessageResume (transcriptMessage (js "Brake "));
    SetupAssistant.OnMessageResume (transcriptMessage (js "later."));
    SetupAssistant.OnMessageResume turnCompleteMessage;
    SetupAssistant.OnMessageResume (transcriptMessage (js "  "));
    SetupAssistant.OnMessageResume turnCompleteMessage ].

(** An assistant session in which the model has said "Trail brake" in
    two transcript parts and has not ended its turn. *)
Definition assistantCutOff : list SetupAssistant.Event :=
  [ SetupAssistant.StartLiveBegin 1 2;
    SetupAssistant.StartLiveResume (inl micStream) (inl 1);
    SetupAssistant.OnOpen;
    SetupAssistant.OnMessageResume (transcriptMessage (js "Trail "));
    SetupAssistant.OnMessageResume (transcriptMessage (js "brake")) ].

End Samples.

(** ** Sources: which are started, tracked and stopped *)

Module Sources.
Import Web.

(** The sources [start] was called on, oldest first. *)
Definition started (b : Browser) : list nat := map source (scheduled b).

(** Every started source came from [createBufferSource], no source was
    started twice, and only started sources are tracked or stopped. *)
Definition wellStarted (tracked : gset nat) (b : Browser) : Prop :=
  (∀ x, x ∈ started b → x < nextSource b) ∧
  NoDup (started b) ∧
  (∀ x, x ∈ tracked → x ∈ started b) ∧
  (∀ x, x ∈ stoppedSources b → x ∈ started b).

(** A step that starts no source, tracks no new one, and stops tracked
    sources only. *)
Definition quiet (tracked tracked' : gset nat) (b b' : Browser) : Prop :=
  scheduled b' = scheduled b ∧
  nextSource b' = nextSource b ∧
  (∀ x, x ∈ tracked' → x ∈ tracked) ∧
  (∀ x, x ∈ stoppedSources b' → x ∈ stoppedSources b ∨ x ∈ tracked).

Definition lcQuiet (s s' : LiveCoach.State) : Prop :=
  quiet (LiveCoach.sourcesRef s) (LiveCoach.sourcesRef s')
    (LiveCoach.browser s) (LiveCoach.browser s').

Definition saQuiet (s s' : SetupAssistant.State) : Prop :=
  quiet (SetupAssistant.sourcesRef s) (SetupAssistant.sourcesRef s')
    (SetupAssistant.browser s) (SetupAssistant.browser s').

End Sources.

(** ** The transcript text the chat holds *)

Module Spoken.
Import JS Live Types.

(** The transcript text of a chat message: the text after the speaker
    prefix for a message without a setup file, nothing for the message of a
    generated setup file. *)
Definition spokenOf (msg : ChatMessage) : JSString :=
  match setupFile msg with
  | Some _ => []
  | None => drop (length SetupAssistant.speakerPrefix) (text msg)
  end.

Definition spoken (ms : list ChatMessage) : JSString := concat (map spokenOf ms).

(** The transcript parts of a sequence of server messages, in order. *)
Definition partsOf (ms : list (Q * LiveServerMessage)) : JSString :=
  concat (omap (λ tm, transcriptPart (snd tm)) ms).

End Spoken.

(** ** Tool responses *)

Module ToolResponses.
Import JS Live.



End ToolResponses.

(** ** Message identifiers *)

Module Identifiers.
Import JS Types.

(** The number a string of decimal digits denotes. *)
Definition fromString (s : JSString) : option N :=
  option_map N.of_uint
    (NilZero.uint_of_string (string_of_list_ascii (map ascii_of_N s))).

(** Any two messages are made at least two milliseconds apart.  A
    message takes two readings of the clock, the first for its identifier;
    counted from the first render, the identifier of the [i]-th message made
    comes from reading [2 * i]. *)
Definition spaced (dateNow : nat → N) : Prop :=
  ∀ i j, i < j → (dateNow (2 * i)%nat + 1 < dateNow (2 * j)%nat)%N.

(** The identifier is the greeting's, or was made from an earlier
    identifier reading plus at most one. *)
Definition minted (dateNow : nat → N) (made : nat) (i : JSString) : Prop :=
  i = js "init" ∨ ∃ v n, i = toString v ∧ n < made ∧ (v <= dateNow (2 * n)%nat + 1)%N.

Definition distinctIds (dateNow : nat → N) (s : SetupAssistant.State) : Prop :=
  ∃ made, SetupAssistant.clockReads s = 2 * made ∧
          NoDup (map id (SetupAssistant.messages s)) ∧
          ∀ msg, msg ∈ SetupAssistant.messages s → minted dateNow made (id msg).

(** A millisecond clock under which a message is made every other
    millisecond, its two readings falling into the same millisecond. *)
Definition pacedClock (k : nat) : N := (1700000000000 + 2 * N.of_nat (k / 2))%N.

End Identifiers.

(** ** The text request of SetupAssistant *)

Module SendRequest.
Import JS Types.

(** [disabled={isLoading || (!inputText && !selectedImage)}] of the send
    button. *)
Definition sendDisabled (s : SetupAssistant.State) : bool :=
  SetupAssistant.isLoading s
  || (negb (truthy (SetupAssistant.inputText s))
      && negb (SetupAssistant.imageTruthy (SetupAssistant.selectedImage s))).

(** What the user can do to the text request while the reply is
    awaited: type, select or remove an image, and try to send (the [Enter]
    key calls [handleSendMessage] whatever the button shows). *)
Definition composing (e : SetupAssistant.Event) : bool :=
  match e with
  | SetupAssistant.InputChanged _ | SetupAssistant.ImageSelected _
  | SetupAssistant.ImageRemoved | SetupAssistant.SendBegin => true
  | _ => false
  end.

(** [s.split(sep)] for a separator of one code unit. *)
Fixpoint split (sep : N) (s : JSString) : list JSString :=
  match s with
  | [] => [[]]
  | c :: r =>
      if (c =? sep)%N then [] :: split sep r
      else match split sep r with
           | piece :: pieces => (c :: piece) :: pieces
           | [] => [[c]]
           end
  end.

Definition comma : N := 44.

(** A part of the request: [{ inlineData: { data, mimeType } }] or
    [{ text }]. *)
Inductive RequestPart :=
| InlineDataPart (data : option JSString) (mimeType : JSString)
| TextPart (text : JSString).

Definition analysisPrompt : JSString :=
  js "Analyze this Assetto Corsa Competizione setup screen. Explain the values visible and suggest improvements.".

(** The [parts] that [handleSendMessage] builds from [newMessage]. *)
Definition buildParts (newMessage : ChatMessage) : list RequestPart :=
  let parts := [] in
  let parts :=
    if SetupAssistant.imageTruthy (image newMessage) then
      let base64Data := default [] (image newMessage) in
      let base64Data := split comma base64Data !! 1 in
      parts ++ [ InlineDataPart base64Data (js "image/jpeg") ]
    else parts in
  if truthy (text newMessage) then parts ++ [ TextPart (text newMessage) ]
  else if SetupAssistant.imageTruthy (image newMessage)
       then parts ++ [ TextPart analysisPrompt ]
       else parts.

(** The [newMessage] of [handleSendMessage] in state [s]. *)
Definition newMessage (dateNow : nat → N) (s : SetupAssistant.State) : ChatMessage :=
  fst (SetupAssistant.mkMessage dateNow 0 user (SetupAssistant.inputText s)
         (SetupAssistant.imageOrUndefined (SetupAssistant.selectedImage s)) None s).

(** The code units of a string before its first [sep]. *)
Fixpoint upTo (sep : N) (s : JSString) : JSString :=
  match s with
  | [] => []
  | c :: r => if (c =? sep)%N then [] else c :: upTo sep r
  end.

End SendRequest.

(** ** App.tsx and components/Navigation.tsx *)

Module App.
Import JS Web.

(** [AppView] of types.ts. *)
Inductive AppView := DASHBOARD | LIVE_COACH | SETUP_WIZARD | TELEMETRY.

#[global] Instance AppView_eq_dec : EqDecision AppView.
Proof. solve_decision. Defined.

(** The components [App] can put into [<main>]. *)
Inductive Component :=
| DashboardHome
| LiveCoachComponent
| SetupAssistantComponent
| TelemetryDashboardComponent.

(** The four conditional children of [<main>]:
    [{currentView === AppView.X && <Component />}]. *)
Definition rendered (currentView : AppView) : list Component :=
  (if bool_decide (currentView = DASHBOARD) then [DashboardHome] else [])
  ++ (if bool_decide (currentView = LIVE_COACH) then [LiveCoachComponent] else [])
  ++ (if bool_decide (currentView = SETUP_WIZARD) then [SetupAssistantComponent] else [])
  ++ (if bool_decide (currentView = TELEMETRY) then [TelemetryDashboardComponent] else []).

(** [navItems] of [Navigation]. *)
Record NavItem := { navId : AppView; label : JSString }.

Definition navItems : list NavItem :=
  [ {| navId := DASHBOARD; label := js "Dashboard" |};
    {| navId := LIVE_COACH; label := js "Live Coach" |};
    {| navId := SETUP_WIZARD; label := js "Setup Wizard" |};
    {| navId := TELEMETRY; label := js "Telemetry" |} ].

(** [const active = currentView === item.id] *)
Definition active (currentView : AppView) (item : NavItem) : bool :=
  bool_decide (currentView = navId item).

(** The view a click on the item asks for: [onChangeView(item.id)]. *)
Definition clicked (item : NavItem) : AppView := navId item.

(** The component instance that is mounted, with its state; the static
    screens hold nothing but the browser they leave alone. *)
Inductive Mounted :=
| Home (b : Browser)
| Coach (s : LiveCoach.State)
| Assistant (s : SetupAssistant.State)
| Telemetry (b : Browser).

Record State := { currentView : AppView; screen : Mounted }.

Definition browserOf (m : Mounted) : Browser :=
  match m with
  | Home b => b
  | Coach s => LiveCoach.browser s
  | Assistant s => SetupAssistant.browser s
  | Telemetry b => b
  end.

Definition componentOf (m : Mounted) : Component :=
  match m with
  | Home _ => DashboardHome
  | Coach _ => LiveCoachComponent
  | Assistant _ => SetupAssistantComponent
  | Telemetry _ => TelemetryDashboardComponent
  end.

(** Unmounting runs the cleanup of the component's effect:
    [useEffect(() => () => stopSession(), [stopSession])] in LiveCoach,
    the same with [stopLiveSession] in SetupAssistant.  The state of the
    component is gone afterwards; the browser stays. *)
Definition unmount (dateNow : nat → N) (m : Mounted) : Browser :=
  match m with
  | Home b => b
  | Coach s => LiveCoach.browser (LiveCoach.stopSession s)
  | Assistant s => SetupAssistant.browser (SetupAssistant.stopLiveSession dateNow s)
  | Telemetry b => b
  end.

(** Mounting the component of a view: its first render, at clock
    reading [t0]. *)
Definition mount (v : AppView) (t0 : N) (b : Browser) : Mounted :=
  match v with
  | DASHBOARD => Home b
  | LIVE_COACH => Coach (LiveCoach.initial b)
  | SETUP_WIZARD => Assistant (SetupAssistant.initial t0 b)
  | TELEMETRY => Telemetry b
  end.

(** [setCurrentView(v)]: setting the state to the value it has renders
    nothing anew; another value unmounts the component shown and mounts the
    one of [v]. *)
Definition setCurrentView (dateNow : nat → N) (t0 : N) (v : AppView) (a : State) : State :=
  if bool_decide (v = currentView a) then a
  else {| currentView := v; screen := mount v t0 (unmount dateNow (screen a)) |}.

(** The app as first rendered: [useState(AppView.DASHBOARD)]. *)
Definition initial (b : Browser) : State :=
  {| currentView := DASHBOARD; screen := Home b |}.

(** Clicks on navigation items, one after the other. *)
Definition navigate (dateNow : nat → N) (t0 : N) (clicks : list NavItem) (a : State) : State :=
  foldl (λ acc item, setCurrentView dateNow t0 (clicked item) acc) a clicks.

End App.

(** ** components/TelemetryDashboard.tsx: the simulated lap *)

Module Telemetry.
Import JS.
Local Open Scope Q_scope.

(** [interface TelemetryPoint].  Numbers are exact rationals: the
    doubles of the source are these values up to rounding error, far below
    the half thousandth at which [toFixed(3)] rounds and the 0.2 km/h by
    which the two speeds differ at least, from index 1 on. *)
Record TelemetryPoint := {
  distance : Q;
  refSpeed : Q;
  userSpeed : Q;
  refThrottle : Q;
  userThrottle : Q;
  refBrake : Q;
  userBrake : Q;
  delta : Q;
  segment : JSString
}.

(** The variables the loop body sets from [i] before it clamps them. *)
Record Raw := {
  segmentName : JSString;
  rawRefSpeed : Q;
  rawUserSpeed : Q;
  refThrot : Q;
  userThrot : Q;
  rawRefBrake : Q;
  rawUserBrake : Q
}.

(** The track profile: the chain of [if (i < ...)] of the loop body. *)
Definition profile (i : Z) : Raw :=
  let x := inject_Z i in
  if (i <? 20)%Z then
    {| segmentName := js "Start Finish";
       rawRefSpeed := 200 + x * 4;
       rawUserSpeed := 200 + x * (38 # 10);
       refThrot := 100; userThrot := 100;
       rawRefBrake := 0; rawUserBrake := 0 |}
  else if (i <? 30)%Z then
    {| segmentName := js "La Source Entry";
       rawRefSpeed := 280 - (x - 20) * 20;
       rawUserSpeed := 276 - (x - 20) * 22;
       refThrot := 0; userThrot := 0;
       rawRefBrake := if (22 <? i)%Z then 100 else 0;
       rawUserBrake := if (20 <? i)%Z then 90 else 0 |}
  else if (i <? 40)%Z then
    {| segmentName := js "La Source Exit";
       rawRefSpeed := 60 + (x - 30) * 10;
       rawUserSpeed := 55 + (x - 30) * 8;
       refThrot := (x - 30) * 10; userThrot := (x - 30) * 8;
       rawRefBrake := 0; rawUserBrake := 0 |}
  else if (i <? 90)%Z then
    {| segmentName := js "Eau Rouge Run";
       rawRefSpeed := 160 + (x - 40) * 2;
       rawUserSpeed := 135 + (x - 40) * 2;
       refThrot := 100; userThrot := 100;
       rawRefBrake := 0; rawUserBrake := 0 |}
  else
    {| segmentName := js "Eau Rouge Compression";
       rawRefSpeed := 260 - (x - 90) * 1;
       rawUserSpeed := 235 - (x - 90) * 2;
       refThrot := 100; userThrot := 80;
       rawRefBrake := 0; rawUserBrake := 0 |}.

(** [x < y] on numbers. *)
Definition ltb (x y : Q) : bool :=
  match (x ?= y)%Q with Lt => true | _ => false end.

(** [parseFloat(x.toFixed(3))]: [x] rounded to thousandths, halves away
    from zero. *)
Definition toFixed3 (x : Q) : Q :=
  if ltb x 0 then - (Qfloor (- x * 1000 + (1 # 2)) # 1000)
  else Qfloor (x * 1000 + (1 # 2)) # 1000.

(** [currentDelta] after the two [if (speedDiff ...)] of the body. *)
Definition accumulate (currentDelta : Q) (r : Raw) : Q :=
  let speedDiff := rawRefSpeed r - rawUserSpeed r in
  let currentDelta := if ltb 0 speedDiff then currentDelta + (15 # 1000) else currentDelta in
  if ltb speedDiff 0 then currentDelta - (15 # 1000) else currentDelta.

(** The object pushed for index [i], given [currentDelta] as updated. *)
Definition point (i : Z) (currentDelta : Q) : TelemetryPoint :=
  let r := profile i in
  {| distance := inject_Z (i * 10);
     refSpeed := Qmax 0 (rawRefSpeed r);
     userSpeed := Qmax 0 (rawUserSpeed r);
     refThrottle := Qmax 0 (Qmin 100 (refThrot r));
     userThrottle := Qmax 0 (Qmin 100 (userThrot r));
     refBrake := Qmax 0 (Qmin 100 (rawRefBrake r));
     userBrake := Qmax 0 (Qmin 100 (rawUserBrake r));
     delta := toFixed3 currentDelta;
     segment := segmentName r |}.

(** One turn of the loop: [currentDelta] and [points] before and
    after. *)
Definition body (st : Q * list TelemetryPoint) (i : Z) : Q * list TelemetryPoint :=
  let currentDelta := accumulate (fst st) (profile i) in
  (currentDelta, snd st ++ [point i currentDelta]).

(** [for (let i = 0; i <= last; i++) { ... }] from [currentDelta = 0] and
    no points. *)
Definition lapData (last : nat) : list TelemetryPoint :=
  snd (foldl body (0, []) (map Z.of_nat (seq 0%nat (S last)))).

(** [generateLapData] *)
Definition generateLapData : list TelemetryPoint := lapData 100%nat.

End Telemetry.

(** ** The screen-share flag, stream and timer of both components *)

Module Sharing.
Import Web.

(** [isScreenSharing], [screenStreamRef.current] and
    [frameIntervalRef.current]. *)
Definition View : Type := bool * option MediaStream * option positive.

Definition lcView (s : LiveCoach.State) : View :=
  (LiveCoach.isScreenSharing s, LiveCoach.screenStreamRef s, LiveCoach.frameIntervalRef s).

Definition saView (s : SetupAssistant.State) : View :=
  (SetupAssistant.isScreenSharing s, SetupAssistant.screenStreamRef s,
   SetupAssistant.frameIntervalRef s).

(** The flag is up, and a frame timer is remembered, only while a screen
    stream is held. *)
Definition consistent (v : View) : Prop :=
  (v.1.1 = true → is_Some v.1.2) ∧ (is_Some v.2 → is_Some v.1.2).

End Sharing.

(** * Facts about the browser model *)

Section WebFacts.
Import Web.

Lemma duration_nonneg (b : AudioBuffer) : (0 <= duration b)%Q.
Proof.
  unfold duration, Qle. simpl. rewrite Z.mul_1_r. apply N2Z.is_nonneg.
Qed.

Lemma stopTracks_eq (st : MediaStream) (b : Browser) :
  stopTracks st b =
  {| clearedIntervals := clearedIntervals b;
     stoppedTracks := list_to_set (getTracks st) ∪ stoppedTracks b;
     stoppedSources := stoppedSources b;
     closedContexts := closedContexts b; closeRequested := closeRequested b;
     nextSource := nextSource b; scheduled := scheduled b; requests := requests b |}.
Proof.
  unfold stopTracks. destruct st as [ts]. simpl. revert b.
  induction ts as [|t ts IH]; intros b; simpl.
  - destruct b; simpl. f_equal. by rewrite (left_id_L ∅ (∪)).
  - rewrite IH. simpl. f_equal.
    rewrite (assoc_L (∪)). f_equal. apply (comm_L (∪)).
Qed.

End WebFacts.

(** * Facts about schedules *)

Section ScheduleFacts.
Import Web Schedule.

Lemma NoOverlap_backToBack (l : list Scheduled) : NoOverlap l → backToBack l.
Proof. intros H i a b Ha Hb. apply (H i (S i)); auto with lia. Qed.

Lemma covered_mono (c c' : Q) (l : list Scheduled) :
  (c <= c')%Q → covered c l → covered c' l.
Proof. intros Hle H a Ha. specialize (H a Ha). lra. Qed.

Lemma NoOverlap_snoc (c : Q) (l : list Scheduled) (x : Scheduled) :
  NoOverlap l → covered c l → (c <= when x)%Q → NoOverlap (l ++ [x]).
Proof.
  intros Hno Hcov Hc i j a b Hij Ha Hb.
  destruct (decide (j < length l)) as [Hj|Hj].
  - rewrite lookup_app_l in Ha by lia. rewrite lookup_app_l in Hb by lia.
    exact (Hno i j a b Hij Ha Hb).
  - assert (Hlen : j < length (l ++ [x])) by (eapply lookup_lt_Some; eauto).
    rewrite length_app in Hlen. simpl in Hlen.
    assert (j = length l) by lia. subst j.
    rewrite lookup_app_l in Ha by lia.
    rewrite lookup_app_r in Hb by lia.
    rewrite Nat.sub_diag in Hb. simpl in Hb. injection Hb as <-.
    assert (a ∈ l) by (eapply list_elem_of_lookup_2; eauto).
    specialize (Hcov a H). lra.
Qed.

(** Raising the cursor keeps the invariant. *)
Lemma cursorInvariant_raise (c t : Q) (l : list Scheduled) :
  cursorInvariant c l → cursorInvariant (Qmax c t) l.
Proof.
  intros [Hno Hcov]. split; [exact Hno|].
  eapply covered_mono; [apply Q.le_max_l | exact Hcov].
Qed.

(** Scheduling a chunk at the cursor and advancing the cursor by its
    duration keeps the invariant. *)
Lemma cursorInvariant_schedule (c : Q) (l : list Scheduled) (src : nat) (buf : AudioBuffer) :
  cursorInvariant c l →
  cursorInvariant (c + duration buf)
    (l ++ [ {| source := src; when := c; buffer := buf |} ]).
Proof.
  intros [Hno Hcov]. pose proof (duration_nonneg buf) as Hd. split.
  - eapply NoOverlap_snoc; eauto. simpl. lra.
  - intros a Ha. apply elem_of_app in Ha as [Ha|Ha].
    + specialize (Hcov a Ha). lra.
    + apply list_elem_of_singleton in Ha. subst a. unfold endTime. simpl. lra.
Qed.

End ScheduleFacts.

(** * Closed forms of the teardowns *)

Section TeardownFacts.
Import JS Web Teardown.

Lemma coach_stopSession_eq (s : LiveCoach.State) :
  LiveCoach.stopSession s = coachStopped s.
Proof.
  destruct s as [a e st sh mic scr out inp cur ses itv srcs b].
  unfold LiveCoach.stopSession, coachStopped, tornDown. simpl.
  destruct itv, mic, scr, out, inp; reflexivity.
Qed.

Lemma assistant_stopLiveSession_eq (dateNow : nat → N) (s : SetupAssistant.State) :
  SetupAssistant.stopLiveSession dateNow s =
  SetupAssistant.savePendingTranscript dateNow (assistantReleased s).
Proof.
  destruct s. unfold SetupAssistant.stopLiveSession, assistantReleased, tornDown. simpl.
  destruct frameIntervalRef, streamRef, screenStreamRef, audioContextRef, inputContextRef;
    reflexivity.
Qed.

End TeardownFacts.

(** * The browser after a teardown *)

Section TornDownBrowser.
Import Web Teardown.

Lemma closeIfOpen_eq (c : nat) (b : Browser) :
  closeIfOpen c b =
  {| clearedIntervals := clearedIntervals b;
     stoppedTracks := stoppedTracks b; stoppedSources := stoppedSources b;
     closedContexts := closedContexts b;
     closeRequested := (if notClosed c b then {[c]} else ∅) ∪ closeRequested b;
     nextSource := nextSource b; scheduled := scheduled b; requests := requests b |}.
Proof.
  unfold closeIfOpen. destruct (notClosed c b); [reflexivity|].
  destruct b; simpl. f_equal. by rewrite (left_id_L ∅ (∪)).
Qed.

Lemma tornDown_frame itv mic scr srcs out inp (b : Browser) :
  closedContexts (tornDown itv mic scr srcs out inp b) = closedContexts b ∧
  nextSource (tornDown itv mic scr srcs out inp b) = nextSource b ∧
  scheduled (tornDown itv mic scr srcs out inp b) = scheduled b ∧
  requests (tornDown itv mic scr srcs out inp b) = requests b.
Proof.
  unfold tornDown, closeOpt, stopTracksOpt, clearIntervalOpt.
  destruct itv, mic, scr, out, inp;
    rewrite ?closeIfOpen_eq, ?stopTracks_eq; simpl; auto.
Qed.

Lemma tornDown_clearedIntervals itv mic scr srcs out inp (b : Browser) (h : positive) :
  h ∈ clearedIntervals (tornDown itv mic scr srcs out inp b) ↔
  itv = Some h ∨ h ∈ clearedIntervals b.
Proof.
  unfold tornDown, closeOpt, stopTracksOpt, clearIntervalOpt.
  destruct itv, mic, scr, out, inp;
    rewrite ?closeIfOpen_eq, ?stopTracks_eq; simpl;
    rewrite ?elem_of_union, ?elem_of_singleton; naive_solver.
Qed.

Lemma tornDown_stoppedTracks itv mic scr srcs out inp (b : Browser) (t : nat) :
  t ∈ stoppedTracks (tornDown itv mic scr srcs out inp b) ↔
  t ∈ tracksOf mic ∨ t ∈ tracksOf scr ∨ t ∈ stoppedTracks b.
Proof.
  unfold tornDown, closeOpt, stopTracksOpt, clearIntervalOpt, tracksOf.
  destruct itv, mic, scr, out, inp;
    rewrite ?closeIfOpen_eq, ?stopTracks_eq; simpl;
    rewrite ?elem_of_union, ?elem_of_list_to_set, ?elem_of_nil; naive_solver.
Qed.

Lemma tornDown_stoppedSources itv mic scr srcs out inp (b : Browser) (x : nat) :
  x ∈ stoppedSources (tornDown itv mic scr srcs out inp b) ↔
  x ∈ srcs ∨ x ∈ stoppedSources b.
Proof.
  unfold tornDown, closeOpt, stopTracksOpt, clearIntervalOpt.
  destruct itv, mic, scr, out, inp;
    rewrite ?closeIfOpen_eq, ?stopTracks_eq; simpl;
    rewrite ?elem_of_union; naive_solver.
Qed.

Lemma tornDown_closeRequested itv mic scr srcs out inp (b : Browser) (c : nat) :
  c ∈ closeRequested (tornDown itv mic scr srcs out inp b) ↔
  (out = Some c ∧ c ∉ closedContexts b) ∨ (inp = Some c ∧ c ∉ closedContexts b)
  ∨ c ∈ closeRequested b.
Proof.
  unfold tornDown, closeOpt, stopTracksOpt, clearIntervalOpt, notClosed.
  destruct itv, mic, scr, out, inp;
    rewrite ?closeIfOpen_eq, ?stopTracks_eq; unfold notClosed; simpl;
    repeat case_bool_decide;
    rewrite ?elem_of_union, ?elem_of_singleton, ?elem_of_empty; naive_solver.
Qed.

End TornDownBrowser.

(** * Scheduling of output chunks *)

Section AssistantSchedule.
Import JS Web Live Types Schedule Teardown Cursor SetupAssistant.

Variable dateNow : nat → N.
Variable decodeAudioData : JSString → AudioBuffer.

Variable base : list Scheduled.

Lemma saSameSchedule_invariant (s s' : State) :
  saSameSchedule s s' → assistantInvariant base s → assistantInvariant base s'.
Proof. unfold assistantInvariant. intros [-> ->]. auto. Qed.

Lemma sa_savePendingTranscript_frame (s : State) :
  nextStartTimeRef (savePendingTranscript dateNow s) = nextStartTimeRef s ∧
  browser (savePendingTranscript dateNow s) = browser s.
Proof. unfold savePendingTranscript. destruct (truthy _); split; reflexivity. Qed.

Lemma sa_stopLiveSession_schedule (s : State) :
  saSameSchedule s (stopLiveSession dateNow s).
Proof.
  rewrite assistant_stopLiveSession_eq.
  destruct (sa_savePendingTranscript_frame (assistantReleased s)) as [Hc Hb].
  split; [rewrite Hc | rewrite Hb]; simpl; [reflexivity|].
  apply tornDown_frame.
Qed.

Lemma sa_handleFunctionCall_frame (s : State) (fc : FunctionCall) :
  nextStartTimeRef (handleFunctionCall dateNow s fc) = nextStartTimeRef s ∧
  browser (handleFunctionCall dateNow s fc) = browser s.
Proof. unfold handleFunctionCall. case_bool_decide; split; reflexivity. Qed.

Lemma sa_handleToolCall_frame (m : LiveServerMessage) (s : State) :
  nextStartTimeRef (handleToolCall dateNow m s) = nextStartTimeRef s ∧
  browser (handleToolCall dateNow m s) = browser s.
Proof.
  unfold handleToolCall. destruct (toolCall m) as [[fcs]|]; [|auto]. simpl.
  revert s. induction fcs as [|fc fcs IH]; intros s; simpl; [auto|].
  destruct (IH (handleFunctionCall dateNow s fc)) as [-> ->].
  apply sa_handleFunctionCall_frame.
Qed.

Lemma sa_handleTurnComplete_frame (m : LiveServerMessage) (s : State) :
  nextStartTimeRef (handleTurnComplete dateNow m s) = nextStartTimeRef s ∧
  browser (handleTurnComplete dateNow m s) = browser s.
Proof.
  unfold handleTurnComplete.
  destruct (isTurnComplete m); [|auto]. destruct (truthy _); split; reflexivity.
Qed.

Lemma sa_handleTranscript_frame (m : LiveServerMessage) (s : State) :
  nextStartTimeRef (handleTranscript m s) = nextStartTimeRef s ∧
  browser (handleTranscript m s) = browser s.
Proof. unfold handleTranscript. destruct (transcriptPart m); split; reflexivity. Qed.

(** What the handler does after the audio block leaves cursor and
    browser alone. *)
Lemma sa_onmessage_resume_frame (m : LiveServerMessage) (s : State) :
  nextStartTimeRef (onmessage_resume dateNow decodeAudioData m s)
    = nextStartTimeRef (handleAudio decodeAudioData m s) ∧
  browser (onmessage_resume dateNow decodeAudioData m s)
    = browser (handleAudio decodeAudioData m s).
Proof.
  unfold onmessage_resume.
  destruct (sa_handleToolCall_frame m
    (handleTurnComplete dateNow m (handleTranscript m (handleAudio decodeAudioData m s))))
    as [-> ->].
  destruct (sa_handleTurnComplete_frame m
    (handleTranscript m (handleAudio decodeAudioData m s))) as [-> ->].
  apply sa_handleTranscript_frame.
Qed.

Lemma sa_handleAudio_invariant (m : LiveServerMessage) (s : State) :
  assistantInvariant base s → assistantInvariant base (handleAudio decodeAudioData m s).
Proof.
  unfold assistantInvariant, handleAudio. intros H.
  destruct (audioOf m) as [a|]; [|exact H]. simpl.
  destruct H as (new & -> & H). eexists. split; [by rewrite <- app_assoc|].
  by apply cursorInvariant_schedule.
Qed.

Lemma sa_handle_invariant (e : Event) (s : State) :
  assistantKeeps e = true → assistantInvariant base s →
  assistantInvariant base (handle dateNow decodeAudioData e s).
Proof.
  intros Hk H. destruct e; simpl in *; try discriminate; try exact H.
  - (* SendBegin *)
    unfold handleSendMessage_begin. destruct (canSend s); exact H.
  - (* SendResume *)
    unfold handleSendMessage_resume. destruct r; exact H.
  - (* StartLiveResume *)
    unfold startLiveSession_resume, startLiveSession_catch.
    destruct mic; [destruct conn|];
      try (eapply saSameSchedule_invariant; [apply sa_stopLiveSession_schedule|]);
      exact H.
  - (* OnMessageBegin *)
    unfold onmessage_begin. destruct (audioOf m); [|exact H].
    destruct H as (new & Hs & H). exists new. split; [exact Hs|].
    by apply cursorInvariant_raise.
  - (* OnMessageResume *)
    unfold assistantInvariant.
    destruct (sa_onmessage_resume_frame m s) as [-> ->].
    by apply sa_handleAudio_invariant.
  - (* OnClose *)
    eapply saSameSchedule_invariant; [apply sa_stopLiveSession_schedule|exact H].
  - (* OnError *)
    unfold onerror.
    eapply saSameSchedule_invariant; [apply sa_stopLiveSession_schedule|exact H].
  - (* StopLive *)
    eapply saSameSchedule_invariant; [apply sa_stopLiveSession_schedule|exact H].
  - (* ShareResume *)
    unfold startScreenShare_resume. destruct screen; [|exact H].
    destruct (_ && _); exact H.
  - (* ScreenEnded *)
    unfold screenEnded. simpl. destruct (frameIntervalRef s); exact H.
  - (* ClickDownload *)
    unfold clickDownload. destruct (setupFile msg); exact H.
Qed.

Lemma sa_run_invariant (es : list Event) (s : State) :
  Forall (λ e, assistantKeeps e = true) es → assistantInvariant base s →
  assistantInvariant base (run dateNow decodeAudioData es s).
Proof.
  intros Hes. revert s. induction Hes as [|e es He _ IH]; intros s H; simpl; [exact H|].
  apply IH. by apply sa_handle_invariant.
Qed.

(** One message with audio, handled without interleaving: the cursor
    is raised to the current time, the chunk starts there, and the cursor
    moves on by the chunk's duration. *)
Lemma sa_onmessage_audio currentTime (m : LiveServerMessage) (a : JSString) (s : State) :
  audioOf m = Some a →
  let s' := onmessage dateNow decodeAudioData currentTime m s in
  scheduled (browser s') =
    scheduled (browser s) ++
      [ {| source := nextSource (browser s);
           when := Qmax (nextStartTimeRef s) currentTime;
           buffer := decodeAudioData a |} ] ∧
  nextStartTimeRef s' =
    (Qmax (nextStartTimeRef s) currentTime + duration (decodeAudioData a))%Q.
Proof.
  intros Ha. unfold onmessage. simpl.
  destruct (sa_onmessage_resume_frame m (onmessage_begin currentTime m s)) as [-> ->].
  unfold handleAudio, onmessage_begin. rewrite Ha. simpl. auto.
Qed.

End AssistantSchedule.

Section CoachSchedule.
Import JS Web Live Schedule Teardown Cursor LiveCoach.

Variable decodeAudioData : JSString → AudioBuffer.

Variable base : list Scheduled.

Lemma lcSameSchedule_invariant (s s' : State) :
  lcSameSchedule s s' → coachInvariant base s → coachInvariant base s'.
Proof. unfold coachInvariant. intros [-> ->]. auto. Qed.

Lemma lc_stopSession_schedule (s : State) : lcSameSchedule s (stopSession s).
Proof.
  rewrite coach_stopSession_eq. split; simpl; [reflexivity|]. apply tornDown_frame.
Qed.

Lemma lc_onmessage_resume_invariant (m : LiveServerMessage) (s : State) :
  isInterrupted m = false → coachInvariant base s →
  coachInvariant base (onmessage_resume decodeAudioData m s).
Proof.
  unfold coachInvariant, onmessage_resume. intros -> H.
  destruct (audioOf m) as [a|]; [|exact H]. simpl.
  destruct H as (new & -> & H). eexists. split; [by rewrite <- app_assoc|].
  by apply cursorInvariant_schedule.
Qed.

Lemma lc_handle_invariant (e : Event) (s : State) :
  coachKeeps e = true → coachInvariant base s →
  coachInvariant base (handle decodeAudioData e s).
Proof.
  intros Hk H. destruct e; simpl in *; try discriminate; try exact H.
  - (* StartResume *)
    unfold startSession_resume, startSession_catch.
    destruct mic; [destruct conn|];
      try (eapply lcSameSchedule_invariant; [apply lc_stopSession_schedule|]);
      exact H.
  - (* OnMessageBegin *)
    unfold onmessage_begin. destruct (audioOf m); [|exact H].
    destruct H as (new & Hs & H). exists new. split; [exact Hs|].
    by apply cursorInvariant_raise.
  - (* OnMessageResume *)
    apply lc_onmessage_resume_invariant; [|exact H].
    by destruct (isInterrupted m).
  - (* OnClose *)
    unfold onclose.
    eapply lcSameSchedule_invariant; [apply lc_stopSession_schedule|exact H].
  - (* OnError *)
    unfold onerror.
    eapply lcSameSchedule_invariant; [apply lc_stopSession_schedule|exact H].
  - (* Stop *)
    eapply lcSameSchedule_invariant; [apply lc_stopSession_schedule|exact H].
  - (* ShareResume *)
    unfold startScreenShare_resume. destruct screen; [|exact H].
    destruct (_ && _); exact H.
  - (* ScreenEnded *)
    unfold screenEnded. simpl. destruct (frameIntervalRef s); exact H.
Qed.

Lemma lc_run_invariant (es : list Event) (s : State) :
  Forall (λ e, coachKeeps e = true) es → coachInvariant base s →
  coachInvariant base (run decodeAudioData es s).
Proof.
  intros Hes. revert s. induction Hes as [|e es He _ IH]; intros s H; simpl; [exact H|].
  apply IH. by apply lc_handle_invariant.
Qed.

Lemma lc_onmessage_audio currentTime (m : LiveServerMessage) (a : JSString) (s : State) :
  audioOf m = Some a → isInterrupted m = false →
  let s' := onmessage decodeAudioData currentTime m s in
  scheduled (browser s') =
    scheduled (browser s) ++
      [ {| source := nextSource (browser s);
           when := Qmax (nextStartTimeRef s) currentTime;
           buffer := decodeAudioData a |} ] ∧
  nextStartTimeRef s' =
    (Qmax (nextStartTimeRef s) currentTime + duration (decodeAudioData a))%Q.
Proof.
  intros Ha Hi. unfold onmessage, onmessage_resume, onmessage_begin.
  rewrite Ha, Hi. simpl. auto.
Qed.

End CoachSchedule.

Section OutputChunks.
Import JS Web Live Schedule Cursor Samples.

Lemma cursorInvariant_nil (c : Q) : cursorInvariant c [].
Proof.
  split.
  - intros i j a b _ Ha. by rewrite lookup_nil in Ha.
  - intros a Ha. by apply elem_of_nil in Ha.
Qed.

(** C1, as amended.  In a session of either component (a run with no
    session start, from whatever state the session found), as long as no
    interrupted message is handled by LiveCoach, each chunk scheduled in the
    session starts no earlier than the end of the chunk scheduled before it,
    no two of these chunks overlap, and the cursor stays at or beyond the end
    of every one of them; this holds however the handlers of several
    messages interleave at their await.  A message with audio that is
    handled without interleaving raises the cursor to
    max(cursor, currentTime), starts its chunk at that value and advances
    the cursor by the chunk's duration. *)
Theorem output_chunks_back_to_back
    (dateNow : nat → N) (decodeAudioData : JSString → AudioBuffer)
    (sa : SetupAssistant.State) (lc : LiveCoach.State)
    (esa : list SetupAssistant.Event) (elc : list LiveCoach.Event) :
  Forall (λ e, assistantKeeps e = true) esa →
  Forall (λ e, coachKeeps e = true) elc →
  let sa' := SetupAssistant.run dateNow decodeAudioData esa sa in
  let lc' := LiveCoach.run decodeAudioData elc lc in
  (∃ new, scheduled (SetupAssistant.browser sa') =
            scheduled (SetupAssistant.browser sa) ++ new ∧
          backToBack new ∧ NoOverlap new ∧
          covered (SetupAssistant.nextStartTimeRef sa') new) ∧
  (∃ new, scheduled (LiveCoach.browser lc') = scheduled (LiveCoach.browser lc) ++ new ∧
          backToBack new ∧ NoOverlap new ∧
          covered (LiveCoach.nextStartTimeRef lc') new) ∧
  (∀ currentTime m a, audioOf m = Some a →
     let sa'' := SetupAssistant.onmessage dateNow decodeAudioData currentTime m sa' in
     scheduled (SetupAssistant.browser sa'') =
       scheduled (SetupAssistant.browser sa') ++
         [ {| source := nextSource (SetupAssistant.browser sa');
              when := Qmax (SetupAssistant.nextStartTimeRef sa') currentTime;
              buffer := decodeAudioData a |} ] ∧
     SetupAssistant.nextStartTimeRef sa'' =
       (Qmax (SetupAssistant.nextStartTimeRef sa') currentTime
        + duration (decodeAudioData a))%Q) ∧
  (∀ currentTime m a, audioOf m = Some a → isInterrupted m = false →
     let lc'' := LiveCoach.onmessage decodeAudioData currentTime m lc' in
     scheduled (LiveCoach.browser lc'') =
       scheduled (LiveCoach.browser lc') ++
         [ {| source := nextSource (LiveCoach.browser lc');
              when := Qmax (LiveCoach.nextStartTimeRef lc') currentTime;
              buffer := decodeAudioData a |} ] ∧
     LiveCoach.nextStartTimeRef lc'' =
       (Qmax (LiveCoach.nextStartTimeRef lc') currentTime
        + duration (decodeAudioData a))%Q).
Proof.
  intros Hesa Helc sa' lc'.
  assert (Hsa : assistantInvariant (scheduled (SetupAssistant.browser sa)) sa).
  { exists []. split; [by rewrite app_nil_r | apply cursorInvariant_nil]. }
  assert (Hlc : coachInvariant (scheduled (LiveCoach.browser lc)) lc).
  { exists []. split; [by rewrite app_nil_r | apply cursorInvariant_nil]. }
  pose proof (sa_run_invariant dateNow decodeAudioData _ esa sa Hesa Hsa)
    as (new1 & Hs1 & Hn1 & Hc1).
  pose proof (lc_run_invariant decodeAudioData _ elc lc Helc Hlc)
    as (new2 & Hs2 & Hn2 & Hc2).
  split; [|split; [|split]].
  - exists new1. auto using NoOverlap_backToBack.
  - exists new2. auto using NoOverlap_backToBack.
  - intros t m a Ha. apply (sa_onmessage_audio dateNow decodeAudioData t m a sa' Ha).
  - intros t m a Ha Hi. apply (lc_onmessage_audio decodeAudioData t m a lc' Ha Hi).
Qed.

(** The theorem at two sessions in which the second chunk arrives while
    the first is being decoded. *)
Lemma output_chunks_back_to_back_witness :
  Forall (λ e, assistantKeeps e = true) assistantChunks ∧
  Forall (λ e, coachKeeps e = true) coachChunks ∧
  (∃ new, scheduled (SetupAssistant.browser
            (SetupAssistant.run tickingClock tenSeconds assistantChunks
               (SetupAssistant.initial 0 emptyBrowser))) = [] ++ new ∧
          backToBack new) ∧
  (∃ new, scheduled (LiveCoach.browser
            (LiveCoach.run tenSeconds coachChunks (LiveCoach.initial emptyBrowser)))
          = [] ++ new ∧
          backToBack new).
Proof.
  assert (H1 : Forall (λ e, assistantKeeps e = true) assistantChunks)
    by (repeat constructor).
  assert (H2 : Forall (λ e, coachKeeps e = true) coachChunks)
    by (repeat constructor).
  destruct (output_chunks_back_to_back tickingClock tenSeconds
              (SetupAssistant.initial 0 emptyBrowser) (LiveCoach.initial emptyBrowser)
              assistantChunks coachChunks H1 H2)
    as ((new1 & Hs1 & Hb1 & _) & (new2 & Hs2 & Hb2 & _) & _).
  split; [exact H1|]. split; [exact H2|]. split.
  - exists new1. split; [exact Hs1 | exact Hb1].
  - exists new2. split; [exact Hs2 | exact Hb2].
Defined.

(** The schedule of the interrupted coach session. *)
Lemma coachInterrupted_schedule :
  scheduled (LiveCoach.browser
    (LiveCoach.run tenSeconds coachInterrupted (LiveCoach.initial emptyBrowser))) =
  [ {| source := 0; when := 0; buffer := tenSeconds [] |};
    {| source := 1; when := 2; buffer := tenSeconds [] |} ].
Proof. vm_compute. reflexivity. Qed.

(** C1 as stated fails in LiveCoach: the chunk that follows an
    interruption is scheduled at time 2, before the end (time 10) of the
    chunk scheduled before it. *)
Lemma interrupted_chunk_starts_early :
  let s := LiveCoach.run tenSeconds coachInterrupted (LiveCoach.initial emptyBrowser) in
  ¬ backToBack (scheduled (LiveCoach.browser s)).
Proof.
  intros s H. subst s. rewrite coachInterrupted_schedule in H.
  specialize (H 0%nat _ _ eq_refl eq_refl).
  vm_compute in H. apply H. reflexivity.
Qed.

End OutputChunks.

(** * Teardown *)

Section TeardownTheorems.
Import JS Web Teardown.

Lemma coachStopped_tornDown (s : LiveCoach.State) : coachTornDown s (coachStopped s).
Proof.
  unfold coachTornDown. simpl. repeat split.
  - intros h Hh. apply tornDown_clearedIntervals. by left.
  - intros t Ht. apply tornDown_stoppedTracks. by left.
  - intros t Ht. apply tornDown_stoppedTracks. right. by left.
  - intros x Hx. apply tornDown_stoppedSources. by left.
  - intros c Hc.
    destruct (decide (c ∈ closedContexts (LiveCoach.browser s))) as [|Hn]; [by left|].
    right. apply tornDown_closeRequested. destruct Hc; [left | right; left]; done.
Qed.

Lemma assistantReleased_tornDown (s : SetupAssistant.State) :
  assistantTornDown s (assistantReleased s).
Proof.
  unfold assistantTornDown. simpl. repeat split.
  - intros h Hh. apply tornDown_clearedIntervals. by left.
  - intros t Ht. apply tornDown_stoppedTracks. by left.
  - intros t Ht. apply tornDown_stoppedTracks. right. by left.
  - intros x Hx. apply tornDown_stoppedSources. by left.
  - intros c Hc.
    destruct (decide (c ∈ closedContexts (SetupAssistant.browser s))) as [|Hn]; [by left|].
    right. apply tornDown_closeRequested. destruct Hc; [left | right; left]; done.
Qed.

(** The last block of [stopLiveSession] touches only the chat and the
    transcript. *)
Lemma savePendingTranscript_session (dateNow : nat → N) (s : SetupAssistant.State) :
  let s' := SetupAssistant.savePendingTranscript dateNow s in
  SetupAssistant.browser s' = SetupAssistant.browser s ∧
  SetupAssistant.frameIntervalRef s' = SetupAssistant.frameIntervalRef s ∧
  SetupAssistant.streamRef s' = SetupAssistant.streamRef s ∧
  SetupAssistant.screenStreamRef s' = SetupAssistant.screenStreamRef s ∧
  SetupAssistant.sourcesRef s' = SetupAssistant.sourcesRef s ∧
  SetupAssistant.isLive s' = SetupAssistant.isLive s ∧
  SetupAssistant.isScreenSharing s' = SetupAssistant.isScreenSharing s.
Proof.
  unfold SetupAssistant.savePendingTranscript.
  destruct (truthy _); repeat split; reflexivity.
Qed.

Lemma assistant_stopLiveSession_tornDown (dateNow : nat → N) (s : SetupAssistant.State) :
  assistantTornDown s (SetupAssistant.stopLiveSession dateNow s).
Proof.
  rewrite assistant_stopLiveSession_eq.
  destruct (savePendingTranscript_session dateNow (assistantReleased s))
    as (Hb & Hi & Hm & Hs & Hx & Hl & Hh).
  pose proof (assistantReleased_tornDown s) as H.
  unfold assistantTornDown in *. rewrite Hb, Hi, Hm, Hs, Hx, Hl, Hh. exact H.
Qed.

(** C4.  After stopSession (LiveCoach) or stopLiveSession (SetupAssistant)
    returns, whatever the state before: the frame-capture interval is
    cleared, every track of the microphone stream and of the screen-share
    stream has been stopped and the stream refs are null, every tracked audio
    source has been stopped and the tracked set is empty, each of the two
    audio contexts has had close requested unless it was already closed, and
    the active and screen-sharing flags are false. *)
Theorem stop_tears_down (dateNow : nat → N)
    (lc : LiveCoach.State) (sa : SetupAssistant.State) :
  coachTornDown lc (LiveCoach.stopSession lc) ∧
  assistantTornDown sa (SetupAssistant.stopLiveSession dateNow sa).
Proof.
  split.
  - rewrite coach_stopSession_eq. apply coachStopped_tornDown.
  - apply assistant_stopLiveSession_tornDown.
Qed.

Lemma stopSources_empty (b : Browser) : stopSources ∅ b = b.
Proof. destruct b. unfold stopSources. simpl. f_equal. by rewrite (left_id_L ∅ (∪)). Qed.

(** A second teardown finds nothing left to do in the browser. *)
Lemma tornDown_again itv mic scr srcs out inp (b : Browser) :
  tornDown None None None ∅ out inp (tornDown itv mic scr srcs out inp b) =
  tornDown itv mic scr srcs out inp b.
Proof.
  unfold tornDown at 1. simpl. rewrite stopSources_empty.
  unfold tornDown. generalize (stopSources srcs
    (stopTracksOpt scr (stopTracksOpt mic (clearIntervalOpt itv b)))).
  intros b0. destruct b0, out as [o|], inp as [i|]; simpl;
    rewrite ?closeIfOpen_eq; unfold notClosed; simpl;
    repeat case_bool_decide; f_equal; set_solver.
Qed.

Lemma coachStopped_idempotent (s : LiveCoach.State) :
  coachStopped (coachStopped s) = coachStopped s.
Proof.
  unfold coachStopped at 1. simpl. unfold coachStopped. f_equal.
  unfold tornDown at 1. simpl. apply stopSources_empty.
Qed.

Lemma assistantReleased_idempotent (s : SetupAssistant.State) :
  assistantReleased (assistantReleased s) = assistantReleased s.
Proof.
  unfold assistantReleased at 1. simpl. unfold assistantReleased. f_equal.
  apply tornDown_again.
Qed.

Lemma savePendingTranscript_nothing (dateNow : nat → N) (s : SetupAssistant.State) :
  truthy (SetupAssistant.transcriptBufferRef s) = false →
  SetupAssistant.savePendingTranscript dateNow s = s.
Proof. unfold SetupAssistant.savePendingTranscript. by intros ->. Qed.

Lemma savePendingTranscript_flush (dateNow : nat → N) (s : SetupAssistant.State) :
  truthy (SetupAssistant.transcriptBufferRef s) = true →
  SetupAssistant.savePendingTranscript dateNow s =
  SetupAssistant.setCurrentTranscript []
    (SetupAssistant.set_transcriptBufferRef []
       (SetupAssistant.appendMessage dateNow 0 Types.model
          (SetupAssistant.speakerPrefix ++ []) None None s)).
Proof. unfold SetupAssistant.savePendingTranscript. by intros ->. Qed.

Lemma assistant_stopLiveSession_idempotent (dateNow : nat → N) (s : SetupAssistant.State) :
  SetupAssistant.stopLiveSession dateNow (SetupAssistant.stopLiveSession dateNow s) =
  SetupAssistant.stopLiveSession dateNow s.
Proof.
  rewrite !assistant_stopLiveSession_eq.
  destruct (truthy (SetupAssistant.transcriptBufferRef s)) eqn:Hb.
  - rewrite (savePendingTranscript_flush dateNow (assistantReleased s)) by exact Hb.
    rewrite savePendingTranscript_nothing by reflexivity.
    unfold assistantReleased at 1. simpl. unfold assistantReleased.
    unfold SetupAssistant.setCurrentTranscript. simpl. f_equal.
    apply tornDown_again.
  - rewrite (savePendingTranscript_nothing dateNow (assistantReleased s)) by exact Hb.
    rewrite assistantReleased_idempotent.
    by apply savePendingTranscript_nothing.
Qed.

(** C10.  Session teardown is idempotent: stopSession (LiveCoach) or
    stopLiveSession (SetupAssistant) run a second time right after a first
    run changes nothing, in the component or in the browser. *)
Theorem stop_idempotent (dateNow : nat → N)
    (lc : LiveCoach.State) (sa : SetupAssistant.State) :
  LiveCoach.stopSession (LiveCoach.stopSession lc) = LiveCoach.stopSession lc ∧
  SetupAssistant.stopLiveSession dateNow (SetupAssistant.stopLiveSession dateNow sa) =
    SetupAssistant.stopLiveSession dateNow sa.
Proof.
  split.
  - rewrite !coach_stopSession_eq. apply coachStopped_idempotent.
  - apply assistant_stopLiveSession_idempotent.
Qed.

(** Stopping the running coach session of [Samples.coachRunning]: the
    interval, both tracks and the playing source are stopped, both contexts
    are asked to close. *)
Example coachRunning_stopped :
  let s := LiveCoach.stopSession
             (LiveCoach.run Samples.tenSeconds Samples.coachRunning
                (LiveCoach.initial emptyBrowser)) in
  clearedIntervals (LiveCoach.browser s) = {[ 1%positive ]} ∧
  stoppedTracks (LiveCoach.browser s) = {[ 0; 1 ]} ∧
  stoppedSources (LiveCoach.browser s) = {[ 0 ]} ∧
  closeRequested (LiveCoach.browser s) = {[ 1; 2 ]} ∧
  LiveCoach.isActive s = false ∧ LiveCoach.status s = js "Disconnected".
Proof. vm_compute. repeat split; reflexivity. Qed.

End TeardownTheorems.

(** * Interruption *)

Section Interruption.
Import JS Web Live Samples LiveCoach.

(** C8.  In the LiveCoach onmessage handler, when the message has
    serverContent.interrupted, every source that is tracked when the
    interrupted block runs (those tracked before, and the one the message's
    own audio has just added) is stopped, the tracked set becomes empty and
    the scheduling cursor is reset to 0.  This holds for the handler run in
    one go and for its second half resumed in any state. *)
Theorem interrupted_stops_tracked_sources
    (decodeAudioData : JSString → AudioBuffer) (currentTime : Q) (m : LiveServerMessage) (s : State) :
  isInterrupted m = true →
  let stopsAll (s s' : State) :=
    sourcesRef s' = ∅ ∧ nextStartTimeRef s' = 0%Q ∧
    (∀ x, x ∈ sourcesRef s → x ∈ stoppedSources (browser s')) ∧
    (is_Some (audioOf m) → nextSource (browser s) ∈ stoppedSources (browser s')) in
  stopsAll s (onmessage decodeAudioData currentTime m s) ∧
  stopsAll s (onmessage_resume decodeAudioData m s).
Proof.
  intros Hi. unfold onmessage, onmessage_resume, onmessage_begin. rewrite Hi.
  destruct (audioOf m) as [a|]; simpl; repeat split; try reflexivity;
    try (intros x Hx); try set_solver.
Qed.

(** The theorem at a running session with one chunk playing. *)
Lemma interrupted_stops_tracked_sources_witness :
  isInterrupted interruptedMessage = true ∧
  sourcesRef (onmessage tenSeconds 1 interruptedMessage
                (run tenSeconds coachRunning (initial emptyBrowser))) = ∅.
Proof.
  split; [reflexivity|].
  apply (interrupted_stops_tracked_sources tenSeconds 1 interruptedMessage
           (run tenSeconds coachRunning (initial emptyBrowser)) eq_refl).
Defined.

End Interruption.

(** * The chat log *)

Section ChatUpdates.
Import JS Web Live Types Chat Teardown SetupAssistant.

Variable dateNow : nat → N.
Variable decodeAudioData : JSString → AudioBuffer.

Lemma last_cons_default {A} (x d : A) (h : list A) :
  List.last (x :: h) d = List.last h x.
Proof.
  revert x d. induction h as [|y h IH]; intros x d; [reflexivity|].
  change (List.last (x :: y :: h) d) with (List.last (y :: h) d).
  rewrite !IH. reflexivity.
Qed.
















End ChatUpdates.

(** * Generated setup files and message identifiers *)

Section SetupFiles.
Import JS Web Live Types Chat Samples SetupAssistant.

Lemma handleFunctionCall_messages (dateNow : nat → N) (s : State) (fc : FunctionCall) :
  ∃ new, messages (handleFunctionCall dateNow s fc) = messages s ++ new ∧
         map setupFile new =
           map (λ fc, Some (requestedFile fc)) (List.filter isSaveSetup [fc]) ∧
         Forall (λ msg, role msg = model ∧ image msg = None) new.
Proof.
  unfold handleFunctionCall, isSaveSetup. simpl. case_bool_decide.
  - eexists [_]. split; [reflexivity|]. split; [reflexivity|].
    constructor; [split; reflexivity|constructor].
  - exists []. split; [by rewrite app_nil_r|]. split; [reflexivity|constructor].
Qed.

Lemma foldl_handleFunctionCall_messages (dateNow : nat → N)
    (fcs : list FunctionCall) (s : State) :
  ∃ new, messages (foldl (handleFunctionCall dateNow) s fcs) = messages s ++ new ∧
         map setupFile new =
           map (λ fc, Some (requestedFile fc)) (List.filter isSaveSetup fcs) ∧
         Forall (λ msg, role msg = model ∧ image msg = None) new.
Proof.
  revert s. induction fcs as [|fc fcs IH]; intros s; simpl.
  - exists []. split; [by rewrite app_nil_r|]. split; [reflexivity|constructor].
  - destruct (handleFunctionCall_messages dateNow s fc) as (n1 & H1 & F1 & R1).
    destruct (IH (handleFunctionCall dateNow s fc)) as (n2 & H2 & F2 & R2).
    exists (n1 ++ n2). split; [by rewrite H2, H1, app_assoc|]. split.
    + rewrite map_app, F1, F2. simpl. by destruct (isSaveSetup fc).
    + by apply Forall_app.
Qed.

(** C6.  When a tool call message is handled, one model message is
    appended per save_setup_json call, in the order of the calls, and the
    setup file attached to it carries exactly the filename string and the
    content string of the call's arguments, whatever they are (nothing
    validates or parses them).  A click on the download card of a message
    with a setup file saves a file under that filename whose blob holds the
    content string and nothing else. *)
Theorem setup_file_verbatim (dateNow : nat → N)
    (m : LiveServerMessage) (tc : ToolCall) (s : State)
    (msg : ChatMessage) (f : SetupFile) :
  toolCall m = Some tc → setupFile msg = Some f →
  (∃ new, messages (handleToolCall dateNow m s) = messages s ++ new ∧
          map setupFile new =
            map (λ fc, Some (requestedFile fc))
                (List.filter isSaveSetup (functionCalls tc)) ∧
          Forall (λ msg, role msg = model ∧ image msg = None) new) ∧
  (∃ d, downloads (clickDownload msg s) = downloads s ++ [d] ∧
        download d = filename f ∧ blobText (href d) = content f).
Proof.
  intros Htc Hf. split.
  - unfold handleToolCall. rewrite Htc. apply foldl_handleFunctionCall_messages.
  - unfold clickDownload, downloadSetup. rewrite Hf. eexists. split; [reflexivity|].
    split; [reflexivity|]. unfold blobText. simpl. apply app_nil_r.
Qed.

(** The messages of the session with two save calls in one server
    message, under a clock that does not move while the message is
    handled. *)
Lemma assistantTwoSaves_messages :
  map (λ msg, (id msg, setupFile msg))
    (messages (run frozenClock tenSeconds assistantTwoSaves (initial 0 emptyBrowser))) =
  [ (js "init", None);
    (js "1700000000000",
     Some {| filename := js "spa_dry.json"; content := js "{}" |});
    (js "1700000000000",
     Some {| filename := js "spa_wet.json"; content := js "not json" |}) ].
Proof. vm_compute. reflexivity. Qed.

(** The theorem at that session: the files attached, and the download
    of the second one. *)
Lemma setup_file_verbatim_witness :
  let m := toolCallMessage [ saveSetup (js "call-1") (js "spa_dry.json") (js "{}");
                             saveSetup (js "call-2") (js "spa_wet.json") (js "not json") ] in
  let f := {| filename := js "spa_wet.json"; content := js "not json" |} in
  let msg := {| id := js "1700000000000"; role := model; text := [];
                image := None; setupFile := Some f; timestamp := 0 |} in
  let s := initial 0 emptyBrowser in
  toolCall m = Some {| functionCalls := [ saveSetup (js "call-1") (js "spa_dry.json") (js "{}");
                             saveSetup (js "call-2") (js "spa_wet.json") (js "not json") ] |} ∧
  setupFile msg = Some f ∧
  ∃ d, downloads (clickDownload msg s) = downloads s ++ [d] ∧
       download d = filename f ∧ blobText (href d) = content f.
Proof.
  intros m f msg s. split; [reflexivity|]. split; [reflexivity|].
  exact (proj2 (setup_file_verbatim frozenClock m _ s msg f eq_refl eq_refl)).
Defined.

(** C2 fails on the code: two save_setup_json calls handled in one
    forEach within the same millisecond give two messages with the same
    identifier. *)
Theorem two_saves_share_an_id :
  let s := run frozenClock tenSeconds assistantTwoSaves (initial 0 emptyBrowser) in
  map id (messages s) = [ js "init"; js "1700000000000"; js "1700000000000" ] ∧
  ¬ NoDup (map id (messages s)).
Proof.
  intros s.
  assert (H : map id (messages s) = [ js "init"; js "1700000000000"; js "1700000000000" ])
    by (vm_compute; reflexivity).
  split; [exact H|]. rewrite H. intros Hnd.
  apply NoDup_cons in Hnd as [_ Hnd]. apply NoDup_cons in Hnd as [Hn _].
  apply Hn. apply list_elem_of_here.
Qed.

End SetupFiles.

(** * The output transcript *)

Section Transcript.
Import JS Web Live Types Chat Teardown Samples SetupAssistant.

Lemma truthy_rev (s : JSString) : truthy (rev s) = truthy s.
Proof.
  destruct s as [|c s]; [reflexivity|]. simpl.
  destruct (rev s ++ [c]) eqn:E; [|reflexivity].
  by apply app_eq_nil in E as [_ ?].
Qed.

Lemma truthy_trimStart (s : JSString) : truthy (trimStart s) = nonWhitespace s.
Proof.
  unfold nonWhitespace. induction s as [|c s IH]; [reflexivity|]. simpl.
  destruct (isWhiteSpace c); [exact IH|reflexivity].
Qed.

Lemma nonWhitespace_trimStart (s : JSString) :
  nonWhitespace (trimStart s) = nonWhitespace s.
Proof.
  unfold nonWhitespace. induction s as [|c s IH]; [reflexivity|]. simpl.
  destruct (isWhiteSpace c) eqn:E; [exact IH|]. simpl. by rewrite E.
Qed.

Lemma nonWhitespace_rev (s : JSString) : nonWhitespace (rev s) = nonWhitespace s.
Proof.
  unfold nonWhitespace. induction s as [|c s IH]; [reflexivity|]. simpl.
  rewrite existsb_app, IH. simpl. rewrite orb_false_r. apply orb_comm.
Qed.

(** [s.trim()] is truthy exactly when [s] has a code unit that is not
    white space. *)
Lemma truthy_trim (s : JSString) : truthy (trim s) = nonWhitespace s.
Proof.
  unfold trim, trimEnd.
  by rewrite truthy_rev, truthy_trimStart, nonWhitespace_rev, nonWhitespace_trimStart.
Qed.

Lemma handleTranscript_buffer (m : LiveServerMessage) (s : State) :
  transcriptBufferRef (handleTranscript m s) =
    transcriptBufferRef s ++ default [] (transcriptPart m) ∧
  currentTranscript (handleTranscript m s) =
    match transcriptPart m with
    | Some _ => transcriptBufferRef (handleTranscript m s)
    | None => currentTranscript s
    end ∧
  messages (handleTranscript m s) = messages s.
Proof.
  unfold handleTranscript. destruct (transcriptPart m); simpl.
  - auto.
  - by rewrite app_nil_r.
Qed.

Lemma handleAudio_chat (decodeAudioData : JSString → AudioBuffer)
    (m : LiveServerMessage) (s : State) :
  transcriptBufferRef (handleAudio decodeAudioData m s) = transcriptBufferRef s ∧
  currentTranscript (handleAudio decodeAudioData m s) = currentTranscript s ∧
  messages (handleAudio decodeAudioData m s) = messages s.
Proof. unfold handleAudio. destruct (audioOf m); auto. Qed.

Lemma handleTurnComplete_flush (dateNow : nat → N) (m : LiveServerMessage) (s : State) :
  let s' := handleTurnComplete dateNow m s in
  if isTurnComplete m && nonWhitespace (transcriptBufferRef s)
  then messages s' = messages s ++ [flushed dateNow s] ∧
       transcriptBufferRef s' = [] ∧ currentTranscript s' = []
  else s' = s.
Proof.
  unfold handleTurnComplete. rewrite truthy_trim.
  destruct (isTurnComplete m); [|reflexivity]. simpl.
  destruct (nonWhitespace _); [|reflexivity]. auto.
Qed.

Lemma handleToolCall_buffer (dateNow : nat → N) (m : LiveServerMessage) (s : State) :
  transcriptBufferRef (handleToolCall dateNow m s) = transcriptBufferRef s.
Proof.
  unfold handleToolCall. destruct (toolCall m) as [[fcs]|]; [|reflexivity]. simpl.
  revert s. induction fcs as [|fc fcs IH]; intros s; simpl; [reflexivity|].
  rewrite IH. unfold handleFunctionCall. by case_bool_decide.
Qed.

Lemma onmessage_buffer (dateNow : nat → N) (decodeAudioData : JSString → AudioBuffer)
    (currentTime : Q) (m : LiveServerMessage) (s : State) :
  transcriptBufferRef (onmessage dateNow decodeAudioData currentTime m s) =
  bufferStep (transcriptBufferRef s) m.
Proof.
  unfold onmessage, onmessage_resume. rewrite handleToolCall_buffer.
  set (s0 := handleAudio decodeAudioData m (onmessage_begin currentTime m s)).
  assert (H0 : transcriptBufferRef s0 = transcriptBufferRef s).
  { unfold s0. destruct (handleAudio_chat decodeAudioData m (onmessage_begin currentTime m s))
      as [-> _]. unfold onmessage_begin. by destruct (audioOf m). }
  destruct (handleTranscript_buffer m s0) as (Hb & _ & _).
  pose proof (handleTurnComplete_flush dateNow m (handleTranscript m s0)) as Hf.
  unfold bufferStep. rewrite <- H0, <- Hb.
  destruct (isTurnComplete m && nonWhitespace (transcriptBufferRef (handleTranscript m s0))).
  - by destruct Hf as (_ & -> & _).
  - simpl in Hf. by rewrite Hf.
Qed.

(** What [onmessage] does with the transcript.  The transcript part of
    a message is appended to the buffer (so the buffer holds the parts in
    arrival order) and the live preview shows the buffer.  When the message
    has turnComplete and the buffer has a code unit that is not white space,
    exactly one model message is appended, whose text is the speaker prefix
    followed by the whole buffer, and buffer and preview are emptied; with a
    buffer of white space only, or without turnComplete, the turn-complete
    block changes nothing. *)
Lemma transcript_buffered_until_turn_complete
    (dateNow : nat → N) (decodeAudioData : JSString → AudioBuffer)
    (m : LiveServerMessage) (s : State) (ms : list (Q * LiveServerMessage)) :
  let s1 := handleTranscript m (handleAudio decodeAudioData m s) in
  let s2 := handleTurnComplete dateNow m s1 in
  (* the parts are accumulated in arrival order *)
  transcriptBufferRef s1 = transcriptBufferRef s ++ default [] (transcriptPart m) ∧
  currentTranscript s1 =
    match transcriptPart m with
    | Some _ => transcriptBufferRef s1
    | None => currentTranscript s
    end ∧
  messages s1 = messages s ∧
  transcriptBufferRef (onmessages dateNow decodeAudioData ms s) =
    foldl bufferStep (transcriptBufferRef s) (map snd ms) ∧
  (* the end of a turn *)
  (if isTurnComplete m && nonWhitespace (transcriptBufferRef s1)
   then messages s2 = messages s1 ++ [flushed dateNow s1] ∧
        transcriptBufferRef s2 = [] ∧ currentTranscript s2 = []
   else s2 = s1).
Proof.
  intros s1 s2.
  destruct (handleAudio_chat decodeAudioData m s) as (Ha1 & Ha2 & Ha3).
  destruct (handleTranscript_buffer m (handleAudio decodeAudioData m s)) as (Hb1 & Hb2 & Hb3).
  split; [by rewrite <- Ha1|]. split; [by rewrite <- Ha2|]. split; [by rewrite <- Ha3|].
  split.
  - clear. unfold onmessages. revert s.
    induction ms as [|[t m] ms IH]; intros s; simpl; [reflexivity|].
    by rewrite IH, onmessage_buffer.
  - apply handleTurnComplete_flush.
Qed.

(** What [stopLiveSession] does with the transcript of a session that
    is live, shares the screen or shows a status other than 'Ready': for a
    non-empty buffer it appends exactly one model message, whose text is the
    speaker prefix and nothing else, and empties buffer and preview; with an
    empty buffer it leaves the chat alone. *)
Lemma stopLiveSession_saves_prefix (dateNow : nat → N) (s : State) :
  isLive s = true ∨ isScreenSharing s = true ∨ liveStatus s ≠ js "Ready" →
  let s' := stopLiveSession dateNow s in
  if truthy (transcriptBufferRef s)
  then messages s' = messages s ++ [savedAtStop dateNow s] ∧
       text (savedAtStop dateNow s) = speakerPrefix ∧
       transcriptBufferRef s' = [] ∧ currentTranscript s' = []
  else messages s' = messages s ∧ transcriptBufferRef s' = [].
Proof.
  intros _ s'. unfold s'. rewrite assistant_stopLiveSession_eq.
  unfold savePendingTranscript.
  change (transcriptBufferRef (assistantReleased s)) with (transcriptBufferRef s).
  destruct (truthy (transcriptBufferRef s)) eqn:E.
  - split; [reflexivity|]. split; [reflexivity|]. split; reflexivity.
  - split; [reflexivity|]. simpl. by destruct (transcriptBufferRef s).
Qed.

(** The session of [assistantCutOff] and its end, computed. *)
Lemma assistantCutOff_stopped :
  isLive (run tickingClock tenSeconds assistantCutOff (initial 0 emptyBrowser)) = true ∧
  transcriptBufferRef (run tickingClock tenSeconds assistantCutOff (initial 0 emptyBrowser))
    = js "Trail brake" ∧
  map text (messages (run tickingClock tenSeconds assistantCutOff (initial 0 emptyBrowser)))
    = [ text greeting ] ∧
  map text (messages (stopLiveSession tickingClock
                        (run tickingClock tenSeconds assistantCutOff
                           (initial 0 emptyBrowser))))
    = [ text greeting; speakerPrefix ] ∧
  transcriptBufferRef (stopLiveSession tickingClock
                         (run tickingClock tenSeconds assistantCutOff
                            (initial 0 emptyBrowser))) = [] ∧
  currentTranscript (stopLiveSession tickingClock
                       (run tickingClock tenSeconds assistantCutOff
                          (initial 0 emptyBrowser))) = [].
Proof. vm_compute. repeat split; reflexivity. Qed.

(** C9 fails on the code where the session stops with text pending: the
    model has said "Trail brake" and not ended its turn when the user stops
    the live session.  stopLiveSession appends a message for the buffer, but
    the text of the message is the speaker prefix alone, and the buffer is
    emptied: the pending text is in no chat message. *)
Theorem stop_drops_pending_transcript :
  let s := run tickingClock tenSeconds assistantCutOff (initial 0 emptyBrowser) in
  let s' := stopLiveSession tickingClock s in
  isLive s = true ∧
  transcriptBufferRef s = js "Trail brake" ∧
  map text (messages s) = [ text greeting ] ∧
  map text (messages s') = [ text greeting; speakerPrefix ] ∧
  transcriptBufferRef s' = [] ∧ currentTranscript s' = [] ∧
  speakerPrefix ++ transcriptBufferRef s ∉ map text (messages s').
Proof.
  cbv zeta. destruct assistantCutOff_stopped as (H1 & H2 & H3 & H4 & H5 & H6).
  split; [exact H1|]. split; [exact H2|]. split; [exact H3|]. split; [exact H4|].
  split; [exact H5|]. split; [exact H6|].
  rewrite H4, H2. intros Hin.
  apply elem_of_cons in Hin as [H|Hin]; [discriminate H|].
  apply elem_of_cons in Hin as [H|Hin]; [discriminate H|].
  by apply elem_of_nil in Hin.
Qed.

Example trim_strips_both_ends : trim (js "  Brake later. ") = js "Brake later.".
Proof. reflexivity. Qed.

Example trim_of_blank_is_falsy : truthy (trim ([9; 10; 32; 160; 8232]%N)) = false.
Proof. reflexivity. Qed.

(** The session of [assistantTranscript]: the first turn is flushed as
    one message, the blank buffer of the second turn stays in the buffer;
    when the session is stopped a message with the prefix alone is
    appended. *)
Example assistantTranscript_flushes :
  let s := run tickingClock tenSeconds assistantTranscript (initial 0 emptyBrowser) in
  map text (messages s) = [ text greeting; speakerPrefix ++ js "Brake later." ] ∧
  transcriptBufferRef s = js "  " ∧
  map text (messages (stopLiveSession tickingClock s)) =
    [ text greeting; speakerPrefix ++ js "Brake later."; speakerPrefix ] ∧
  transcriptBufferRef (stopLiveSession tickingClock s) = [].
Proof. vm_compute. repeat split; reflexivity. Qed.

End Transcript.

(** * The microphone pipeline *)

Section Microphone.
Import MicPipeline Samples.

Variable Sample Blob : Type.
Variable createPcmBlob : list Sample → Blob.

Lemma wellFormed_channel0 (e : AudioProcessingEvent Sample) :
  wellFormed Sample e →
  getChannelData Sample 0 e = Some (channel0 Sample e) ∧
  length (channel0 Sample e) = 4096.
Proof.
  intros (ch & Hb & Hl). unfold channel0, getChannelData. rewrite Hb. simpl. auto.
Qed.

Lemma ticks_snoc (evs : list (Event Sample)) (ev : Event Sample) :
  ticks Sample (evs ++ [ev]) =
  ticks Sample evs ++ match ev with Tick _ e => [e] | _ => [] end.
Proof. unfold ticks. rewrite omap_app. by destruct ev. Qed.

Lemma run_snoc (evs : list (Event Sample)) (ev : Event Sample) (s : State Blob) :
  run Sample Blob createPcmBlob (evs ++ [ev]) s =
  handle Sample Blob createPcmBlob ev (run Sample Blob createPcmBlob evs s).
Proof. unfold run. by rewrite foldl_app. Qed.

Lemma pipelineInvariant_run (evs : list (Event Sample)) :
  Forall (wellFormed Sample) (ticks Sample evs) →
  pipelineInvariant Sample Blob createPcmBlob evs
    (run Sample Blob createPcmBlob evs (connecting Blob)).
Proof.
  induction evs as [|ev evs IH] using rev_ind; intros Hwf.
  - unfold pipelineInvariant. simpl. auto.
  - rewrite ticks_snoc in Hwf. apply Forall_app in Hwf as [Hwf Hev].
    specialize (IH Hwf). rewrite run_snoc.
    set (s := run Sample Blob createPcmBlob evs (connecting Blob)) in *.
    unfold pipelineInvariant in *. rewrite ticks_snoc, map_app.
    destruct ev as [e| |]; simpl.
    + apply Forall_inv in Hev.
      destruct (wellFormed_channel0 e Hev) as [Hch _].
      unfold onaudioprocess, thenSend. rewrite Hch.
      destruct (sessionPromise Blob s) eqn:E; simpl; rewrite ?E; destruct IH as [H1 H2]; rewrite ?H1, ?H2; auto.
    + rewrite app_nil_r. unfold fulfil.
      destruct (sessionPromise Blob s) eqn:E; simpl; rewrite ?E; destruct IH as [H1 H2]; rewrite ?H1, ?H2; auto.
    + rewrite app_nil_r. unfold reject.
      destruct (sessionPromise Blob s) eqn:E; simpl; rewrite ?E; destruct IH as [H1 H2]; rewrite ?H1, ?H2; auto.
Qed.

End Microphone.

(** C7.  While the input pipeline runs (the session promise is
    fulfilled), a tick of the script processor takes channel 0 of its input
    buffer of 4096 samples, makes one media blob of it and sends exactly that
    one chunk.  Over a whole run the chunks sent are the blobs of the
    channel-0 buffers of the ticks, one per tick and in tick order; ticks
    that come before the promise is fulfilled are sent, in order, when it
    is. *)
Theorem microphone_chunks_in_tick_order (Sample Blob : Type)
    (createPcmBlob : list Sample → Blob)
    (evs : list (MicPipeline.Event Sample)) (e : MicPipeline.AudioProcessingEvent Sample) :
  Forall (MicPipeline.wellFormed Sample) (MicPipeline.ticks Sample evs) →
  MicPipeline.wellFormed Sample e →
  let s := MicPipeline.run Sample Blob createPcmBlob evs (MicPipeline.connecting Blob) in
  let s' := MicPipeline.onaudioprocess Sample Blob createPcmBlob e s in
  let chunk e := createPcmBlob (MicPipeline.channel0 Sample e) in
  match MicPipeline.sessionPromise Blob s with
  | MicPipeline.Fulfilled =>
      MicPipeline.sent Blob s = map chunk (MicPipeline.ticks Sample evs) ∧
      MicPipeline.sent Blob s' = MicPipeline.sent Blob s ++ [chunk e]
  | MicPipeline.Pending =>
      MicPipeline.sent Blob s = [] ∧
      MicPipeline.sent Blob (MicPipeline.fulfil Blob s')
        = map chunk (MicPipeline.ticks Sample evs) ++ [chunk e]
  | MicPipeline.Rejected =>
      MicPipeline.sent Blob s = [] ∧ MicPipeline.sent Blob s' = []
  end ∧
  Forall (λ e, length (MicPipeline.channel0 Sample e) = 4096)
    (MicPipeline.ticks Sample evs).
Proof.
  intros Hwf He s s' chunk. split.
  - pose proof (pipelineInvariant_run Sample Blob createPcmBlob evs Hwf) as Hinv.
    fold s in Hinv. unfold MicPipeline.pipelineInvariant in Hinv.
    destruct (wellFormed_channel0 Sample e He) as [Hch _].
    unfold s', MicPipeline.onaudioprocess, MicPipeline.thenSend. rewrite Hch.
    destruct (MicPipeline.sessionPromise Blob s) eqn:E; rewrite ?E;
      destruct Hinv as [Hs Hw]; simpl.
    + split; [exact Hs|]. unfold MicPipeline.fulfil. simpl. by rewrite Hs, Hw.
    + split; [exact Hs|]. by rewrite Hs.
    + auto.
  - eapply Forall_impl; [exact Hwf|]. intros e0 He0.
    apply (wellFormed_channel0 Sample e0 He0).
Qed.

(** The theorem at three ticks, the promise settling after the first. *)
Lemma microphone_chunks_in_tick_order_witness :
  Forall (MicPipeline.wellFormed nat) (MicPipeline.ticks nat Samples.micTicks) ∧
  MicPipeline.wellFormed nat (Samples.tickOf 4) ∧
  MicPipeline.sent (list nat)
    (MicPipeline.run nat (list nat) (λ x, x) Samples.micTicks
       (MicPipeline.connecting (list nat))) =
  [ replicate 4096 1; replicate 4096 2; replicate 4096 3 ].
Proof.
  assert (Hwf : ∀ x, MicPipeline.wellFormed nat (Samples.tickOf x)).
  { intros x. exists (replicate 4096 x). split; [reflexivity|]. apply length_replicate. }
  assert (H1 : Forall (MicPipeline.wellFormed nat) (MicPipeline.ticks nat Samples.micTicks)).
  { repeat constructor; apply Hwf. }
  split; [exact H1|]. split; [apply Hwf|].
  exact (proj1 (proj1 (microphone_chunks_in_tick_order nat (list nat) (λ x, x)
                  Samples.micTicks (Samples.tickOf 4) H1 (Hwf 4)))).
Defined.

(** * Error paths *)

Section ErrorPaths.
Import JS Web Types Teardown Samples.

Lemma coach_stopSession_requests (s : LiveCoach.State) :
  requests (LiveCoach.browser (LiveCoach.stopSession s)) = requests (LiveCoach.browser s).
Proof. rewrite coach_stopSession_eq. simpl. apply tornDown_frame. Qed.

Lemma assistant_stopLiveSession_requests (dateNow : nat → N) (s : SetupAssistant.State) :
  requests (SetupAssistant.browser (SetupAssistant.stopLiveSession dateNow s)) =
  requests (SetupAssistant.browser s).
Proof.
  rewrite assistant_stopLiveSession_eq.
  destruct (savePendingTranscript_session dateNow (assistantReleased s)) as [-> _].
  simpl. apply tornDown_frame.
Qed.

(** C3, as amended.  An error caught while a live session starts
    (microphone denied, connect failing) and the in-session error callback
    tear the session down completely, as stopSession and stopLiveSession
    do, and LiveCoach records an error string.  A failed screen share (both
    components) and a failed text request (SetupAssistant) are surfaced only:
    as LiveCoach's error string or as an inline model message in the chat;
    the live session stays as it was.  No error path issues a new media or
    connection request. *)
Theorem errors_surfaced_sessions_torn_down (dateNow : nat → N) (e : JSError)
    (lc : LiveCoach.State) (sa : SetupAssistant.State) :
  (* LiveCoach, the catch block of startSession *)
  (let lc' := LiveCoach.startSession_catch e lc in
   coachTornDown lc lc' ∧
   LiveCoach.error lc' = Some (orElse (message e) (js "Failed to start session")) ∧
   requests (LiveCoach.browser lc') = requests (LiveCoach.browser lc)) ∧
  (* LiveCoach, onerror *)
  (let lc' := LiveCoach.onerror lc in
   coachTornDown lc lc' ∧
   LiveCoach.error lc' = Some (js "Connection Error") ∧
   requests (LiveCoach.browser lc') = requests (LiveCoach.browser lc)) ∧
  (* LiveCoach, the catch block of startScreenShare *)
  (let lc' := LiveCoach.startScreenShare_catch e lc in
   coachSameSession lc lc' ∧
   LiveCoach.error lc' =
     Some (js "Screen share error: "
           ++ orElse (message e) (js "Permission denied or cancelled"))) ∧
  (* SetupAssistant, the catch block of startLiveSession *)
  (let sa' := SetupAssistant.startLiveSession_catch dateNow e sa in
   assistantTornDown sa sa' ∧
   requests (SetupAssistant.browser sa') = requests (SetupAssistant.browser sa)) ∧
  (* SetupAssistant, onerror *)
  (let sa' := SetupAssistant.onerror dateNow sa in
   assistantTornDown sa sa' ∧
   requests (SetupAssistant.browser sa') = requests (SetupAssistant.browser sa)) ∧
  (* SetupAssistant, the catch block of startScreenShare *)
  (let sa' := SetupAssistant.startScreenShare_catch dateNow e sa in
   assistantSameSession sa sa' ∧
   ∃ msg, SetupAssistant.messages sa' = SetupAssistant.messages sa ++ [msg] ∧
          role msg = model ∧
          text msg = js "System: Screen share failed or was cancelled.") ∧
  (* SetupAssistant, the catch block of handleSendMessage *)
  (let sa' := SetupAssistant.handleSendMessage_resume dateNow (inr e) sa in
   assistantSameSession sa sa' ∧
   SetupAssistant.isLoading sa' = false ∧
   ∃ msg, SetupAssistant.messages sa' = SetupAssistant.messages sa ++ [msg] ∧
          role msg = model ∧
          text msg = js "Error connecting to the API.").
Proof.
  split; [|split; [|split; [|split; [|split; [|split]]]]]; cbv zeta.
  - unfold LiveCoach.startSession_catch. cbv zeta. split; [|split].
    + rewrite coach_stopSession_eq.
      exact (coachStopped_tornDown
               (LiveCoach.setError
                  (Some (orElse (message e) (js "Failed to start session"))) lc)).
    + by rewrite coach_stopSession_eq.
    + by rewrite coach_stopSession_requests.
  - unfold LiveCoach.onerror. split; [|split].
    + rewrite coach_stopSession_eq.
      exact (coachStopped_tornDown
               (LiveCoach.setError (Some (js "Connection Error")) lc)).
    + by rewrite coach_stopSession_eq.
    + by rewrite coach_stopSession_requests.
  - split; [repeat split|reflexivity].
  - unfold SetupAssistant.startLiveSession_catch. cbv zeta. split.
    + exact (assistant_stopLiveSession_tornDown dateNow
               (SetupAssistant.setLiveStatus (js "Connection Failed") sa)).
    + by rewrite assistant_stopLiveSession_requests.
  - unfold SetupAssistant.onerror. split.
    + exact (assistant_stopLiveSession_tornDown dateNow
               (SetupAssistant.setLiveStatus (js "Error") sa)).
    + by rewrite assistant_stopLiveSession_requests.
  - split; [repeat split|].
    eexists. split; [reflexivity|]. split; reflexivity.
  - split; [repeat split|]. split; [reflexivity|].
    eexists. split; [reflexivity|]. split; reflexivity.
Qed.

(** What the coach session with the declined screen share ends in. *)
Lemma coachShareDenied_state :
  let s := LiveCoach.run tenSeconds coachShareDenied (LiveCoach.initial emptyBrowser) in
  LiveCoach.isActive s = true ∧
  LiveCoach.streamRef s = Some micStream ∧
  stoppedTracks (LiveCoach.browser s) = ∅ ∧
  closeRequested (LiveCoach.browser s) = ∅ ∧
  LiveCoach.error s = Some (js "Screen share error: Permission denied").
Proof. vm_compute. repeat split; reflexivity. Qed.

(** C3 as stated fails: after the caught screen-share error the live
    session is not torn down; it is still active and its microphone track
    has not been stopped. *)
Lemma screen_share_error_leaves_session :
  let before := LiveCoach.run tenSeconds (take 4 coachShareDenied)
                  (LiveCoach.initial emptyBrowser) in
  let after := LiveCoach.run tenSeconds coachShareDenied (LiveCoach.initial emptyBrowser) in
  after = LiveCoach.startScreenShare_catch denied before ∧
  LiveCoach.isActive after = true ∧
  0 ∈ tracksOf (LiveCoach.streamRef before) ∧
  (0 ∉ stoppedTracks (LiveCoach.browser after)) ∧
  ¬ coachTornDown before after.
Proof.
  intros before after.
  destruct coachShareDenied_state as (Ha & Hs & Ht & Hc & He). fold after in Ha, Ht.
  split; [reflexivity|]. split; [exact Ha|]. split.
  - vm_compute. apply list_elem_of_here.
  - split.
    + rewrite Ht. apply not_elem_of_empty.
    + intros H. unfold coachTornDown in H.
      destruct H as (_ & _ & _ & _ & _ & _ & _ & _ & _ & Hact & _).
      rewrite Ha in Hact. discriminate.
Qed.

End ErrorPaths.

(** * Sources are started once, and only started sources are stopped *)

Section SourcesFacts.
Import JS Web Live Teardown Sources.

Lemma quiet_wellStarted (tracked tracked' : gset nat) (b b' : Browser) :
  quiet tracked tracked' b b' → wellStarted tracked b → wellStarted tracked' b'.
Proof.
  intros (Hs & Hn & Ht & Hp) (H1 & H2 & H3 & H4).
  unfold wellStarted, started in *. rewrite Hs, Hn.
  repeat split; auto.
  intros x Hx. destruct (Hp x Hx); auto.
Qed.

Lemma quiet_refl (tracked : gset nat) (b : Browser) : quiet tracked tracked b b.
Proof. repeat split; auto. Qed.

(** Creating a source, starting it and tracking it. *)
Lemma wellStarted_start (tracked : gset nat) (b : Browser) (t : Q) (buf : AudioBuffer) :
  wellStarted tracked b →
  wellStarted ({[nextSource b]} ∪ tracked)
    (start (nextSource b) t buf (createBufferSource b).2).
Proof.
  intros (H1 & H2 & H3 & H4). unfold wellStarted, started in *. simpl.
  rewrite map_app. simpl. repeat split.
  - intros x Hx. apply elem_of_app in Hx as [Hx|Hx].
    + specialize (H1 x Hx). lia.
    + apply list_elem_of_singleton in Hx. lia.
  - apply NoDup_app. split; [exact H2|]. split.
    + intros x Hx Hx'. apply list_elem_of_singleton in Hx'. specialize (H1 x Hx). lia.
    + apply NoDup_singleton.
  - intros x Hx. apply elem_of_app. apply elem_of_union in Hx as [Hx|Hx].
    + right. apply elem_of_singleton in Hx. subst. apply list_elem_of_here.
    + left. auto.
  - intros x Hx. apply elem_of_app. left. auto.
Qed.

Lemma quiet_tornDown itv mic scr out inp (tracked : gset nat) (b : Browser) :
  quiet tracked ∅ b (tornDown itv mic scr tracked out inp b).
Proof.
  destruct (tornDown_frame itv mic scr tracked out inp b) as (_ & Hn & Hs & _).
  repeat split; auto.
  - intros x Hx. by apply elem_of_empty in Hx.
  - intros x Hx. apply tornDown_stoppedSources in Hx. tauto.
Qed.

Lemma quiet_trans (t1 t2 t3 : gset nat) (b1 b2 b3 : Browser) :
  quiet t1 t2 b1 b2 → quiet t2 t3 b2 b3 → quiet t1 t3 b1 b3.
Proof.
  intros (Hs & Hn & Ht & Hp) (Hs' & Hn' & Ht' & Hp').
  repeat split; [congruence | congruence | auto |].
  intros x Hx. destruct (Hp' x Hx) as [H|H]; auto.
Qed.

(** LiveCoach *)

Lemma lcQuiet_stopSession (s : LiveCoach.State) : lcQuiet s (LiveCoach.stopSession s).
Proof. rewrite coach_stopSession_eq. apply quiet_tornDown. Qed.

Lemma lc_stopSession_wellStarted (s : LiveCoach.State) :
  wellStarted (LiveCoach.sourcesRef s) (LiveCoach.browser s) →
  wellStarted (LiveCoach.sourcesRef (LiveCoach.stopSession s))
    (LiveCoach.browser (LiveCoach.stopSession s)).
Proof. apply quiet_wellStarted, lcQuiet_stopSession. Qed.

Lemma lc_handle_wellStarted (decodeAudioData : JSString → AudioBuffer)
    (e : LiveCoach.Event) (s : LiveCoach.State) :
  wellStarted (LiveCoach.sourcesRef s) (LiveCoach.browser s) →
  wellStarted (LiveCoach.sourcesRef (LiveCoach.handle decodeAudioData e s))
    (LiveCoach.browser (LiveCoach.handle decodeAudioData e s)).
Proof.
  intros H. destruct e; unfold LiveCoach.handle; try exact H.
  - (* StartResume *)
    unfold LiveCoach.startSession_resume, LiveCoach.startSession_catch.
    destruct mic; [destruct conn|]; cbv zeta; try exact H;
      (apply lc_stopSession_wellStarted; exact H).
  - (* OnMessageBegin *)
    unfold LiveCoach.onmessage_begin. destruct (audioOf m); exact H.
  - (* OnMessageResume *)
    unfold LiveCoach.onmessage_resume.
    assert (Ha : wellStarted
      (LiveCoach.sourcesRef
         match audioOf m with
         | Some a =>
             let audioBuffer := decodeAudioData a in
             let '(source, b) := createBufferSource (LiveCoach.browser s) in
             let b := start source (LiveCoach.nextStartTimeRef s) audioBuffer b in
             let s := LiveCoach.set_browser b s in
             let s := LiveCoach.set_nextStartTimeRef
                        (LiveCoach.nextStartTimeRef s + duration audioBuffer) s in
             LiveCoach.set_sourcesRef ({[source]} ∪ LiveCoach.sourcesRef s) s
         | None => s
         end)
      (LiveCoach.browser
         match audioOf m with
         | Some a =>
             let audioBuffer := decodeAudioData a in
             let '(source, b) := createBufferSource (LiveCoach.browser s) in
             let b := start source (LiveCoach.nextStartTimeRef s) audioBuffer b in
             let s := LiveCoach.set_browser b s in
             let s := LiveCoach.set_nextStartTimeRef
                        (LiveCoach.nextStartTimeRef s + duration audioBuffer) s in
             LiveCoach.set_sourcesRef ({[source]} ∪ LiveCoach.sourcesRef s) s
         | None => s
         end)).
    { destruct (audioOf m); [|exact H]. by apply wellStarted_start. }
    cbv zeta. destruct (isInterrupted m); [|exact Ha].
    eapply quiet_wellStarted; [|exact Ha].
    repeat split; simpl; auto.
    + intros x Hx. by apply elem_of_empty in Hx.
    + intros x Hx. apply elem_of_union in Hx. tauto.
  - (* OnClose *)
    unfold LiveCoach.onclose.
    apply lc_stopSession_wellStarted; exact H.
  - (* OnError *)
    unfold LiveCoach.onerror.
    apply lc_stopSession_wellStarted; exact H.
  - (* Stop *)
    apply lc_stopSession_wellStarted; exact H.
  - (* ShareResume *)
    unfold LiveCoach.startScreenShare_resume, LiveCoach.startScreenShare_catch.
    destruct screen; [destruct (_ && _)|]; exact H.
  - (* ScreenEnded *)
    unfold LiveCoach.screenEnded. cbv zeta.
    destruct (LiveCoach.frameIntervalRef _); exact H.
  - (* SourceEnded *)
    eapply quiet_wellStarted; [|exact H]. unfold LiveCoach.sourceEnded.
    repeat split; simpl; auto. intros x Hx. apply elem_of_difference in Hx. tauto.
Qed.

(** SetupAssistant *)

Lemma saQuiet_stopLiveSession (dateNow : nat → N) (s : SetupAssistant.State) :
  saQuiet s (SetupAssistant.stopLiveSession dateNow s).
Proof.
  rewrite assistant_stopLiveSession_eq. unfold saQuiet.
  destruct (savePendingTranscript_session dateNow (assistantReleased s))
    as (-> & _ & _ & _ & -> & _).
  apply quiet_tornDown.
Qed.

Lemma sa_stopLiveSession_wellStarted (dateNow : nat → N) (s : SetupAssistant.State) :
  wellStarted (SetupAssistant.sourcesRef s) (SetupAssistant.browser s) →
  wellStarted (SetupAssistant.sourcesRef (SetupAssistant.stopLiveSession dateNow s))
    (SetupAssistant.browser (SetupAssistant.stopLiveSession dateNow s)).
Proof. apply quiet_wellStarted, saQuiet_stopLiveSession. Qed.

Lemma sa_handleToolCall_sources (dateNow : nat → N) (m : LiveServerMessage)
    (s : SetupAssistant.State) :
  SetupAssistant.sourcesRef (SetupAssistant.handleToolCall dateNow m s)
    = SetupAssistant.sourcesRef s.
Proof.
  unfold SetupAssistant.handleToolCall. destruct (toolCall m) as [[fcs]|]; [|reflexivity].
  simpl. revert s. induction fcs as [|fc fcs IH]; intros s; simpl; [reflexivity|].
  rewrite IH. unfold SetupAssistant.handleFunctionCall. by case_bool_decide.
Qed.

Lemma sa_onmessage_resume_sources (dateNow : nat → N)
    (decodeAudioData : JSString → AudioBuffer) (m : LiveServerMessage)
    (s : SetupAssistant.State) :
  SetupAssistant.sourcesRef (SetupAssistant.onmessage_resume dateNow decodeAudioData m s)
    = SetupAssistant.sourcesRef (SetupAssistant.handleAudio decodeAudioData m s).
Proof.
  unfold SetupAssistant.onmessage_resume. rewrite sa_handleToolCall_sources.
  unfold SetupAssistant.handleTurnComplete, SetupAssistant.handleTranscript.
  destruct (isTurnComplete m), (transcriptPart m); simpl;
    try destruct (truthy _); reflexivity.
Qed.

Lemma sa_handle_wellStarted (dateNow : nat → N) (decodeAudioData : JSString → AudioBuffer)
    (e : SetupAssistant.Event) (s : SetupAssistant.State) :
  wellStarted (SetupAssistant.sourcesRef s) (SetupAssistant.browser s) →
  wellStarted
    (SetupAssistant.sourcesRef (SetupAssistant.handle dateNow decodeAudioData e s))
    (SetupAssistant.browser (SetupAssistant.handle dateNow decodeAudioData e s)).
Proof.
  intros H. destruct e; unfold SetupAssistant.handle; try exact H.
  - (* SendBegin *)
    unfold SetupAssistant.handleSendMessage_begin.
    destruct (SetupAssistant.canSend s); exact H.
  - (* SendResume *)
    unfold SetupAssistant.handleSendMessage_resume. destruct r; exact H.
  - (* StartLiveResume *)
    unfold SetupAssistant.startLiveSession_resume, SetupAssistant.startLiveSession_catch.
    destruct mic; [destruct conn|]; cbv zeta; try exact H;
      (apply sa_stopLiveSession_wellStarted; exact H).
  - (* OnMessageBegin *)
    unfold SetupAssistant.onmessage_begin. destruct (audioOf m); exact H.
  - (* OnMessageResume *)
    rewrite sa_onmessage_resume_sources.
    destruct (sa_onmessage_resume_frame dateNow decodeAudioData m s) as [_ ->].
    unfold SetupAssistant.handleAudio. destruct (audioOf m); [|exact H].
    by apply wellStarted_start.
  - (* OnClose *)
    apply sa_stopLiveSession_wellStarted; exact H.
  - (* OnError *)
    unfold SetupAssistant.onerror. apply sa_stopLiveSession_wellStarted; exact H.
  - (* StopLive *)
    apply sa_stopLiveSession_wellStarted; exact H.
  - (* ShareResume *)
    unfold SetupAssistant.startScreenShare_resume, SetupAssistant.startScreenShare_catch.
    destruct screen; [destruct (_ && _)|]; exact H.
  - (* ScreenEnded *)
    unfold SetupAssistant.screenEnded. cbv zeta.
    destruct (SetupAssistant.frameIntervalRef _); exact H.
  - (* SourceEnded *)
    eapply quiet_wellStarted; [|exact H]. unfold SetupAssistant.sourceEnded.
    repeat split; simpl; auto. intros x Hx. apply elem_of_difference in Hx. tauto.
  - (* ClickDownload *)
    unfold SetupAssistant.clickDownload. destruct (Types.setupFile msg); exact H.
Qed.

(** X1.  Along any run of either component, every source that was
    started came from createBufferSource and was started exactly once, and
    only sources that were started are ever tracked or stopped (stop or a
    second start on any other source would throw). *)
Theorem sources_started_once (dateNow : nat → N) (decodeAudioData : JSString → AudioBuffer)
    (elc : list LiveCoach.Event) (esa : list SetupAssistant.Event)
    (lc : LiveCoach.State) (sa : SetupAssistant.State) :
  wellStarted (LiveCoach.sourcesRef lc) (LiveCoach.browser lc) →
  wellStarted (SetupAssistant.sourcesRef sa) (SetupAssistant.browser sa) →
  wellStarted (LiveCoach.sourcesRef (LiveCoach.run decodeAudioData elc lc))
    (LiveCoach.browser (LiveCoach.run decodeAudioData elc lc)) ∧
  wellStarted
    (SetupAssistant.sourcesRef (SetupAssistant.run dateNow decodeAudioData esa sa))
    (SetupAssistant.browser (SetupAssistant.run dateNow decodeAudioData esa sa)).
Proof.
  intros Hlc Hsa. split.
  - clear Hsa. revert lc Hlc. induction elc as [|e es IH]; intros lc H; [exact H|].
    apply IH. by apply lc_handle_wellStarted.
  - clear Hlc. revert sa Hsa. induction esa as [|e es IH]; intros sa H; [exact H|].
    apply IH. by apply sa_handle_wellStarted.
Qed.

Lemma wellStarted_empty : wellStarted ∅ emptyBrowser.
Proof.
  repeat split; try (intros x Hx; by apply elem_of_nil in Hx);
    try (intros x Hx; by apply elem_of_empty in Hx). apply NoDup_nil_2.
Qed.

(** The theorem at the interrupted coach session and the assistant
    session with two chunks. *)
Lemma sources_started_once_witness :
  wellStarted (LiveCoach.sourcesRef (LiveCoach.initial emptyBrowser))
    (LiveCoach.browser (LiveCoach.initial emptyBrowser)) ∧
  wellStarted (SetupAssistant.sourcesRef (SetupAssistant.initial 0 emptyBrowser))
    (SetupAssistant.browser (SetupAssistant.initial 0 emptyBrowser)) ∧
  NoDup (started (LiveCoach.browser
    (LiveCoach.run Samples.tenSeconds Samples.coachInterrupted
       (LiveCoach.initial emptyBrowser)))).
Proof.
  split; [exact wellStarted_empty|]. split; [exact wellStarted_empty|].
  destruct (sources_started_once Samples.tickingClock Samples.tenSeconds
              Samples.coachInterrupted Samples.assistantChunks
              (LiveCoach.initial emptyBrowser) (SetupAssistant.initial 0 emptyBrowser)
              wellStarted_empty wellStarted_empty) as [(_ & H & _) _].
  exact H.
Defined.

End SourcesFacts.

(** * Chunks that arrive in time play without a gap *)

Section Gapless.
Import JS Web Live Samples.

Lemma Qmax_left (x t : Q) : (t <= x)%Q → Qmax x t = x.
Proof.
  intros H. unfold Qmax, GenericMinMax.gmax.
  destruct (x ?= t)%Q eqn:E; try reflexivity.
  apply Qlt_alt in E. lra.
Qed.

(** X2.  Two messages with audio handled one after the other: when the
    second arrives no later than the scheduled end of the first chunk
    (playback has not run dry), its chunk starts exactly at that end, so
    the two chunks play without a gap, and the cursor ends at the end of
    the second chunk.  In LiveCoach this needs that neither message is an
    interrupted one. *)
Theorem chunks_in_time_are_gapless
    (dateNow : nat → N) (decodeAudioData : JSString → AudioBuffer)
    (t1 t2 : Q) (m1 m2 : LiveServerMessage) (a1 a2 : JSString)
    (lc : LiveCoach.State) (sa : SetupAssistant.State) :
  audioOf m1 = Some a1 → audioOf m2 = Some a2 →
  isInterrupted m1 = false → isInterrupted m2 = false →
  let clc := {| source := nextSource (LiveCoach.browser lc);
                when := Qmax (LiveCoach.nextStartTimeRef lc) t1;
                buffer := decodeAudioData a1 |} in
  let csa := {| source := nextSource (SetupAssistant.browser sa);
                when := Qmax (SetupAssistant.nextStartTimeRef sa) t1;
                buffer := decodeAudioData a1 |} in
  (t2 <= endTime clc)%Q → (t2 <= endTime csa)%Q →
  let lc' := LiveCoach.onmessage decodeAudioData t2 m2
               (LiveCoach.onmessage decodeAudioData t1 m1 lc) in
  let sa' := SetupAssistant.onmessage dateNow decodeAudioData t2 m2
               (SetupAssistant.onmessage dateNow decodeAudioData t1 m1 sa) in
  (scheduled (LiveCoach.browser lc') =
     scheduled (LiveCoach.browser lc) ++
       [ clc; {| source := S (source clc); when := endTime clc;
                 buffer := decodeAudioData a2 |} ] ∧
   LiveCoach.nextStartTimeRef lc' = (endTime clc + duration (decodeAudioData a2))%Q) ∧
  (scheduled (SetupAssistant.browser sa') =
     scheduled (SetupAssistant.browser sa) ++
       [ csa; {| source := S (source csa); when := endTime csa;
                 buffer := decodeAudioData a2 |} ] ∧
   SetupAssistant.nextStartTimeRef sa' = (endTime csa + duration (decodeAudioData a2))%Q).
Proof.
  intros Ha1 Ha2 Hi1 Hi2 clc csa Hlc Hsa lc' sa'. split.
  - destruct (lc_onmessage_audio decodeAudioData t1 m1 a1 lc Ha1 Hi1) as [Hs1 Hc1].
    destruct (lc_onmessage_audio decodeAudioData t2 m2 a2
                (LiveCoach.onmessage decodeAudioData t1 m1 lc) Ha2 Hi2) as [Hs2 Hc2].
    unfold lc'. rewrite Hs2, Hc2, Hs1, Hc1.
    fold clc. change (Qmax (LiveCoach.nextStartTimeRef lc) t1 + duration (decodeAudioData a1))%Q
      with (endTime clc).
    rewrite (Qmax_left _ _ Hlc). rewrite <- app_assoc. split; [|reflexivity].
    do 3 f_equal.
    unfold LiveCoach.onmessage, LiveCoach.onmessage_resume, LiveCoach.onmessage_begin.
    by rewrite Ha1, Hi1.
  - destruct (sa_onmessage_audio dateNow decodeAudioData t1 m1 a1 sa Ha1) as [Hs1 Hc1].
    destruct (sa_onmessage_audio dateNow decodeAudioData t2 m2 a2
                (SetupAssistant.onmessage dateNow decodeAudioData t1 m1 sa) Ha2)
      as [Hs2 Hc2].
    unfold sa'. rewrite Hs2, Hc2, Hs1, Hc1.
    fold csa. change (Qmax (SetupAssistant.nextStartTimeRef sa) t1
                      + duration (decodeAudioData a1))%Q with (endTime csa).
    rewrite (Qmax_left _ _ Hsa). rewrite <- app_assoc. split; [|reflexivity].
    do 3 f_equal.
    unfold SetupAssistant.onmessage.
    destruct (sa_onmessage_resume_frame dateNow decodeAudioData m1
                (SetupAssistant.onmessage_begin t1 m1 sa)) as [_ ->].
    unfold SetupAssistant.handleAudio, SetupAssistant.onmessage_begin. by rewrite Ha1.
Qed.

(** The theorem at two chunks of ten seconds arriving at times 0 and 3. *)
Lemma chunks_in_time_are_gapless_witness :
  let m1 := audioMessage (js "AAAA") in
  let m2 := audioMessage (js "BBBB") in
  let lc := LiveCoach.initial emptyBrowser in
  let sa := SetupAssistant.initial 0 emptyBrowser in
  audioOf m1 = Some (js "AAAA") ∧ audioOf m2 = Some (js "BBBB") ∧
  isInterrupted m1 = false ∧ isInterrupted m2 = false ∧
  (3 <= endTime {| source := 0; when := Qmax 0 0; buffer := tenSeconds (js "AAAA") |})%Q ∧
  map when (scheduled (SetupAssistant.browser
    (SetupAssistant.onmessage tickingClock tenSeconds 3 m2
       (SetupAssistant.onmessage tickingClock tenSeconds 0 m1 sa)))) =
  [ Qmax 0 0;
    endTime {| source := 0; when := Qmax 0 0; buffer := tenSeconds (js "AAAA") |} ].
Proof.
  intros m1 m2 lc sa.
  assert (H : (3 <= endTime {| source := 0; when := Qmax 0 0;
                               buffer := tenSeconds (js "AAAA") |})%Q)
    by (vm_compute; discriminate).
  repeat (split; [reflexivity|]). split; [exact H|].
  destruct (chunks_in_time_are_gapless tickingClock tenSeconds 0 3 m1 m2
              (js "AAAA") (js "BBBB") lc sa eq_refl eq_refl eq_refl eq_refl H H)
    as [_ [Hs _]].
  rewrite Hs. reflexivity.
Defined.

End Gapless.

(** * No transcript text is lost while messages are handled *)

Section TranscriptConservation.
Import JS Web Live Types Chat Spoken SetupAssistant.

Lemma spoken_app (l1 l2 : list ChatMessage) : spoken (l1 ++ l2) = spoken l1 ++ spoken l2.
Proof. unfold spoken. by rewrite map_app, concat_app. Qed.

Lemma spoken_flushed (dateNow : nat → N) (s : State) :
  spoken [flushed dateNow s] = transcriptBufferRef s.
Proof. unfold spoken, spokenOf. simpl. by rewrite app_nil_r. Qed.

Lemma spoken_setup_files (new : list ChatMessage) (fs : list SetupFile) :
  map setupFile new = map Some fs → spoken new = [].
Proof.
  revert fs. induction new as [|msg new IH]; intros fs H; [reflexivity|].
  destruct fs as [|f fs]; [discriminate|]. simpl in H. injection H as Hm Hr.
  unfold spoken, spokenOf in *. simpl. rewrite Hm. simpl. by apply (IH fs).
Qed.

Lemma onmessage_conserves (dateNow : nat → N) (decodeAudioData : JSString → AudioBuffer)
    (t : Q) (m : LiveServerMessage) (s : State) :
  ∃ new, messages (onmessage dateNow decodeAudioData t m s) = messages s ++ new ∧
         spoken new ++ transcriptBufferRef (onmessage dateNow decodeAudioData t m s)
           = transcriptBufferRef s ++ default [] (transcriptPart m).
Proof.
  unfold onmessage, onmessage_resume.
  set (s0 := handleAudio decodeAudioData m (onmessage_begin t m s)).
  assert (H0 : transcriptBufferRef s0 = transcriptBufferRef s ∧ messages s0 = messages s).
  { unfold s0. destruct (handleAudio_chat decodeAudioData m (onmessage_begin t m s))
      as (-> & _ & ->). unfold onmessage_begin. by destruct (audioOf m). }
  destruct H0 as [Hb0 Hm0].
  destruct (handleTranscript_buffer m s0) as (Hb1 & _ & Hm1).
  set (s1 := handleTranscript m s0) in *.
  pose proof (handleTurnComplete_flush dateNow m s1) as Hf.
  set (s2 := handleTurnComplete dateNow m s1) in *.
  assert (H2 : ∃ n2, messages s2 = messages s ++ n2 ∧
                     spoken n2 ++ transcriptBufferRef s2
                       = transcriptBufferRef s ++ default [] (transcriptPart m)).
  { destruct (isTurnComplete m && nonWhitespace (transcriptBufferRef s1)).
    - destruct Hf as (Hm & Hb & _). exists [flushed dateNow s1].
      rewrite Hm, Hm1, Hm0, Hb, app_nil_r, spoken_flushed, Hb1, Hb0. auto.
    - simpl in Hf. rewrite Hf. exists []. rewrite app_nil_r, Hm1, Hm0, Hb1, Hb0. auto. }
  destruct H2 as (n2 & Hm2 & Hsp2).
  rewrite handleToolCall_buffer.
  unfold handleToolCall. destruct (toolCall m) as [tc|].
  - destruct (foldl_handleFunctionCall_messages dateNow (functionCalls tc) s2)
      as (n3 & Hm3 & Hf3 & _).
    exists (n2 ++ n3). rewrite Hm3, Hm2, app_assoc. split; [reflexivity|].
    rewrite spoken_app.
    rewrite <- (List.map_map requestedFile Some) in Hf3.
    rewrite (spoken_setup_files n3 _ Hf3), app_nil_r. exact Hsp2.
  - exists n2. auto.
Qed.

(** X3.  While server messages are handled one after the other, no
    transcript text is lost or repeated: the transcript texts of the chat
    messages appended meanwhile (the turn-complete flushes), put end to end
    and followed by the buffer left, are the buffer the run found followed
    by every transcript part received, in arrival order. *)
Theorem transcript_conserved_while_handled
    (dateNow : nat → N) (decodeAudioData : JSString → AudioBuffer)
    (ms : list (Q * LiveServerMessage)) (s : State) :
  let s' := onmessages dateNow decodeAudioData ms s in
  ∃ new, messages s' = messages s ++ new ∧
         spoken new ++ transcriptBufferRef s' = transcriptBufferRef s ++ partsOf ms.
Proof.
  cbv zeta. unfold onmessages, partsOf. revert s.
  induction ms as [|[t m] ms IH]; intros s; simpl.
  - exists []. by rewrite !app_nil_r.
  - destruct (onmessage_conserves dateNow decodeAudioData t m s) as (n1 & Hm1 & Hs1).
    destruct (IH (onmessage dateNow decodeAudioData t m s)) as (n2 & Hm2 & Hs2).
    exists (n1 ++ n2). rewrite Hm2, Hm1, app_assoc. split; [reflexivity|].
    rewrite spoken_app, <- app_assoc, Hs2, app_assoc, Hs1, <- app_assoc. f_equal.
    unfold transcriptPart at 1.
    destruct (transcriptPart m) eqn:E; unfold transcriptPart in E; rewrite E; reflexivity.
Qed.

End TranscriptConservation.

(** * Tool responses *)

Section ToolResponsesFacts.
Import JS Web Live Types Chat ToolResponses SetupAssistant.



End ToolResponsesFacts.

(** * Identifiers are distinct when the clock moves on *)

Section IdentifierFacts.
Import JS Web Live Types Chat Identifiers SetupAssistant.

Lemma to_uint_nonnil (n : N) : N.to_uint n ≠ Decimal.Nil.
Proof.
  rewrite <- (DecimalN.Unsigned.of_to n), DecimalN.Unsigned.to_of.
  apply DecimalFacts.unorm_nonnil.
Qed.

Lemma unjs_js (s : string) : string_of_list_ascii (map ascii_of_N (js s)) = s.
Proof.
  unfold js. rewrite List.map_map.
  rewrite (List.map_ext _ (λ a, a)) by apply ascii_N_embedding.
  rewrite List.map_id. apply string_of_list_ascii_of_string.
Qed.

(** Reading back the decimal digits of a number gives the number. *)
Lemma fromString_toString (n : N) : fromString (toString n) = Some n.
Proof.
  unfold fromString, toString. rewrite unjs_js.
  rewrite NilZero.usu by apply to_uint_nonnil. simpl.
  by rewrite DecimalN.Unsigned.of_to.
Qed.

Lemma toString_inj (n n' : N) : toString n = toString n' → n = n'.
Proof.
  intros H. apply (f_equal fromString) in H.
  rewrite !fromString_toString in H. by injection H.
Qed.

Lemma toString_not_init (n : N) : toString n ≠ js "init".
Proof.
  intros H. apply (f_equal fromString) in H.
  rewrite fromString_toString in H. discriminate.
Qed.

Variable dateNow : nat → N.
Hypothesis clock : spaced dateNow.

Lemma distinctIds_append (k : N) r t img sf (s : State) :
  (k <= 1)%N → distinctIds dateNow s →
  distinctIds dateNow (appendMessage dateNow k r t img sf s).
Proof.
  intros Hk (made & Hr & Hnd & Hm). exists (S made).
  cbn -[Nat.mul N.add toString]. rewrite Hr.
  split; [lia|]. split.
  - rewrite map_app. cbn -[Nat.mul N.add toString]. apply NoDup_app. split; [exact Hnd|]. split.
    + intros i Hi Hi'. apply list_elem_of_singleton in Hi'. subst i.
      apply list_elem_of_fmap in Hi as (msg & Hid & Hmsg).
      destruct (Hm msg Hmsg) as [Hinit|(v & n & Hv & Hn & Hle)].
      * rewrite <- Hid in Hinit. by apply toString_not_init in Hinit.
      * rewrite <- Hid in Hv. apply toString_inj in Hv.
        pose proof (clock n made Hn). lia.
    + apply NoDup_singleton.
  - intros msg Hmsg. apply elem_of_app in Hmsg as [Hmsg|Hmsg].
    + destruct (Hm msg Hmsg) as [Hinit|(v & n & Hv & Hn & Hle)]; [by left|].
      right. exists v, n. split; [exact Hv|]. split; [lia|exact Hle].
    + apply list_elem_of_singleton in Hmsg. subst msg. cbn -[Nat.mul N.add toString].
      right. eexists _, made. split; [reflexivity|]. split; lia.
Qed.

Lemma distinctIds_savePendingTranscript (s : State) :
  distinctIds dateNow s → distinctIds dateNow (savePendingTranscript dateNow s).
Proof.
  intros H. unfold savePendingTranscript. destruct (truthy _); [|exact H].
  exact (distinctIds_append 0 _ _ _ _ s ltac:(lia) H).
Qed.

Lemma distinctIds_stopLiveSession (s : State) :
  distinctIds dateNow s → distinctIds dateNow (stopLiveSession dateNow s).
Proof.
  intros H. rewrite assistant_stopLiveSession_eq.
  apply distinctIds_savePendingTranscript. exact H.
Qed.

Lemma distinctIds_handleFunctionCall (s : State) (fc : FunctionCall) :
  distinctIds dateNow s → distinctIds dateNow (handleFunctionCall dateNow s fc).
Proof.
  intros H. unfold handleFunctionCall. case_bool_decide; [|exact H].
  exact (distinctIds_append 0 _ _ _ _ s ltac:(lia) H).
Qed.

Lemma distinctIds_handleToolCall (m : LiveServerMessage) (s : State) :
  distinctIds dateNow s → distinctIds dateNow (handleToolCall dateNow m s).
Proof.
  unfold handleToolCall. destruct (toolCall m) as [[fcs]|]; [|auto]. simpl.
  revert s. induction fcs as [|fc fcs IH]; intros s H; simpl; [exact H|].
  apply IH. by apply distinctIds_handleFunctionCall.
Qed.

Lemma distinctIds_handleTurnComplete (m : LiveServerMessage) (s : State) :
  distinctIds dateNow s → distinctIds dateNow (handleTurnComplete dateNow m s).
Proof.
  intros H. unfold handleTurnComplete. destruct (isTurnComplete m); [|exact H].
  destruct (truthy _); [|exact H].
  exact (distinctIds_append 0 _ _ _ _ s ltac:(lia) H).
Qed.

Lemma distinctIds_handle (decodeAudioData : JSString → AudioBuffer)
    (e : Event) (s : State) :
  distinctIds dateNow s → distinctIds dateNow (handle dateNow decodeAudioData e s).
Proof.
  intros H. destruct e; unfold handle; try exact H.
  - (* SendBegin *)
    unfold handleSendMessage_begin. destruct (canSend s); [|exact H].
    exact (distinctIds_append 0 _ _ _ _ s ltac:(lia) H).
  - (* SendResume *)
    unfold handleSendMessage_resume.
    destruct r; exact (distinctIds_append 1 _ _ _ _ s ltac:(lia) H).
  - (* ClearChat *)
    destruct H as (made & Hr & _). exists made. split; [exact Hr|].
    split; [apply NoDup_nil_2|]. intros msg Hmsg. by apply elem_of_nil in Hmsg.
  - (* StartLiveResume *)
    unfold startLiveSession_resume, startLiveSession_catch.
    destruct mic; [destruct conn|]; cbv zeta; try exact H;
      (apply distinctIds_stopLiveSession; exact H).
  - (* OnMessageBegin *)
    unfold onmessage_begin. destruct (audioOf m); exact H.
  - (* OnMessageResume *)
    unfold onmessage_resume.
    apply distinctIds_handleToolCall, distinctIds_handleTurnComplete.
    unfold handleTranscript, handleAudio.
    destruct (transcriptPart m), (audioOf m); exact H.
  - (* OnClose *)
    by apply distinctIds_stopLiveSession.
  - (* OnError *)
    unfold onerror. apply distinctIds_stopLiveSession. exact H.
  - (* StopLive *)
    by apply distinctIds_stopLiveSession.
  - (* ShareResume *)
    unfold startScreenShare_resume, startScreenShare_catch.
    destruct screen; [destruct (_ && _); exact H|].
    exact (distinctIds_append 0 _ _ _ _ s ltac:(lia) H).
  - (* ScreenEnded *)
    unfold screenEnded. cbv zeta. destruct (frameIntervalRef _); exact H.
  - (* ClickDownload *)
    unfold clickDownload. destruct (setupFile msg); exact H.
Qed.

Lemma distinctIds_run (decodeAudioData : JSString → AudioBuffer)
    (es : list Event) (s : State) :
  distinctIds dateNow s → distinctIds dateNow (run dateNow decodeAudioData es s).
Proof.
  revert s. induction es as [|e es IH]; intros s H; [exact H|].
  apply IH. by apply distinctIds_handle.
Qed.

Lemma distinctIds_initial (t0 : N) (b : Browser) : distinctIds dateNow (initial t0 b).
Proof.
  exists 0. split; [reflexivity|]. split; simpl.
  - apply NoDup_singleton.
  - intros msg Hmsg. apply list_elem_of_singleton in Hmsg. subst msg. by left.
Qed.

End IdentifierFacts.

(** X5.  When any two messages are made at least two milliseconds apart
    (the Date.now() readings their identifiers come from differ by two or
    more), the identifiers of the messages in the chat are pairwise distinct
    in every state the component can reach from its first render, whatever
    happens to it. *)
Theorem ids_distinct_when_messages_spaced (dateNow : nat → N)
    (decodeAudioData : JS.JSString → Web.AudioBuffer)
    (t0 : N) (b : Web.Browser) (es : list SetupAssistant.Event) :
  Identifiers.spaced dateNow →
  NoDup (map Types.id
    (SetupAssistant.messages
       (SetupAssistant.run dateNow decodeAudioData es (SetupAssistant.initial t0 b)))).
Proof.
  intros Hclock.
  destruct (distinctIds_run dateNow Hclock decodeAudioData es _
              (distinctIds_initial dateNow t0 b)) as (made & _ & H & _).
  exact H.
Qed.

(** The theorem at the session with two save calls, under a clock that
    gives each message a millisecond of its own. *)
Lemma ids_distinct_when_messages_spaced_witness :
  Identifiers.spaced Identifiers.pacedClock ∧
  NoDup (map Types.id
    (SetupAssistant.messages
       (SetupAssistant.run Identifiers.pacedClock Samples.tenSeconds
          Samples.assistantTwoSaves (SetupAssistant.initial 0 Web.emptyBrowser)))).
Proof.
  assert (H : Identifiers.spaced Identifiers.pacedClock).
  { intros i j Hij. unfold Identifiers.pacedClock.
    rewrite !(Nat.mul_comm 2), !Nat.div_mul by lia. lia. }
  split; [exact H|].
  exact (ids_distinct_when_messages_spaced Identifiers.pacedClock Samples.tenSeconds 0
           Web.emptyBrowser Samples.assistantTwoSaves H).
Defined.

(** * The text request *)

Section SendRequestFacts.
Import JS Web Types Chat SendRequest SetupAssistant.

Lemma truthy_nonWhitespace (s : JSString) : nonWhitespace s = true → truthy s = true.
Proof. destruct s; [discriminate|reflexivity]. Qed.

Lemma send_begin_while_loading (dateNow : nat → N) (s : State) :
  isLoading s = true → handleSendMessage_begin dateNow s = s.
Proof.
  intros H. unfold handleSendMessage_begin, canSend. by rewrite H, orb_true_r.
Qed.

Lemma send_begin_effect (dateNow : nat → N) (s : State) :
  canSend s = true →
  messages (handleSendMessage_begin dateNow s) = messages s ++ [newMessage dateNow s] ∧
  isLoading (handleSendMessage_begin dateNow s) = true ∧
  requests (browser (handleSendMessage_begin dateNow s))
    = requests (browser s) ++ [GenerateContent].
Proof.
  intros Hc. unfold handleSendMessage_begin. rewrite Hc.
  split; [reflexivity|]. split; reflexivity.
Qed.

(** X6.  handleSendMessage changes nothing whenever the send button is
    disabled (a request is pending, or neither text nor image is there), and
    also when the text consists of white space only and no image is
    selected, a state in which the button is enabled and the Enter key
    reaches the handler. *)
Theorem send_does_nothing (dateNow : nat → N) (s : State) :
  sendDisabled s = true ∨
  (nonWhitespace (inputText s) = false ∧ imageTruthy (selectedImage s) = false) →
  handleSendMessage_begin dateNow s = s.
Proof.
  intros H. unfold handleSendMessage_begin, canSend. rewrite truthy_trim.
  destruct H as [H|[Ht Hi]].
  - unfold sendDisabled in H. destruct (isLoading s); [by rewrite orb_true_r|].
    simpl in H. apply andb_true_iff in H as [Ht Hi].
    apply negb_true_iff in Ht, Hi. rewrite Hi.
    destruct (nonWhitespace (inputText s)) eqn:E; [|reflexivity].
    apply truthy_nonWhitespace in E. congruence.
  - by rewrite Ht, Hi.
Qed.

(** The theorem at a text of two spaces: the button is enabled, the
    handler does nothing. *)
Lemma send_does_nothing_witness :
  let s := setInputText (js "  ") (initial 0 emptyBrowser) in
  sendDisabled s = false ∧
  (nonWhitespace (inputText s) = false ∧ imageTruthy (selectedImage s) = false) ∧
  handleSendMessage_begin Samples.tickingClock s = s.
Proof.
  intros s. split; [reflexivity|]. split; [split; reflexivity|].
  apply (send_does_nothing Samples.tickingClock s). right. split; reflexivity.
Defined.

(** X7.  When handleSendMessage goes on (some text that is not white
    space or an image, and no request pending), it appends exactly one user
    message that carries the typed text as it is, not trimmed, and the
    selected image; it empties the input and the selection, raises the
    loading flag and issues exactly one generateContent request.  The parts
    of that request are the image part, if an image is attached, followed
    by exactly one text part: the typed text, or the analysis prompt when no
    text was typed. *)
Theorem send_appends_and_requests (dateNow : nat → N) (s : State) :
  canSend s = true →
  let s' := handleSendMessage_begin dateNow s in
  let msg := newMessage dateNow s in
  messages s' = messages s ++ [msg] ∧
  (role msg = user ∧ text msg = inputText s ∧
   image msg = imageOrUndefined (selectedImage s) ∧ setupFile msg = None) ∧
  (inputText s' = [] ∧ selectedImage s' = None ∧ isLoading s' = true) ∧
  requests (browser s') = requests (browser s) ++ [GenerateContent] ∧
  buildParts msg =
    match image msg with
    | Some img => [ InlineDataPart (split comma img !! 1) (js "image/jpeg") ]
    | None => []
    end ++
    [ TextPart (if truthy (inputText s) then inputText s else analysisPrompt) ].
Proof.
  intros Hc s' msg. unfold s', handleSendMessage_begin. rewrite Hc.
  repeat split.
  unfold buildParts, msg, newMessage. simpl.
  unfold canSend in Hc. rewrite truthy_trim in Hc.
  apply negb_true_iff, orb_false_iff in Hc as [Hc _].
  unfold imageOrUndefined in *.
  destruct (selectedImage s) as [img|] eqn:Ei; simpl in *.
  - destruct (truthy img) eqn:Et; simpl; rewrite ?Et; simpl.
    + by destruct (truthy (inputText s)).
    + rewrite andb_true_r in Hc. apply negb_false_iff, truthy_nonWhitespace in Hc.
      by rewrite Hc.
  - rewrite andb_true_r in Hc. apply negb_false_iff, truthy_nonWhitespace in Hc.
    by rewrite Hc.
Qed.

(** The theorem at a typed text with an attached image. *)
Lemma send_appends_and_requests_witness :
  let s := setSelectedImage (Some (js "data:image/png;base64,iVBORw0KGgo="))
             (setInputText (js "Too much understeer in T1 ") (initial 0 emptyBrowser)) in
  canSend s = true ∧
  buildParts (newMessage Samples.tickingClock s) =
    [ InlineDataPart (Some (js "iVBORw0KGgo=")) (js "image/jpeg");
      TextPart (js "Too much understeer in T1 ") ].
Proof.
  intros s. split; [reflexivity|].
  destruct (send_appends_and_requests Samples.tickingClock s eq_refl)
    as (_ & _ & _ & _ & H).
  rewrite H. reflexivity.
Defined.

Lemma split_no_separator (sep : N) (s : JSString) :
  sep ∉ s → split sep s = [s].
Proof.
  induction s as [|c s IH]; intros H; [reflexivity|]. simpl.
  apply not_elem_of_cons in H as [Hc Hs].
  destruct (c =? sep)%N eqn:E; [apply N.eqb_eq in E; congruence|].
  by rewrite (IH Hs).
Qed.

Lemma split_nonempty (sep : N) (s : JSString) : split sep s ≠ [].
Proof.
  destruct s as [|c s]; [discriminate|]. simpl.
  destruct (c =? sep)%N; [discriminate|]. by destruct (split sep s).
Qed.

Lemma split_head (sep : N) (s : JSString) : split sep s !! 0 = Some (upTo sep s).
Proof.
  induction s as [|c s IH]; [reflexivity|]. simpl.
  destruct (c =? sep)%N; [reflexivity|].
  destruct (split sep s) as [|p ps] eqn:E; [by apply split_nonempty in E|].
  simpl in *. by injection IH as ->.
Qed.

(** X8.  The base64 data of the image part is what stands between the
    first comma of the image string and the next comma or the end: for a
    data URL, the payload after its header.  An image string without any
    comma gives an image part whose data is undefined. *)
Theorem image_data_is_payload (header rest s : JSString) :
  comma ∉ header → comma ∉ s →
  split comma (header ++ comma :: rest) !! 1 = Some (upTo comma rest) ∧
  split comma s !! 1 = None.
Proof.
  intros Hh Hs. split.
  - induction header as [|c header IH]; simpl.
    + apply split_head.
    + apply not_elem_of_cons in Hh as [Hc Hh].
      destruct (c =? comma)%N eqn:E; [apply N.eqb_eq in E; congruence|].
      specialize (IH Hh).
      destruct (split comma (header ++ comma :: rest)) as [|p ps] eqn:E';
        [discriminate|]. exact IH.
  - by rewrite split_no_separator.
Qed.

(** The theorem at a JPEG data URL and at a string without comma. *)
Lemma image_data_is_payload_witness :
  (comma ∉ js "data:image/jpeg;base64") ∧ (comma ∉ js "not a data url") ∧
  split comma (js "data:image/jpeg;base64,/9j/4AAQ") !! 1 = Some (js "/9j/4AAQ").
Proof.
  assert (H1 : comma ∉ js "data:image/jpeg;base64").
  { vm_compute. intros H. repeat (apply elem_of_cons in H as [H|H]; [discriminate|]).
    by apply elem_of_nil in H. }
  assert (H2 : comma ∉ js "not a data url").
  { vm_compute. intros H. repeat (apply elem_of_cons in H as [H|H]; [discriminate|]).
    by apply elem_of_nil in H. }
  split; [exact H1|]. split; [exact H2|].
  exact (proj1 (image_data_is_payload (js "data:image/jpeg;base64") (js "/9j/4AAQ")
                  (js "not a data url") H1 H2)).
Defined.

(** Typing, selecting images and trying to send while a request is
    pending leave the request pending, the chat and the requests issued as
    they are. *)
Lemma composing_keeps_pending (dateNow : nat → N)
    (decodeAudioData : JSString → AudioBuffer) (es : list Event) (s : State) :
  forallb composing es = true → isLoading s = true →
  isLoading (run dateNow decodeAudioData es s) = true ∧
  messages (run dateNow decodeAudioData es s) = messages s ∧
  requests (browser (run dateNow decodeAudioData es s)) = requests (browser s).
Proof.
  unfold run. revert s. induction es as [|e es IH]; intros s Hes Hl; [auto|].
  cbn [forallb] in Hes. apply andb_true_iff in Hes as [He Hes]. cbn [foldl].
  assert (Hstep : isLoading (handle dateNow decodeAudioData e s) = true ∧
                  messages (handle dateNow decodeAudioData e s) = messages s ∧
                  requests (browser (handle dateNow decodeAudioData e s))
                    = requests (browser s)).
  { destruct e; try discriminate He; unfold handle.
    - auto.
    - auto.
    - auto.
    - rewrite send_begin_while_loading by exact Hl. auto. }
  destruct Hstep as (H1 & H2 & H3).
  destruct (IH _ Hes H1) as (H4 & H5 & H6).
  split; [exact H4|]. split; [by rewrite H5|by rewrite H6].
Qed.

(** X9.  A whole exchange.  Once handleSendMessage has gone on, whatever
    the user types, selects or tries to send until the reply or the error
    has come in, the request stays pending and no second request and no
    second user message is made: the guard on isLoading stops every further
    send, also with new text in the input.  The reply then appends exactly one
    model message after the user message and lowers the loading flag.  The
    model message carries the reply text, or the fallback text when the reply
    has no text, or the fixed error text; it is appended to whatever the chat
    holds when it arrives, so after other events in between (a cleared chat,
    for one) it follows those messages instead. *)
Theorem exchange_appends_two (dateNow : nat → N) (decodeAudioData : JSString → AudioBuffer)
    (r : option JSString + JSError) (es : list Event) (s : State) :
  canSend s = true →
  forallb composing es = true →
  let s1 := run dateNow decodeAudioData es (handleSendMessage_begin dateNow s) in
  let s2 := handleSendMessage_resume dateNow r s1 in
  let replyText :=
    match r with
    | inl responseText => orElse responseText (js "I couldn't generate a response.")
    | inr _ => js "Error connecting to the API."
    end in
  (* while the reply is awaited *)
  isLoading s1 = true ∧
  messages s1 = messages s ++ [newMessage dateNow s] ∧
  requests (browser s1) = requests (browser s) ++ [GenerateContent] ∧
  (* the reply *)
  isLoading s2 = false ∧
  requests (browser s2) = requests (browser s) ++ [GenerateContent] ∧
  (∃ reply, messages s2 = messages s ++ [newMessage dateNow s; reply] ∧
            role reply = model ∧ image reply = None ∧ setupFile reply = None ∧
            text reply = replyText) ∧
  (* the reply in any other state *)
  (∀ s', isLoading (handleSendMessage_resume dateNow r s') = false ∧
         ∃ reply, messages (handleSendMessage_resume dateNow r s') = messages s' ++ [reply] ∧
                  role reply = model ∧ text reply = replyText).
Proof.
  intros Hc Hes s1 s2 replyText.
  destruct (send_begin_effect dateNow s Hc) as (Hm & Hl & Hr).
  destruct (composing_keeps_pending dateNow decodeAudioData es _ Hes Hl) as (Hl1 & Hm1 & Hr1).
  fold s1 in Hl1, Hm1, Hr1. rewrite Hm in Hm1. rewrite Hr in Hr1.
  assert (Hany : ∀ s', isLoading (handleSendMessage_resume dateNow r s') = false ∧
            ∃ reply, messages (handleSendMessage_resume dateNow r s') = messages s' ++ [reply] ∧
                     role reply = model ∧ image reply = None ∧ setupFile reply = None ∧
                     text reply = replyText ∧
                     requests (browser (handleSendMessage_resume dateNow r s'))
                       = requests (browser s')).
  { intros s'. unfold handleSendMessage_resume, replyText.
    destruct r; (split; [reflexivity|]; eexists; split; [reflexivity|]; repeat split). }
  destruct (Hany s1) as (Hl2 & reply & Hm2 & Hro & Hi & Hsf & Ht & Hr2). fold s2 in Hl2, Hm2, Hr2.
  split; [exact Hl1|]. split; [exact Hm1|]. split; [exact Hr1|].
  split; [exact Hl2|]. split; [by rewrite Hr2|]. split.
  - exists reply. split; [by rewrite Hm2, Hm1, <- app_assoc|]. auto.
  - intros s'. destruct (Hany s') as (H1 & rep & H2 & H3 & _ & _ & H4 & _).
    split; [exact H1|]. exists rep. auto.
Qed.

(** The theorem at a typed question, a second question typed and sent
    with Enter while the first is pending, and a reply without text: the
    second question is still in the input, and the chat holds the first
    question and the fallback text. *)
Lemma exchange_appends_two_witness :
  let s := setInputText (js "Why does the rear step out?") (initial 0 emptyBrowser) in
  let es := [ InputChanged (js "And the front?"); SendBegin ] in
  let s1 := run Samples.tickingClock Samples.tenSeconds es
              (handleSendMessage_begin Samples.tickingClock s) in
  let s2 := handleSendMessage_resume Samples.tickingClock (inl None) s1 in
  canSend s = true ∧ forallb composing es = true ∧
  inputText s1 = js "And the front?" ∧
  requests (browser s2) = [GenerateContent] ∧
  map text (messages s2) =
    [ text greeting; js "Why does the rear step out?";
      js "I couldn't generate a response." ].
Proof.
  intros s es s1 s2. split; [reflexivity|]. split; [reflexivity|].
  split; [reflexivity|].
  destruct (exchange_appends_two Samples.tickingClock Samples.tenSeconds (inl None) es s
              eq_refl eq_refl)
    as (_ & _ & _ & _ & Hr & (reply & Hm & _ & _ & _ & Ht) & _).
  split; [exact Hr|].
  unfold s2, s1. rewrite Hm. rewrite !map_app. simpl. rewrite Ht. reflexivity.
Defined.

End SendRequestFacts.

(** * Failed starts and overwritten statuses *)

Section FailedStart.
Import JS Web Types Teardown.

Lemma coach_stop_summary (s : LiveCoach.State) :
  coachTornDown s (LiveCoach.stopSession s) ∧
  requests (LiveCoach.browser (LiveCoach.stopSession s)) = requests (LiveCoach.browser s) ∧
  LiveCoach.sessionRef (LiveCoach.stopSession s) = LiveCoach.sessionRef s.
Proof.
  split; [rewrite coach_stopSession_eq; apply coachStopped_tornDown|].
  split; [apply coach_stopSession_requests|]. by rewrite coach_stopSession_eq.
Qed.

Lemma assistant_stop_summary (dateNow : nat → N) (s : SetupAssistant.State) :
  assistantTornDown s (SetupAssistant.stopLiveSession dateNow s) ∧
  requests (SetupAssistant.browser (SetupAssistant.stopLiveSession dateNow s))
    = requests (SetupAssistant.browser s) ∧
  SetupAssistant.sessionRef (SetupAssistant.stopLiveSession dateNow s)
    = SetupAssistant.sessionRef s.
Proof.
  split; [apply assistant_stopLiveSession_tornDown|].
  split; [apply assistant_stopLiveSession_requests|].
  rewrite assistant_stopLiveSession_eq.
  unfold SetupAssistant.savePendingTranscript. by destruct (truthy _).
Qed.

(** What a [catch] block of a session start releases, from the refs the
    state holds when the exception arrives. *)
Lemma coach_catch_releases (e : JSError) (s : LiveCoach.State)
    (mic : option MediaStream) (inputCtx outputCtx : nat) :
  LiveCoach.streamRef s = mic →
  LiveCoach.audioContextRef s = Some outputCtx →
  LiveCoach.inputContextRef s = Some inputCtx →
  let s' := LiveCoach.startSession_catch e s in
  requests (LiveCoach.browser s') = requests (LiveCoach.browser s) ∧
  (∀ c, c = inputCtx ∨ c = outputCtx →
        c ∈ closedContexts (LiveCoach.browser s) ∨
        c ∈ closeRequested (LiveCoach.browser s')) ∧
  (∀ t, t ∈ tracksOf mic → t ∈ stoppedTracks (LiveCoach.browser s')) ∧
  LiveCoach.sessionRef s' = LiveCoach.sessionRef s ∧
  LiveCoach.isActive s' = false ∧ LiveCoach.streamRef s' = None.
Proof.
  intros Hm Ho Hi. unfold LiveCoach.startSession_catch. cbv zeta.
  set (s1 := LiveCoach.setError _ s).
  destruct (coach_stop_summary s1)
    as ((_ & _ & Ht & _ & Hs & _ & _ & _ & Hc & Ha & _) & Hr & Hses).
  split; [exact Hr|]. split; [|split; [|split; [exact Hses|split; [exact Ha|exact Hs]]]].
  - intros c [-> | ->]; apply Hc; [right; exact Hi|left; exact Ho].
  - intros t Hin. apply Ht. change (LiveCoach.streamRef s1) with (LiveCoach.streamRef s).
    by rewrite Hm.
Qed.

Lemma assistant_catch_releases (dateNow : nat → N) (e : JSError)
    (s : SetupAssistant.State) (mic : option MediaStream) (inputCtx outputCtx : nat) :
  SetupAssistant.streamRef s = mic →
  SetupAssistant.audioContextRef s = Some outputCtx →
  SetupAssistant.inputContextRef s = Some inputCtx →
  let s' := SetupAssistant.startLiveSession_catch dateNow e s in
  requests (SetupAssistant.browser s') = requests (SetupAssistant.browser s) ∧
  (∀ c, c = inputCtx ∨ c = outputCtx →
        c ∈ closedContexts (SetupAssistant.browser s) ∨
        c ∈ closeRequested (SetupAssistant.browser s')) ∧
  (∀ t, t ∈ tracksOf mic → t ∈ stoppedTracks (SetupAssistant.browser s')) ∧
  SetupAssistant.sessionRef s' = SetupAssistant.sessionRef s ∧
  SetupAssistant.isLive s' = false ∧ SetupAssistant.streamRef s' = None.
Proof.
  intros Hm Ho Hi. unfold SetupAssistant.startLiveSession_catch. cbv zeta.
  set (s1 := SetupAssistant.setLiveStatus _ s).
  destruct (assistant_stop_summary dateNow s1)
    as ((_ & _ & Ht & _ & Hs & _ & _ & _ & Hc & Ha & _) & Hr & Hses).
  split; [exact Hr|]. split; [|split; [|split; [exact Hses|split; [exact Ha|exact Hs]]]].
  - intros c [-> | ->]; apply Hc; [right; exact Hi|left; exact Ho].
  - intros t Hin. apply Ht.
    change (SetupAssistant.streamRef s1) with (SetupAssistant.streamRef s).
    by rewrite Hm.
Qed.

(** X10.  A session start that fails releases what it had acquired.  If
    getUserMedia is refused, no connection is attempted, the two audio
    contexts just created are asked to close (unless closed already), and no
    session is stored.  If the connect call throws, both contexts are asked
    to close as well and every track of the microphone stream just obtained
    is stopped.  In both cases the component is left inactive with null
    stream refs. *)
Theorem failed_start_releases (dateNow : nat → N) (inputCtx outputCtx : nat)
    (mic : MediaStream) (conn : nat + JSError) (e : JSError)
    (lc : LiveCoach.State) (sa : SetupAssistant.State) :
  let lc1 := LiveCoach.startSession_begin inputCtx outputCtx lc in
  let lcDenied := LiveCoach.startSession_resume (inr e) conn lc1 in
  let lcThrown := LiveCoach.startSession_resume (inl mic) (inr e) lc1 in
  let sa1 := SetupAssistant.startLiveSession_begin inputCtx outputCtx sa in
  let saDenied := SetupAssistant.startLiveSession_resume dateNow (inr e) conn sa1 in
  let saThrown := SetupAssistant.startLiveSession_resume dateNow (inl mic) (inr e) sa1 in
  let released (closed requested : gset nat) :=
    ∀ c, c = inputCtx ∨ c = outputCtx → c ∈ closed ∨ c ∈ requested in
  (* LiveCoach, microphone denied *)
  (requests (LiveCoach.browser lcDenied)
     = requests (LiveCoach.browser lc) ++ [GetUserMedia] ∧
   released (closedContexts (LiveCoach.browser lc))
            (closeRequested (LiveCoach.browser lcDenied)) ∧
   LiveCoach.sessionRef lcDenied = LiveCoach.sessionRef lc ∧
   LiveCoach.isActive lcDenied = false ∧ LiveCoach.streamRef lcDenied = None) ∧
  (* LiveCoach, connect throws *)
  (requests (LiveCoach.browser lcThrown)
     = requests (LiveCoach.browser lc) ++ [GetUserMedia; Connect] ∧
   released (closedContexts (LiveCoach.browser lc))
            (closeRequested (LiveCoach.browser lcThrown)) ∧
   (∀ t, t ∈ getTracks mic → t ∈ stoppedTracks (LiveCoach.browser lcThrown)) ∧
   LiveCoach.sessionRef lcThrown = LiveCoach.sessionRef lc ∧
   LiveCoach.isActive lcThrown = false ∧ LiveCoach.streamRef lcThrown = None) ∧
  (* SetupAssistant, microphone denied *)
  (requests (SetupAssistant.browser saDenied)
     = requests (SetupAssistant.browser sa) ++ [GetUserMedia] ∧
   released (closedContexts (SetupAssistant.browser sa))
            (closeRequested (SetupAssistant.browser saDenied)) ∧
   SetupAssistant.sessionRef saDenied = SetupAssistant.sessionRef sa ∧
   SetupAssistant.isLive saDenied = false ∧ SetupAssistant.streamRef saDenied = None) ∧
  (* SetupAssistant, connect throws *)
  (requests (SetupAssistant.browser saThrown)
     = requests (SetupAssistant.browser sa) ++ [GetUserMedia; Connect] ∧
   released (closedContexts (SetupAssistant.browser sa))
            (closeRequested (SetupAssistant.browser saThrown)) ∧
   (∀ t, t ∈ getTracks mic → t ∈ stoppedTracks (SetupAssistant.browser saThrown)) ∧
   SetupAssistant.sessionRef saThrown = SetupAssistant.sessionRef sa ∧
   SetupAssistant.isLive saThrown = false ∧ SetupAssistant.streamRef saThrown = None).
Proof.
  intros lc1 lcDenied lcThrown sa1 saDenied saThrown released.
  subst lcDenied lcThrown lc1 saDenied saThrown sa1 released.
  unfold LiveCoach.startSession_resume, SetupAssistant.startLiveSession_resume.
  cbv beta iota zeta.
  split; [|split; [|split]].
  - match goal with |- context [LiveCoach.startSession_catch e ?X] =>
      destruct (coach_catch_releases e X _ inputCtx outputCtx eq_refl eq_refl eq_refl)
        as (Hr & Hc & _ & Hses & Ha & Hs)
    end.
    split; [exact Hr|]. split; [exact Hc|]. split; [exact Hses|]. split; [exact Ha|exact Hs].
  - match goal with |- context [LiveCoach.startSession_catch e ?X] =>
      destruct (coach_catch_releases e X (Some mic) inputCtx outputCtx
                  eq_refl eq_refl eq_refl)
        as (Hr & Hc & Ht & Hses & Ha & Hs)
    end.
    split; [etransitivity; [exact Hr|]; cbn; by rewrite <- app_assoc|].
    split; [exact Hc|]. split; [exact Ht|]. split; [exact Hses|]. split; [exact Ha|exact Hs].
  - match goal with |- context [SetupAssistant.startLiveSession_catch dateNow e ?X] =>
      destruct (assistant_catch_releases dateNow e X _ inputCtx outputCtx
                  eq_refl eq_refl eq_refl)
        as (Hr & Hc & _ & Hses & Ha & Hs)
    end.
    split; [exact Hr|]. split; [exact Hc|]. split; [exact Hses|]. split; [exact Ha|exact Hs].
  - match goal with |- context [SetupAssistant.startLiveSession_catch dateNow e ?X] =>
      destruct (assistant_catch_releases dateNow e X (Some mic) inputCtx outputCtx
                  eq_refl eq_refl eq_refl)
        as (Hr & Hc & Ht & Hses & Ha & Hs)
    end.
    split; [etransitivity; [exact Hr|]; cbn; by rewrite <- app_assoc|].
    split; [exact Hc|]. split; [exact Ht|]. split; [exact Hses|]. split; [exact Ha|exact Hs].
Qed.

(** X11.  The status a handler sets just before it tears the session
    down is never the status it leaves: LiveCoach's onclose leaves
    'Disconnected', not 'Session Closed'; SetupAssistant's failed start and
    its onerror leave 'Ready', not 'Connection Failed' or 'Error'. *)
Theorem teardown_overwrites_status (dateNow : nat → N) (e : JSError)
    (mic : MediaStream + JSError) (conn : nat + JSError)
    (lc : LiveCoach.State) (sa : SetupAssistant.State) :
  LiveCoach.status (LiveCoach.onclose lc) = js "Disconnected" ∧
  SetupAssistant.liveStatus (SetupAssistant.startLiveSession_catch dateNow e sa)
    = js "Ready" ∧
  SetupAssistant.liveStatus (SetupAssistant.onerror dateNow sa) = js "Ready" ∧
  SetupAssistant.liveStatus
    (SetupAssistant.startLiveSession_resume dateNow mic conn sa) =
    match mic, conn with
    | inl _, inl _ => js "Connecting..."
    | _, _ => js "Ready"
    end.
Proof.
  assert (H : ∀ s, SetupAssistant.liveStatus (SetupAssistant.stopLiveSession dateNow s)
                   = js "Ready").
  { intros s. rewrite assistant_stopLiveSession_eq.
    unfold SetupAssistant.savePendingTranscript. by destruct (truthy _). }
  split; [|split; [|split]].
  - unfold LiveCoach.onclose. by rewrite coach_stopSession_eq.
  - unfold SetupAssistant.startLiveSession_catch. cbv zeta. apply H.
  - unfold SetupAssistant.onerror. apply H.
  - unfold SetupAssistant.startLiveSession_resume, SetupAssistant.startLiveSession_catch.
    cbv zeta. destruct mic; [destruct conn|]; try apply H. reflexivity.
Qed.

End FailedStart.

(** * Navigation *)

Section Navigation.
Import JS Web Types Teardown App.

(** X12.  For every view exactly one component is rendered and exactly
    one navigation item is shown active, the item whose click leads to this
    view; and along any sequence of clicks on navigation items the mounted
    component is the one rendered for the current view, which is the view of
    the last click. *)
Theorem one_screen_one_active_item (dateNow : nat → N) (t0 : N)
    (clicks : list NavItem) (b : Browser) (v : AppView) :
  (∃ c, rendered v = [c]) ∧
  (∃ item, List.filter (active v) navItems = [item] ∧ clicked item = v) ∧
  let a := navigate dateNow t0 clicks (initial b) in
  rendered (currentView a) = [componentOf (screen a)] ∧
  currentView a = List.last (map clicked clicks) DASHBOARD.
Proof.
  split; [destruct v; eexists; reflexivity|].
  split; [destruct v; eexists; split; reflexivity|].
  unfold navigate.
  assert (H : ∀ a d, rendered (currentView a) = [componentOf (screen a)] →
                currentView a = d →
                let a' := foldl (λ acc item, setCurrentView dateNow t0 (clicked item) acc)
                            a clicks in
                rendered (currentView a') = [componentOf (screen a')] ∧
                currentView a' = List.last (map clicked clicks) d).
  { induction clicks as [|item clicks IH]; intros a d Ha Hd; [simpl; auto|].
    cbn [foldl].
    assert (Hstep : rendered (currentView (setCurrentView dateNow t0 (clicked item) a))
                      = [componentOf (screen (setCurrentView dateNow t0 (clicked item) a))] ∧
                    currentView (setCurrentView dateNow t0 (clicked item) a) = clicked item).
    { unfold setCurrentView. case_bool_decide as E; [split; [exact Ha|by rewrite E]|].
      simpl. split; [by destruct (clicked item)|reflexivity]. }
    destruct Hstep as [H1 H2].
    destruct (IH _ (clicked item) H1 H2) as [H3 H4]. split; [exact H3|].
    rewrite H4. change (map clicked (item :: clicks))
      with (clicked item :: map clicked clicks). by rewrite last_cons_default. }
  apply H; reflexivity.
Qed.

Lemma browserOf_mount (v : AppView) (t0 : N) (b : Browser) :
  browserOf (mount v t0 b) = b.
Proof. by destruct v. Qed.

(** X13.  Selecting the view that is shown changes nothing; the session
    keeps running.  Selecting another view while LiveCoach or SetupAssistant
    is shown tears the live session down: in the browser the new screen
    finds, the frame interval is cleared, every track of the microphone and
    screen streams and every tracked source is stopped, and both audio
    contexts are closed or asked to close.  The state of the component left
    is gone: the setup wizard, when it is shown again, starts from the
    greeting alone. *)
Theorem leaving_a_view_tears_down (dateNow : nat → N) (t0 : N) (v : AppView) (a : State) :
  v ≠ currentView a →
  let a' := setCurrentView dateNow t0 v a in
  setCurrentView dateNow t0 (currentView a) a = a ∧
  currentView a' = v ∧
  match screen a with
  | Coach s =>
      ∃ s', coachTornDown s s' ∧ browserOf (screen a') = LiveCoach.browser s'
  | Assistant s =>
      ∃ s', assistantTornDown s s' ∧ browserOf (screen a') = SetupAssistant.browser s'
  | Home b | Telemetry b => browserOf (screen a') = b
  end ∧
  match screen a' with
  | Coach s =>
      LiveCoach.isActive s = false ∧ LiveCoach.streamRef s = None ∧
      LiveCoach.sourcesRef s = ∅
  | Assistant s =>
      map text (SetupAssistant.messages s) = [text SetupAssistant.greeting] ∧
      SetupAssistant.transcriptBufferRef s = [] ∧ SetupAssistant.isLive s = false
  | Home _ | Telemetry _ => True
  end.
Proof.
  intros Hv a'. split; [|split; [|split]].
  - unfold setCurrentView. by rewrite bool_decide_eq_true_2.
  - unfold a', setCurrentView. by rewrite bool_decide_eq_false_2.
  - unfold a', setCurrentView. rewrite bool_decide_eq_false_2 by exact Hv.
    cbn [screen]. rewrite browserOf_mount.
    destruct (screen a) as [b|s|s|b]; cbn [unmount]; [reflexivity| | |reflexivity].
    + exists (LiveCoach.stopSession s). split; [|reflexivity].
      rewrite coach_stopSession_eq. apply coachStopped_tornDown.
    + exists (SetupAssistant.stopLiveSession dateNow s). split; [|reflexivity].
      apply assistant_stopLiveSession_tornDown.
  - unfold a', setCurrentView. rewrite bool_decide_eq_false_2 by exact Hv.
    cbn [screen]. destruct v; cbn [mount]; [exact I| | |exact I].
    + split; [reflexivity|split; reflexivity].
    + split; [reflexivity|split; reflexivity].
Qed.

(** The theorem at a running coach session from which the user goes to
    the setup wizard: the microphone track and the screen track are
    stopped. *)
Lemma leaving_a_view_tears_down_witness :
  let a := {| currentView := LIVE_COACH;
              screen := Coach (LiveCoach.run Samples.tenSeconds Samples.coachRunning
                                 (LiveCoach.initial emptyBrowser)) |} in
  SETUP_WIZARD ≠ currentView a ∧
  currentView (setCurrentView Samples.tickingClock 0 SETUP_WIZARD a) = SETUP_WIZARD ∧
  stoppedTracks (browserOf (screen (setCurrentView Samples.tickingClock 0 SETUP_WIZARD a)))
    = {[ 0; 1 ]}.
Proof.
  intros a. assert (H : SETUP_WIZARD ≠ currentView a) by discriminate.
  split; [exact H|].
  split; [exact (proj1 (proj2 (leaving_a_view_tears_down Samples.tickingClock 0
                                 SETUP_WIZARD a H)))|].
  vm_compute. reflexivity.
Defined.

End Navigation.

(** * The simulated lap *)

Section TelemetryFacts.
Import JS Telemetry.
Local Open Scope Q_scope.

Lemma ltb_lt (x y : Q) : ltb x y = true ↔ (x < y)%Q.
Proof.
  unfold ltb. rewrite Qlt_alt. destruct (x ?= y)%Q; split; congruence.
Qed.

Lemma ltb_ge (x y : Q) : ltb x y = false ↔ (y <= x)%Q.
Proof.
  unfold ltb. destruct (x ?= y)%Q eqn:E; split; intros H; try congruence.
  - apply Qeq_alt in E. lra.
  - apply Qlt_alt in E. lra.
  - apply Qgt_alt in E. lra.
Qed.

(** The reference is ahead of the user at every index but the first,
    where the two are level. *)
Lemma user_never_faster (i : Z) :
  (0 <= i)%Z →
  let r := profile i in
  (i = 0%Z ∧ rawRefSpeed r - rawUserSpeed r == 0)%Q ∨
  ((0 < i)%Z ∧ (0 < rawRefSpeed r - rawUserSpeed r)%Q).
Proof.
  intros Hi. unfold profile.
  destruct (Z.eq_dec i 0%Z) as [->|Hn]; [left; split; reflexivity|]. right.
  split; [lia|].
  assert (Hx : (1 <= inject_Z i)%Q) by (unfold Qle; simpl; lia).
  destruct (i <? 20)%Z eqn:E1; simpl; [lra|].
  apply Z.ltb_ge in E1. assert (Hx1 : (20 <= inject_Z i)%Q) by (unfold Qle; simpl; lia).
  destruct (i <? 30)%Z eqn:E2; simpl; [lra|].
  apply Z.ltb_ge in E2. assert (Hx2 : (30 <= inject_Z i)%Q) by (unfold Qle; simpl; lia).
  destruct (i <? 40)%Z eqn:E3; simpl; [lra|].
  destruct (i <? 90)%Z eqn:E4; simpl; [lra|].
  apply Z.ltb_ge in E4. assert (Hx4 : (90 <= inject_Z i)%Q) by (unfold Qle; simpl; lia).
  lra.
Qed.

Lemma accumulate_step (cur : Q) (i : Z) :
  (0 <= i)%Z →
  accumulate cur (profile i) == (if (i =? 0)%Z then cur else cur + (15 # 1000)).
Proof.
  intros Hi. unfold accumulate.
  destruct (user_never_faster i Hi) as [[-> Hz]|[Hp Hd]].
  - simpl. reflexivity.
  - assert (E : (i =? 0)%Z = false) by (apply Z.eqb_neq; lia). rewrite E.
    cbv zeta. apply ltb_lt in Hd as Hd'. rewrite Hd'.
    assert (Hn : ltb (rawRefSpeed (profile i) - rawUserSpeed (profile i)) 0 = false)
      by (apply ltb_ge; lra).
    rewrite Hn. reflexivity.
Qed.

Lemma toFixed3_thousandths (x : Q) (k : Z) :
  (0 <= k)%Z → x == k # 1000 → toFixed3 x == k # 1000.
Proof.
  intros Hk Hx. unfold toFixed3.
  assert (H0 : ltb x 0 = false).
  { apply ltb_ge. rewrite Hx. unfold Qle. simpl. lia. }
  rewrite H0.
  assert (Hf : Qfloor (x * 1000 + (1 # 2)) = k).
  { assert (Hy : x * 1000 + (1 # 2) == inject_Z k + (1 # 2)).
    { rewrite Hx. unfold Qeq. simpl. lia. }
    rewrite (Qfloor_comp _ _ Hy).
    pose proof (Qfloor_le (inject_Z k + (1 # 2))) as H1.
    pose proof (Qlt_floor (inject_Z k + (1 # 2))) as H2.
    set (f := Qfloor (inject_Z k + (1 # 2))) in *.
    assert (H3 : (inject_Z f < inject_Z (k + 1))%Q).
    { rewrite inject_Z_plus. change (inject_Z 1) with 1. lra. }
    assert (H4 : (inject_Z k < inject_Z (f + 1))%Q).
    { rewrite inject_Z_plus in H2 |- *. change (inject_Z 1) with 1 in H2 |- *. lra. }
    unfold Qlt in H3, H4. simpl in H3, H4. lia. }
  rewrite Hf. reflexivity.
Qed.

(** The state of the loop after the indices [0 .. n]. *)
Lemma loop_state (n : nat) :
  let st := foldl body (0, []) (map Z.of_nat (seq 0%nat (S n))) in
  fst st == Z.of_nat (15 * n)%nat # 1000 ∧
  length (snd st) = S n ∧
  ∀ i p, snd st !! i = Some p →
         p = point (Z.of_nat i) (fst (foldl body (0, []) (map Z.of_nat (seq 0%nat (S i))))).
Proof.
  induction n as [|n IH].
  - simpl. split; [reflexivity|]. split; [reflexivity|].
    intros [|i] p H; [by injection H as <-|discriminate].
  - rewrite seq_S, map_app, foldl_app. cbn [map foldl].
    set (st := foldl body (0, []) (map Z.of_nat (seq 0%nat (S n)))) in *.
    destruct IH as (Hc & Hl & Hp). cbn [body fst snd].
    change (0 + S n)%nat with (S n).
    
    split; [|split].
    + rewrite accumulate_step by lia.
      assert (E : (Z.of_nat (S n) =? 0)%Z = false) by (apply Z.eqb_neq; lia).
      rewrite E, Hc. unfold Qeq, Qplus. simpl. lia.
    + rewrite length_app, Hl. simpl. lia.
    + intros i p H. destruct (decide (i < S n)%nat) as [Hi|Hi].
      * rewrite lookup_app_l in H by lia. by apply Hp.
      * rewrite lookup_app_r in H by lia. rewrite Hl in H.
        destruct (i - S n)%nat as [|k] eqn:Ek; [|discriminate].
        assert (i = S n) by lia.
        subst i. simpl in H. injection H as <-. f_equal.
        rewrite seq_S, map_app, foldl_app. reflexivity.
Qed.

(** X14.  The simulated lap of any length: it has one point per index
    from 0 to the last, the point of index i lies at distance 10 i, and its
    delta is 0.015 i: the user is level with the reference at the start and
    slower at every later index, so the time lost grows by 15 ms per point
    and never shrinks. *)
Theorem lap_delta_grows (last i : nat) (p : TelemetryPoint) :
  lapData last !! i = Some p →
  length (lapData last) = S last ∧
  distance p = inject_Z (Z.of_nat i * 10) ∧
  delta p == Z.of_nat (15 * i)%nat # 1000.
Proof.
  intros H. unfold lapData in *.
  destruct (loop_state last) as (_ & Hl & Hp).
  split; [exact Hl|].
  specialize (Hp i p H). destruct (loop_state i) as (Hc & _ & _).
  split; [by rewrite Hp|].
  rewrite Hp. unfold point. cbn [delta]. apply toFixed3_thousandths; [lia|exact Hc].
Qed.

(** The theorem at the last point of the lap the dashboard shows: 101
    points, the last one 1000 m from the start and 1.5 s down. *)
Lemma lap_delta_grows_witness :
  ∃ p, lapData 100%nat !! 100%nat = Some p ∧
       length (lapData 100%nat) = 101%nat ∧ distance p = 1000 ∧ delta p == 15 # 10.
Proof.
  assert (H : ∃ p, lapData 100%nat !! 100%nat = Some p)
    by (eexists; vm_compute; reflexivity).
  destruct H as [p Hp]. exists p.
  destruct (lap_delta_grows 100%nat 100%nat p Hp) as (Hl & Hd & Hdel).
  split; [exact Hp|]. split; [exact Hl|]. split; [exact Hd|].
  rewrite Hdel. reflexivity.
Defined.

(** X15.  Every point of the simulated lap, whatever its index, has
    speeds that are not negative and throttle and brake values between 0 and
    100: what the track profile computes is clamped before it is stored. *)
Theorem lap_points_in_range (last : nat) (p : TelemetryPoint) :
  p ∈ lapData last →
  (0 <= refSpeed p ∧ 0 <= userSpeed p)%Q ∧
  (0 <= refThrottle p <= 100 ∧ 0 <= userThrottle p <= 100)%Q ∧
  (0 <= refBrake p <= 100 ∧ 0 <= userBrake p <= 100)%Q.
Proof.
  intros Hp. apply list_elem_of_lookup in Hp as [i Hi].
  unfold lapData in Hi. destruct (loop_state last) as (_ & _ & H).
  rewrite (H i p Hi). unfold point. cbn [refSpeed userSpeed refThrottle userThrottle
                                          refBrake userBrake].
  assert (Hc : ∀ x, (0 <= Qmax 0 (Qmin 100 x) <= 100)%Q).
  { intros x. split; [apply Q.le_max_l|]. apply Q.max_lub; [lra|apply Q.le_min_l]. }
  repeat split; try apply Q.le_max_l; apply Hc.
Qed.

(** The theorem at point 35 of the lap shown, where the raw throttle
    values are 50 and 40. *)
Lemma lap_points_in_range_witness :
  ∃ p, p ∈ lapData 100%nat ∧ (0 <= userThrottle p <= 100)%Q.
Proof.
  assert (H : ∃ p, lapData 100%nat !! 35%nat = Some p)
    by (eexists; vm_compute; reflexivity).
  destruct H as [p Hp]. exists p.
  assert (Hin : p ∈ lapData 100%nat) by (eapply list_elem_of_lookup_2; exact Hp).
  split; [exact Hin|].
  exact (proj2 (proj1 (proj2 (lap_points_in_range 100%nat p Hin)))).
Defined.

End TelemetryFacts.

(** * The screen-share flag follows the stream *)

Section SharingFacts.
Import JS Web Live Types Teardown Sharing.

Variable dateNow : nat → N.
Variable decodeAudioData : JSString → AudioBuffer.

Lemma consistent_down : consistent (false, None, None).
Proof. split; [discriminate|]. intros [x Hx]. discriminate. Qed.

Lemma consistent_up (st : MediaStream) (i : option positive) : consistent (true, Some st, i).
Proof. split; intros _; by eexists. Qed.

Lemma consistent_ended (sharing : bool) (st : option MediaStream) (i : option positive) :
  consistent (sharing, st, i) → consistent (false, st, i).
Proof. intros [_ H]. split; [discriminate|exact H]. Qed.

Lemma lc_view_stop (s : LiveCoach.State) :
  lcView (LiveCoach.stopSession s) = (false, None, None).
Proof. by rewrite coach_stopSession_eq. Qed.

Lemma lc_handle_consistent (e : LiveCoach.Event) (s : LiveCoach.State) :
  consistent (lcView s) → consistent (lcView (LiveCoach.handle decodeAudioData e s)).
Proof.
  intros H. destruct e; unfold LiveCoach.handle; try exact H.
  - unfold LiveCoach.startSession_resume, LiveCoach.startSession_catch.
    destruct mic; [destruct conn|]; cbv zeta; try exact H;
      (rewrite lc_view_stop; apply consistent_down).
  - unfold LiveCoach.onmessage_begin. destruct (audioOf m); exact H.
  - unfold LiveCoach.onmessage_resume. cbv zeta.
    destruct (audioOf m), (isInterrupted m); exact H.
  - unfold LiveCoach.onclose. rewrite lc_view_stop. apply consistent_down.
  - unfold LiveCoach.onerror. rewrite lc_view_stop. apply consistent_down.
  - rewrite lc_view_stop. apply consistent_down.
  - unfold LiveCoach.startScreenShare_resume, LiveCoach.startScreenShare_catch.
    destruct screen; [|exact H]. cbv zeta. destruct (_ && _); apply consistent_up.
  - unfold LiveCoach.screenEnded. cbv zeta.
    destruct (LiveCoach.frameIntervalRef _) eqn:E;
      apply (consistent_ended (LiveCoach.isScreenSharing s)); exact H.
Qed.

Lemma sa_view_savePending (s : SetupAssistant.State) :
  saView (SetupAssistant.savePendingTranscript dateNow s) = saView s.
Proof. unfold SetupAssistant.savePendingTranscript. by destruct (truthy _). Qed.

Lemma sa_view_stop (s : SetupAssistant.State) :
  saView (SetupAssistant.stopLiveSession dateNow s) = (false, None, None).
Proof. by rewrite assistant_stopLiveSession_eq, sa_view_savePending. Qed.

Lemma sa_view_functionCall (s : SetupAssistant.State) (fc : FunctionCall) :
  saView (SetupAssistant.handleFunctionCall dateNow s fc) = saView s.
Proof. unfold SetupAssistant.handleFunctionCall. by case_bool_decide. Qed.

Lemma sa_view_toolCall (m : LiveServerMessage) (s : SetupAssistant.State) :
  saView (SetupAssistant.handleToolCall dateNow m s) = saView s.
Proof.
  unfold SetupAssistant.handleToolCall. destruct (toolCall m) as [[fcs]|]; [|done].
  cbn [functionCalls]. revert s. induction fcs as [|fc fcs IH]; intros s; [done|].
  cbn [foldl]. rewrite IH. apply sa_view_functionCall.
Qed.

Lemma sa_view_onmessage_resume (m : LiveServerMessage) (s : SetupAssistant.State) :
  saView (SetupAssistant.onmessage_resume dateNow decodeAudioData m s) = saView s.
Proof.
  unfold SetupAssistant.onmessage_resume. rewrite sa_view_toolCall.
  unfold SetupAssistant.handleTurnComplete, SetupAssistant.handleTranscript,
    SetupAssistant.handleAudio.
  destruct (isTurnComplete m), (transcriptPart m), (audioOf m);
    try destruct (truthy _); reflexivity.
Qed.

Lemma sa_handle_consistent (e : SetupAssistant.Event) (s : SetupAssistant.State) :
  consistent (saView s) →
  consistent (saView (SetupAssistant.handle dateNow decodeAudioData e s)).
Proof.
  intros H. destruct e; unfold SetupAssistant.handle; try exact H.
  - unfold SetupAssistant.handleSendMessage_begin.
    destruct (SetupAssistant.canSend s); exact H.
  - unfold SetupAssistant.handleSendMessage_resume. destruct r; exact H.
  - unfold SetupAssistant.startLiveSession_resume, SetupAssistant.startLiveSession_catch.
    destruct mic; [destruct conn|]; cbv zeta; try exact H;
      (rewrite sa_view_stop; apply consistent_down).
  - unfold SetupAssistant.onmessage_begin. destruct (audioOf m); exact H.
  - by rewrite sa_view_onmessage_resume.
  - unfold SetupAssistant.onclose. rewrite sa_view_stop. apply consistent_down.
  - unfold SetupAssistant.onerror. rewrite sa_view_stop. apply consistent_down.
  - rewrite sa_view_stop. apply consistent_down.
  - unfold SetupAssistant.startScreenShare_resume, SetupAssistant.startScreenShare_catch.
    destruct screen; [|exact H]. cbv zeta. destruct (_ && _); apply consistent_up.
  - unfold SetupAssistant.screenEnded. cbv zeta.
    destruct (SetupAssistant.frameIntervalRef _) eqn:E;
      apply (consistent_ended (SetupAssistant.isScreenSharing s)); exact H.
  - unfold SetupAssistant.clickDownload. destruct (Types.setupFile msg); exact H.
Qed.

(** X16.  Along any run of either component, from a state where it
    holds: the screen-sharing flag is up only while a screen stream is held,
    and a frame timer is remembered only while a screen stream is held.  No
    handler raises the flag or sets the timer without storing the stream,
    and the only one that drops the stream, the teardown, lowers the flag and
    forgets the timer with it. *)
Theorem sharing_flag_follows_stream
    (elc : list LiveCoach.Event) (esa : list SetupAssistant.Event)
    (lc : LiveCoach.State) (sa : SetupAssistant.State) :
  consistent (lcView lc) → consistent (saView sa) →
  consistent (lcView (LiveCoach.run decodeAudioData elc lc)) ∧
  consistent (saView (SetupAssistant.run dateNow decodeAudioData esa sa)).
Proof.
  intros Hlc Hsa. split.
  - clear Hsa. revert lc Hlc. induction elc as [|e es IH]; intros lc H; [exact H|].
    apply IH. by apply lc_handle_consistent.
  - clear Hlc. revert sa Hsa. induction esa as [|e es IH]; intros sa H; [exact H|].
    apply IH. by apply sa_handle_consistent.
Qed.

End SharingFacts.

(** The theorem at the coach session that shares its screen and the
    assistant session with two saved setups, both from the first render. *)
Lemma sharing_flag_follows_stream_witness :
  Sharing.consistent (Sharing.lcView (LiveCoach.initial Web.emptyBrowser)) ∧
  Sharing.consistent (Sharing.saView (SetupAssistant.initial 0 Web.emptyBrowser)) ∧
  Sharing.lcView (LiveCoach.run Samples.tenSeconds Samples.coachRunning
            (LiveCoach.initial Web.emptyBrowser)) ≠ (false, None, None) ∧
  Sharing.consistent (Sharing.lcView (LiveCoach.run Samples.tenSeconds Samples.coachRunning
                        (LiveCoach.initial Web.emptyBrowser))) ∧
  Sharing.consistent (Sharing.saView (SetupAssistant.run Samples.frozenClock Samples.tenSeconds
                        Samples.assistantTwoSaves (SetupAssistant.initial 0 Web.emptyBrowser))).
Proof.
  assert (H1 : Sharing.consistent (Sharing.lcView (LiveCoach.initial Web.emptyBrowser)))
    by apply consistent_down.
  assert (H2 : Sharing.consistent (Sharing.saView (SetupAssistant.initial 0 Web.emptyBrowser)))
    by apply consistent_down.
  split; [exact H1|]. split; [exact H2|].
  split; [vm_compute; discriminate|].
  exact (sharing_flag_follows_stream Samples.frozenClock Samples.tenSeconds
           Samples.coachRunning Samples.assistantTwoSaves _ _ H1 H2).
Defined.
